(** * my_web_board: task lifecycle, balance transfer and chat fan-out

    A shallow embedding of [shared/models.py], [shared/schemas.py],
    [quest_service/main.py] and [chat_service/main.py], and of the routing
    of [api_gateway/main.py] and the bookkeeping of
    [notification_service/main.py].

    - Rows of the [users] and [tasks] tables are kept in finite maps keyed by
      their primary key; [chat_messages] is a list of rows.
    - [Float] columns and Python [float]s are IEEE binary64 numbers
      ([PrimFloat.float]); integer ids and timestamps are [Z].
    - A request handler runs against a SQLAlchemy session: it mutates a
      working copy of the database and publishes it with [db.commit()].
      Handlers are written in a state-and-exception monad whose state records
      every committed database state, so that what other requests can observe
      is explicit.
    - Collaborators that are not part of the repository (JWT verification,
      the database's ORDER BY, the peers behind the WebSockets) are taken as
      section variables or as an interface with laws. *)

From Stdlib Require Import Floats.
From stdpp Require Import gmap strings list sorting.

Local Open Scope Z_scope.

(* 0.1 is read as the nearest binary64 number, as Python reads it. *)
Set Warnings "-inexact-float".

(** ** Python helpers *)

(** [min(a, b)] of the Python builtin: the first argument is kept unless a
    later one is strictly smaller. *)
Definition py_min (a b : float) : float :=
  if (b <? a)%float then b else a.

(** [s.split(sep)] for a non-empty separator: a left-to-right scan for
    non-overlapping occurrences of [sep].  [skip] counts the characters of a
    matched separator that are still to be dropped, [cur] is the piece being
    collected. *)
Fixpoint split_from (sep : string) (skip : nat) (cur : string) (s : string)
  : list string :=
  match s with
  | EmptyString => [cur]
  | String c s' =>
      match skip with
      | S k => split_from sep k cur s'
      | O =>
          if String.prefix sep s
          then cur :: split_from sep (String.length sep - 1) EmptyString s'
          else split_from sep 0 (cur +:+ String c EmptyString) s'
      end
  end.

Definition py_split (s sep : string) : list string :=
  split_from sep 0 EmptyString s.

(** [sub in s] on strings: [sub] occurs somewhere in [s]. *)
Fixpoint py_in (sub s : string) : bool :=
  String.prefix sub s
  || match s with
     | EmptyString => false
     | String _ s' => py_in sub s'
     end.

(** [s[n:]] on strings, for [n >= 0]. *)
Fixpoint py_str_from (n : nat) (s : string) : string :=
  match n, s with
  | O, _ => s
  | S _, EmptyString => EmptyString
  | S k, String _ s' => py_str_from k s'
  end.

(** [s.replace(old, new, 1)] for a non-empty [old]: the leftmost occurrence
    of [old] is replaced, the rest of the string is kept. *)
Fixpoint py_replace_first (old new s : string) : string :=
  if String.prefix old s
  then new +:+ py_str_from (String.length old) s
  else match s with
       | EmptyString => EmptyString
       | String c s' => String c (py_replace_first old new s')
       end.

(** [l[start:]] on lists: a negative [start] counts from the end, and a
    start beyond either end is clipped. *)
Definition py_slice_from {A : Type} (start : Z) (l : list A) : list A :=
  if bool_decide (start < 0)
  then drop (Z.to_nat (Z.max 0 (Z.of_nat (length l) + start))) l
  else drop (Z.to_nat start) l.

(** ** shared/schemas.py and shared/models.py *)

Inductive TaskStatus := OPEN | IN_PROGRESS | COMPLETED | CANCELLED.

#[global] Instance TaskStatus_eq_dec : EqDecision TaskStatus.
Proof. solve_decision. Defined.

(** The columns of [users] that the services read or write
    ([email], [hashed_password], [full_name] and [created_at] are never
    touched by the modelled handlers). *)
Module User.
Record t := mk {
  username : string;
  balance : float;
  rating : float;
  is_active : bool
}.

Definition with_balance (b : float) (u : t) : t :=
  {| username := username u; balance := b; rating := rating u;
     is_active := is_active u |}.

Definition with_rating (r : float) (u : t) : t :=
  {| username := username u; balance := balance u; rating := r;
     is_active := is_active u |}.
End User.

Module Task.
Record t := mk {
  title : string;
  description : option string;
  price : float;
  status : TaskStatus;
  category : option string;
  deadline : option Z;
  created_at : Z;
  updated_at : option Z;
  creator_id : Z;
  executor_id : option Z
}.

Definition with_status (s : TaskStatus) (x : t) : t :=
  {| title := title x; description := description x; price := price x;
     status := s; category := category x; deadline := deadline x;
     created_at := created_at x; updated_at := updated_at x;
     creator_id := creator_id x; executor_id := executor_id x |}.

Definition with_executor_id (e : option Z) (x : t) : t :=
  {| title := title x; description := description x; price := price x;
     status := status x; category := category x; deadline := deadline x;
     created_at := created_at x; updated_at := updated_at x;
     creator_id := creator_id x; executor_id := e |}.

Definition with_updated_at (u : option Z) (x : t) : t :=
  {| title := title x; description := description x; price := price x;
     status := status x; category := category x; deadline := deadline x;
     created_at := created_at x; updated_at := u;
     creator_id := creator_id x; executor_id := executor_id x |}.
End Task.

Module ChatMessage.
Record t := mk {
  id : Z;
  task_id : Z;
  sender_id : Z;
  message : string;
  created_at : Z
}.
End ChatMessage.

(** [TaskCreate]: the validated body of a create request. *)
Module TaskCreate.
Record t := mk {
  title : string;
  description : option string;
  price : float;
  category : option string;
  deadline : option Z
}.
End TaskCreate.

(** [ChatMessageCreate]: the validated body of a send-message request. *)
Module ChatMessageCreate.
Record t := mk {
  message : string;
  task_id : Z
}.
End ChatMessageCreate.

(** The database: the three tables and the two id sequences. *)
Record DB := mkDB {
  users : gmap Z User.t;
  tasks : gmap Z Task.t;
  chat_messages : list ChatMessage.t;
  tasks_id_seq : Z;
  chat_messages_id_seq : Z
}.

Definition set_users (f : gmap Z User.t → gmap Z User.t) (d : DB) : DB :=
  {| users := f (users d); tasks := tasks d;
     chat_messages := chat_messages d; tasks_id_seq := tasks_id_seq d;
     chat_messages_id_seq := chat_messages_id_seq d |}.

Definition set_tasks (f : gmap Z Task.t → gmap Z Task.t) (d : DB) : DB :=
  {| users := users d; tasks := f (tasks d);
     chat_messages := chat_messages d; tasks_id_seq := tasks_id_seq d;
     chat_messages_id_seq := chat_messages_id_seq d |}.

(** The data-model invariant that nobody executes a task of their own. *)
Definition executor_is_not_creator (d : DB) : Prop :=
  map_Forall (λ _ t, Task.executor_id t ≠ Some (Task.creator_id t)) (tasks d).

(** [db.query(User).filter(User.username == name).first()]; [username] is a
    unique column, so at most one row matches. *)
Definition user_by_username (d : DB) (name : string) : option (Z * User.t) :=
  snd <$> list_find (λ r, bool_decide (User.username (snd r) = name))
                    (map_to_list (users d)).

(** The unique constraint on [users.username]. *)
Definition usernames_unique (d : DB) : Prop :=
  ∀ i j u v, users d !! i = Some u → users d !! j = Some v →
    User.username u = User.username v → i = j.

(** How a task row may differ between two database states: the status moves
    along [open -> in_progress -> completed] or stays, the executor is set
    only on the way from [open] to [in_progress], and the columns filled in
    at creation stay what they were. *)
Definition status_step (a b : TaskStatus) : Prop :=
  a = b ∨ (a = OPEN ∧ b = IN_PROGRESS) ∨ (a = IN_PROGRESS ∧ b = COMPLETED).

Definition task_evolves (t t' : Task.t) : Prop :=
  Task.title t' = Task.title t
  ∧ Task.description t' = Task.description t
  ∧ Task.price t' = Task.price t
  ∧ Task.category t' = Task.category t
  ∧ Task.deadline t' = Task.deadline t
  ∧ Task.created_at t' = Task.created_at t
  ∧ Task.creator_id t' = Task.creator_id t
  ∧ status_step (Task.status t) (Task.status t')
  ∧ (Task.executor_id t' = Task.executor_id t
     ∨ (Task.status t = OPEN ∧ Task.status t' = IN_PROGRESS)).

(** ** Exceptions and results

    What a handler raises: an [HTTPException] that FastAPI turns into the
    response, or any other Python exception (an [IntegrityError] of the
    database, a [RuntimeError] of a WebSocket, an [IndexError], ...), which
    the handlers' [except Exception] branches catch. *)

Inductive Exception :=
| HTTPException (status_code : Z) (detail : string)
| OtherException (what : string).

Inductive Result (A : Type) :=
| Return (a : A)
| Raise (e : Exception).
Arguments Return {A} a.
Arguments Raise {A} e.

Definition HTTP_400_BAD_REQUEST : Z := 400.
Definition HTTP_401_UNAUTHORIZED : Z := 401.
Definition HTTP_403_FORBIDDEN : Z := 403.
Definition HTTP_404_NOT_FOUND : Z := 404.
Definition WS_1008_POLICY_VIOLATION : Z := 1008.
Definition WS_1011_INTERNAL_ERROR : Z := 1011.

(** ** The handler monad: state plus exceptions *)

Section monad.
Context {St : Type}.

Definition M (A : Type) : Type := St → Result A * St.

Definition ret {A} (a : A) : M A := λ s, (Return a, s).

Definition bind {A B} (m : M A) (k : A → M B) : M B :=
  λ s, match m s with
       | (Return a, s') => k a s'
       | (Raise e, s') => (Raise e, s')
       end.

Definition raise {A} (e : Exception) : M A := λ s, (Raise e, s).

Definition gets {A} (f : St → A) : M A := λ s, (Return (f s), s).

Definition modify (f : St → St) : M unit := λ s, (Return tt, f s).

(** [try: body except ...: handler] *)
Definition try_except {A} (body : M A) (handler : Exception → M A) : M A :=
  λ s, match body s with
       | (Return a, s') => (Return a, s')
       | (Raise e, s') => handler e s'
       end.

(** The two [except] clauses the HTTP handlers end with:
    [except HTTPException: raise] and
    [except Exception: raise HTTPException(code, detail)]. *)
Definition reraise_http {A} (code : Z) (failure : string) (e : Exception)
  : M A :=
  match e with
  | HTTPException _ _ => raise e
  | OtherException _ => raise (HTTPException code failure)
  end.

(** [for x in l: body(x)] *)
Fixpoint for_each {A} (l : list A) (body : A → M unit) : M unit :=
  match l with
  | [] => ret tt
  | x :: l' => bind (body x) (λ _, for_each l' body)
  end.
End monad.
Arguments M St A : clear implicits.

Notation "'let*' x := c 'in' k" := (bind c (λ x, k))
  (at level 10, x pattern, c at level 100, k at level 200,
   format "'[v' 'let*'  x  :=  c  'in'  '/' k ']'").
Notation "c ;;; k" := (bind c (λ _, k))
  (at level 100, k at level 200, right associativity).

(** ** The database's ORDER BY

    [query.order_by(col.desc())] is evaluated by the database.  All the code
    relies on is that the rows come back rearranged and non-increasing in the
    key; how rows with equal keys are arranged is the database's choice. *)

Definition key_ge {A : Type} (key : A → Z) : relation A :=
  λ x y, key y ≤ key x.

#[global] Instance key_ge_dec {A : Type} (key : A → Z) (x y : A) :
  Decision (key_ge key x y).
Proof. unfold key_ge. apply _. Defined.

Class OrderBy := {
  order_by_desc : ∀ {A : Type}, (A → Z) → list A → list A;
  order_by_desc_perm : ∀ {A : Type} (key : A → Z) (l : list A),
    order_by_desc key l ≡ₚ l;
  order_by_desc_sorted : ∀ {A : Type} (key : A → Z) (l : list A),
    StronglySorted (key_ge key) (order_by_desc key l)
}.

(** One such database: a merge sort on the key. *)
Definition merge_sort_desc {A : Type} (key : A → Z) (l : list A) : list A :=
  merge_sort (key_ge key) l.

Lemma merge_sort_desc_perm {A : Type} (key : A → Z) (l : list A) :
  merge_sort_desc key l ≡ₚ l.
Proof. apply merge_sort_Permutation. Qed.

Lemma merge_sort_desc_sorted {A : Type} (key : A → Z) (l : list A) :
  StronglySorted (key_ge key) (merge_sort_desc key l).
Proof.
  apply StronglySorted_merge_sort.
  - intros x y z Hxy Hyz. unfold key_ge in *. lia.
  - intros x y. unfold key_ge. lia.
Qed.

#[global] Instance merge_order_by : OrderBy := {|
  order_by_desc := @merge_sort_desc;
  order_by_desc_perm := @merge_sort_desc_perm;
  order_by_desc_sorted := @merge_sort_desc_sorted
|}.


(** ** What the database stores

    PostgreSQL refuses an INSERT whose values do not fit their columns: a
    text value may not hold the character U+0000, a [String(n)] column holds
    at most [n] characters, and so on.  SQLAlchemy sends the INSERT in the
    flush that [db.commit()] starts with, and the refusal comes back as an
    exception of [db.commit()].  The handlers rely on nothing but that
    outcome, so which rows are stored is an interface of the database, like
    the order of its rows. *)

Class Stores := {
  stores_task : Task.t → bool;
  stores_chat_message : ChatMessage.t → bool
}.

(** One such database: it looks at the text columns, [tasks.title] being a
    [String(200)], [tasks.category] a [String(50)], and [tasks.description]
    and [chat_messages.message] of type [Text]. *)
Definition has_nul (s : string) : bool :=
  py_in (String Ascii.zero EmptyString) s.

(** The number of characters of a string held as UTF-8: the bytes that do
    not continue a character. *)
Fixpoint utf8_length (s : string) : nat :=
  match s with
  | EmptyString => 0%nat
  | String (Ascii.Ascii _ _ _ _ _ _ b6 b7) s' =>
      ((if b7 && negb b6 then 0 else 1) + utf8_length s')%nat
  end.

Definition fits_text (s : string) : bool := negb (has_nul s).

Definition fits_varchar (n : nat) (s : string) : bool :=
  negb (has_nul s) && bool_decide (utf8_length s ≤ n)%nat.

Definition text_columns_store_task (row : Task.t) : bool :=
  fits_varchar 200 (Task.title row)
  && from_option fits_text true (Task.description row)
  && from_option (fits_varchar 50) true (Task.category row).

Definition text_columns_store_chat_message (row : ChatMessage.t) : bool :=
  fits_text (ChatMessage.message row).

#[global] Instance text_columns : Stores := {|
  stores_task := text_columns_store_task;
  stores_chat_message := text_columns_store_chat_message
|}.

(** ** The SQLAlchemy session of one request

    [pending] is the session's working copy, [committed] the database states
    published by [db.commit()] in order (what other requests can observe),
    [published] the notifications handed to [rabbitmq_client].  When the
    request ends, [get_db] closes the session and the working copy is
    dropped: the database is left in the last committed state. *)

Record Session := mkSession {
  pending : DB;
  committed : list DB;
  published : list (string * Z)
}.

Definition begin (d : DB) : Session :=
  {| pending := d; committed := []; published := [] |}.

Definition db_after (d : DB) (s : Session) : DB :=
  default d (last (committed s)).

Definition update_pending (f : DB → DB) : M Session unit :=
  modify (λ s, {| pending := f (pending s); committed := committed s;
                  published := published s |}).

(** [db.commit()], once its flush has gone through: the working copy is
    published.  The INSERT of a new row is part of [add_task] and
    [add_chat_message] below, where the database's refusal is raised; the
    UPDATEs of [take_task] and [complete_task] write a status, ids of loaded
    rows, a timestamp and binary64 numbers, which fit their columns. *)
Definition commit : M Session unit :=
  modify (λ s, {| pending := pending s;
                  committed := committed s ++ [pending s];
                  published := published s |}).

(** [rabbitmq_client.publish_message]: catches every exception of its own and
    returns a flag that no caller reads. *)
Definition publish_message (routing_key : string) (task_id : Z)
  : M Session unit :=
  modify (λ s, {| pending := pending s; committed := committed s;
                  published := published s ++ [(routing_key, task_id)] |}).

(** An attribute read on the ORM object of user [uid].  The object was
    loaded by this session, so the row is there. *)
Definition user_row (uid : Z) : M Session User.t :=
  let* r := gets (λ s, users (pending s) !! uid) in
  match r with
  | Some u => ret u
  | None => raise (OtherException "ObjectDeletedError")
  end.

(** [db.add(task)] followed by the flush of [db.commit()]: the row gets the
    next value of the id sequence.  A row that the database refuses is a
    [DataError] (or the driver's [ValueError]), a primary key that is
    already taken an [IntegrityError]; nothing is stored then. *)
Definition add_task `{Stores} (row : Task.t) : M Session Z :=
  let* d := gets pending in
  let id := tasks_id_seq d + 1 in
  if negb (stores_task row) then raise (OtherException "DataError")
  else
    match tasks d !! id with
    | Some _ => raise (OtherException "IntegrityError")
    | None =>
        update_pending (λ d,
          {| users := users d; tasks := <[id := row]> (tasks d);
             chat_messages := chat_messages d; tasks_id_seq := id;
             chat_messages_id_seq := chat_messages_id_seq d |});;;
        ret id
    end.

(** [db.add(chat_message)] likewise; [id] and [created_at] are filled in by
    the database. *)
Definition add_chat_message `{Stores} (task_id sender_id : Z)
    (message : string) (server_now : Z) : M Session ChatMessage.t :=
  let* d := gets pending in
  let id := chat_messages_id_seq d + 1 in
  let row :=
    {| ChatMessage.id := id; ChatMessage.task_id := task_id;
       ChatMessage.sender_id := sender_id; ChatMessage.message := message;
       ChatMessage.created_at := server_now |} in
  if negb (stores_chat_message row) then raise (OtherException "DataError")
  else if bool_decide (id ∈ ChatMessage.id <$> chat_messages d)
  then raise (OtherException "IntegrityError")
  else
    update_pending (λ d,
      {| users := users d; tasks := tasks d;
         chat_messages := chat_messages d ++ [row];
         tasks_id_seq := tasks_id_seq d; chat_messages_id_seq := id |});;;
    ret row.

(** The claims of a verified token that the services read. *)
Record Payload := mkPayload { sub : option string }.

(** Response bodies. *)
Inductive Response :=
| TaskResponse (id : Z) (t : Task.t)
| TaskListResponse (l : list (Z * Task.t))
| TakeResponse (message : string) (task_id : Z)
| CompleteResponse (message : string) (task_id : Z) (payment : float)
| ChatMessageResponse (m : ChatMessage.t)
| ChatMessageListResponse (l : list ChatMessage.t).

(** * quest_service/main.py *)

Module quest_service.
Section handlers.
(** [shared.security.verify_token], the clock of the service
    ([datetime.utcnow()]) and the clock of the database ([func.now()]). *)
Context (verify_token : string → option Payload).
Context (utcnow : Z) (server_now : Z).
Context `{OrderBy} `{Stores}.

Definition get_current_user (authorization : string) : M Session Z :=
  try_except
    (if bool_decide (authorization = "")
        || negb (String.prefix "Bearer " authorization)
     then raise (HTTPException HTTP_401_UNAUTHORIZED
                   "Требуется аутентификация")
     else
       let* token :=
         match py_split authorization "Bearer " !! 1%nat with
         | Some token => ret token
         | None => raise (OtherException "IndexError")
         end in
       match verify_token token with
       | None => raise (HTTPException HTTP_401_UNAUTHORIZED "Неверный токен")
       | Some payload =>
           match sub payload with
           | None =>
               raise (HTTPException HTTP_401_UNAUTHORIZED "Неверный токен")
           | Some username =>
               if bool_decide (username = "")
               then raise (HTTPException HTTP_401_UNAUTHORIZED
                             "Неверный токен")
               else
                 let* r := gets (λ s, user_by_username (pending s) username) in
                 match r with
                 | None =>
                     raise (HTTPException HTTP_404_NOT_FOUND
                              "Пользователь не найден")
                 | Some (uid, user) =>
                     if User.is_active user then ret uid
                     else raise (HTTPException HTTP_400_BAD_REQUEST
                                   "Пользователь неактивен")
                 end
           end
       end)
    (reraise_http HTTP_401_UNAUTHORIZED "Ошибка аутентификации").

Definition create_task (task_data : TaskCreate.t) (current_user : Z)
  : M Session Response :=
  try_except
    (let* cu := user_row current_user in
     if (User.balance cu <? TaskCreate.price task_data)%float
     then raise (HTTPException HTTP_400_BAD_REQUEST
                   "Недостаточно средств на балансе")
     else
       let task :=
         {| Task.title := TaskCreate.title task_data;
            Task.description := TaskCreate.description task_data;
            Task.price := TaskCreate.price task_data;
            Task.status := OPEN;
            Task.category := TaskCreate.category task_data;
            Task.deadline := TaskCreate.deadline task_data;
            Task.created_at := server_now;
            Task.updated_at := None;
            Task.creator_id := current_user;
            Task.executor_id := None |} in
       let* id := add_task task in
       commit;;;
       publish_message "task.created" id;;;
       ret (TaskResponse id task))
    (reraise_http HTTP_400_BAD_REQUEST "Не удалось создать задание").

(** The filters of [get_tasks], one [query.filter] each.  A filter is applied
    when its parameter is truthy ([status], [category]) or not [None] (the
    prices). *)
Definition status_filter (status : option TaskStatus) (t : Task.t) : Prop :=
  match status with
  | Some st => Task.status t = st
  | None => True
  end.

Definition category_filter (category : option string) (t : Task.t) : Prop :=
  match category with
  | Some c => if bool_decide (c = "") then True else Task.category t = Some c
  | None => True
  end.

Definition min_price_filter (min_price : option float) (t : Task.t) : Prop :=
  match min_price with
  | Some p => (p <=? Task.price t)%float = true
  | None => True
  end.

Definition max_price_filter (max_price : option float) (t : Task.t) : Prop :=
  match max_price with
  | Some p => (Task.price t <=? p)%float = true
  | None => True
  end.

#[global] Instance status_filter_dec status t :
  Decision (status_filter status t).
Proof. destruct status; simpl; apply _. Defined.

#[global] Instance category_filter_dec category t :
  Decision (category_filter category t).
Proof.
  destruct category as [c|]; simpl; [destruct (bool_decide (c = ""))|];
    apply _.
Defined.

#[global] Instance min_price_filter_dec min_price t :
  Decision (min_price_filter min_price t).
Proof. destruct min_price; simpl; apply _. Defined.

#[global] Instance max_price_filter_dec max_price t :
  Decision (max_price_filter max_price t).
Proof. destruct max_price; simpl; apply _. Defined.

(** A row passes [get_tasks] when it passes the four filters. *)
Definition task_matches (status : option TaskStatus) (category : option string)
    (min_price max_price : option float) (t : Task.t) : Prop :=
  status_filter status t ∧ category_filter category t
  ∧ min_price_filter min_price t ∧ max_price_filter max_price t.

(** The parameters arrive validated: [skip] and [limit] are declared with
    [Query(ge=0)] and [Query(ge=1, le=1000)].  [skip] has no upper bound: an
    OFFSET from [2^63] on is refused by the database, as is a text
    parameter that holds the character U+0000, when the query is sent by
    [.all()].  The name [status] of the first parameter hides the [status]
    module inside the function, so the [except] branch itself fails with an
    [AttributeError]. *)
Definition get_tasks (status : option TaskStatus) (category : option string)
    (min_price max_price : option float) (skip limit : nat)
  : M Session Response :=
  try_except
    (let* d := gets pending in
     let query := map_to_list (tasks d) in
     let query := filter (λ r, status_filter status (snd r)) query in
     let query := filter (λ r, category_filter category (snd r)) query in
     let query := filter (λ r, min_price_filter min_price (snd r)) query in
     let query := filter (λ r, max_price_filter max_price (snd r)) query in
     let query := order_by_desc (λ r, Task.created_at (snd r)) query in
     if bool_decide (2 ^ 63 ≤ Z.of_nat skip)
        || from_option has_nul false category
     then raise (OtherException "DataError")
     else ret (TaskListResponse (take limit (drop skip query))))
    (λ _, raise (OtherException "AttributeError")).

Definition get_task (task_id : Z) : M Session Response :=
  try_except
    (let* r := gets (λ s, tasks (pending s) !! task_id) in
     match r with
     | None => raise (HTTPException HTTP_404_NOT_FOUND "Задание не найдено")
     | Some task => ret (TaskResponse task_id task)
     end)
    (reraise_http HTTP_400_BAD_REQUEST
       "Не удалось получить информацию о задании").

Definition take_task (task_id : Z) (current_user : Z) : M Session Response :=
  try_except
    (let* r := gets (λ s, tasks (pending s) !! task_id) in
     match r with
     | None => raise (HTTPException HTTP_404_NOT_FOUND "Задание не найдено")
     | Some task =>
         if bool_decide (Task.status task ≠ OPEN)
         then raise (HTTPException HTTP_400_BAD_REQUEST
                       "Задание недоступно для взятия")
         else if bool_decide (Task.creator_id task = current_user)
         then raise (HTTPException HTTP_400_BAD_REQUEST
                       "Нельзя взять свое задание")
         else
           let task := Task.with_status IN_PROGRESS task in
           let task := Task.with_executor_id (Some current_user) task in
           let task := Task.with_updated_at (Some utcnow) task in
           update_pending (set_tasks <[task_id := task]>);;;
           commit;;;
           publish_message "task.taken" task_id;;;
           ret (TakeResponse "Задание успешно взято" task_id)
     end)
    (reraise_http HTTP_400_BAD_REQUEST "Не удалось взять задание").

Definition complete_task (task_id : Z) (current_user : Z)
  : M Session Response :=
  try_except
    (let* r := gets (λ s, tasks (pending s) !! task_id) in
     match r with
     | None => raise (HTTPException HTTP_404_NOT_FOUND "Задание не найдено")
     | Some task =>
         if bool_decide (Task.creator_id task ≠ current_user)
         then raise (HTTPException HTTP_403_FORBIDDEN
                       "Только создатель задания может завершить его")
         else if bool_decide (Task.status task ≠ IN_PROGRESS)
         then raise (HTTPException HTTP_400_BAD_REQUEST
                       "Задание не в процессе выполнения")
         else
           let* executor :=
             match Task.executor_id task with
             | None =>
                 raise (HTTPException HTTP_400_BAD_REQUEST
                          "У задания нет исполнителя")
             | Some executor =>
                 if bool_decide (executor = 0)
                 then raise (HTTPException HTTP_400_BAD_REQUEST
                               "У задания нет исполнителя")
                 else ret executor
             end in
           let* e := gets (λ s, users (pending s) !! executor) in
           match e with
           | None =>
               raise (HTTPException HTTP_404_NOT_FOUND "Исполнитель не найден")
           | Some _ =>
               let* cu := user_row current_user in
               if (User.balance cu <? Task.price task)%float
               then raise (HTTPException HTTP_400_BAD_REQUEST
                             "Недостаточно средств для выплаты")
               else
                 let task' := Task.with_status COMPLETED task in
                 let task' := Task.with_updated_at (Some utcnow) task' in
                 update_pending (set_tasks <[task_id := task']>);;;
                 (* current_user.balance -= task.price *)
                 let* cu := user_row current_user in
                 update_pending (set_users
                   <[current_user :=
                       User.with_balance
                         (User.balance cu - Task.price task)%float cu]>);;;
                 (* executor.balance += task.price *)
                 let* ex := user_row executor in
                 update_pending (set_users
                   <[executor :=
                       User.with_balance
                         (User.balance ex + Task.price task)%float ex]>);;;
                 (* executor.rating = min(5.0, executor.rating + 0.1) *)
                 let* ex := user_row executor in
                 update_pending (set_users
                   <[executor :=
                       User.with_rating
                         (py_min 5.0 (User.rating ex + 0.1))%float ex]>);;;
                 commit;;;
                 publish_message "task.completed" task_id;;;
                 ret (CompleteResponse "Задание успешно завершено"
                        task_id (Task.price task))
           end
     end)
    (reraise_http HTTP_400_BAD_REQUEST "Не удалось завершить задание").

(** [GET /users/{user_id}/tasks]: [role] arrives validated against
    [^(creator|executor)$].  The handler has one [except Exception] clause,
    which answers 400 whatever was raised. *)
Definition get_user_tasks (user_id : Z) (role : string) : M Session Response :=
  try_except
    (let* d := gets pending in
     let query := map_to_list (tasks d) in
     let query :=
       if bool_decide (role = "creator")
       then filter (λ r, Task.creator_id (snd r) = user_id) query
       else filter (λ r, Task.executor_id (snd r) = Some user_id) query in
     let tasks := order_by_desc (λ r, Task.created_at (snd r)) query in
     ret (TaskListResponse tasks))
    (λ _, raise (HTTPException HTTP_400_BAD_REQUEST
                   "Не удалось получить задания пользователя")).

(** The routes that declare [current_user: User = Depends(get_current_user)]:
    the dependency runs first, on the same session, and the handler is run
    with the user it returns. *)
Definition create_task_route (authorization : string)
    (task_data : TaskCreate.t) : M Session Response :=
  let* current_user := get_current_user authorization in
  create_task task_data current_user.

Definition take_task_route (authorization : string) (task_id : Z)
  : M Session Response :=
  let* current_user := get_current_user authorization in
  take_task task_id current_user.

Definition complete_task_route (authorization : string) (task_id : Z)
  : M Session Response :=
  let* current_user := get_current_user authorization in
  complete_task task_id current_user.

(** The routes [GET /tasks/{task_id}] and [GET /tasks]: the handlers declare
    no dependency on the request's credential, so whatever [Authorization]
    the request carries, or none, is not looked at. *)
Definition get_task_route (authorization : option string) (task_id : Z)
  : M Session Response :=
  get_task task_id.

Definition get_tasks_route (authorization : option string)
    (status : option TaskStatus) (category : option string)
    (min_price max_price : option float) (skip limit : nat)
  : M Session Response :=
  get_tasks status category min_price max_price skip limit.

End handlers.
End quest_service.

(** * chat_service/main.py *)

(** A WebSocket object, by identity. *)
Definition WebSocket := nat.

(** What [json.dumps] is applied to before a frame is sent. *)
Inductive Frame :=
| connection_frame (message : string) (task_id user_id : Z) (username : string)
| message_frame (id task_id sender_id : Z) (sender_username message : string)
    (created_at : Z)
| error_frame (message : string).

(** The state of the chat process: the database session of the running
    request, the [manager]'s dictionary, and what has happened on the
    sockets ([accepted], frames delivered in [sent], [closed] with the close
    code) and in the error log. *)
Record Chat := mkChat {
  db : Session;
  active_connections : gmap Z (list WebSocket);
  accepted : list WebSocket;
  sent : list (WebSocket * Frame);
  closed : list (WebSocket * Z);
  logged : list string
}.

Definition set_db (f : Session → Session) (c : Chat) : Chat :=
  {| db := f (db c); active_connections := active_connections c;
     accepted := accepted c; sent := sent c; closed := closed c;
     logged := logged c |}.

Definition set_active_connections
    (f : gmap Z (list WebSocket) → gmap Z (list WebSocket)) (c : Chat) : Chat :=
  {| db := db c; active_connections := f (active_connections c);
     accepted := accepted c; sent := sent c; closed := closed c;
     logged := logged c |}.

Definition set_accepted (f : list WebSocket → list WebSocket) (c : Chat)
  : Chat :=
  {| db := db c; active_connections := active_connections c;
     accepted := f (accepted c); sent := sent c; closed := closed c;
     logged := logged c |}.

Definition set_sent (f : list (WebSocket * Frame) → list (WebSocket * Frame))
    (c : Chat) : Chat :=
  {| db := db c; active_connections := active_connections c;
     accepted := accepted c; sent := f (sent c); closed := closed c;
     logged := logged c |}.

Definition set_closed (f : list (WebSocket * Z) → list (WebSocket * Z))
    (c : Chat) : Chat :=
  {| db := db c; active_connections := active_connections c;
     accepted := accepted c; sent := sent c; closed := f (closed c);
     logged := logged c |}.

Definition set_logged (f : list string → list string) (c : Chat) : Chat :=
  {| db := db c; active_connections := active_connections c;
     accepted := accepted c; sent := sent c; closed := closed c;
     logged := f (logged c) |}.

(** A database operation run inside the chat process. *)
Definition with_db {A} (m : M Session A) : M Chat A :=
  λ c, let '(r, s) := m (db c) in (r, set_db (λ _, s) c).

(** [list.remove(x)]: the first occurrence goes. *)
Fixpoint list_remove (x : WebSocket) (l : list WebSocket) : list WebSocket :=
  match l with
  | [] => []
  | y :: l' => if bool_decide (y = x) then l' else y :: list_remove x l'
  end.

(** A value as [json.loads] returns it, as far as the receive loop looks at
    it: a [str], a [dict] (seen through its [get]), or anything else. *)
#[warnings="-register-all"]
Inductive Json :=
| JString (s : string)
| JObject (get : string → option Json)
| JOther.

(** What [await websocket.receive_text()] does next. *)
Inductive Received :=
| text (data : string)
| WebSocketDisconnect.

(** [isinstance(e, what)] for the exception classes that are told apart by
    an [except] clause. *)
Definition is_a (what : string) (e : Exception) : bool :=
  match e with
  | OtherException w => bool_decide (w = what)
  | HTTPException _ _ => false
  end.

(** The registry holds no empty list: [disconnect] deletes the entry of a
    task when its last socket goes. *)
Definition no_empty_list (conns : gmap Z (list WebSocket)) : Prop :=
  map_Forall (λ _ l, l ≠ []) conns.

(** [sum(len(conns) for conns in manager.active_connections.values())] *)
Definition connections (conns : gmap Z (list WebSocket)) : nat :=
  sum_list (length <$> (snd <$> map_to_list conns)).

(** No list of the registry names a socket twice, and every listed socket
    has been accepted. *)
Definition listed_once (c : Chat) : Prop :=
  map_Forall (λ _ l, NoDup l ∧ ∀ w, w ∈ l → w ∈ accepted c)
    (active_connections c).

Module chat_service.
Section handlers.
Context (verify_token : string → option Payload).
Context (server_now : Z).
(** The peers: on which sockets [accept()], respectively [send_text()],
    raises. *)
Context (accept_raises send_raises : WebSocket → bool).
Context `{OrderBy} `{Stores}.

(** [websocket.accept()] sends the ASGI message [websocket.accept], which
    Starlette lets through only while the socket is still connecting: on a
    socket that has been accepted or closed before it raises a
    [RuntimeError], as it does when the peer's handshake fails. *)
Definition accept (websocket : WebSocket) : M Chat unit :=
  let* connecting :=
    gets (λ c, bool_decide (websocket ∉ accepted c)
               && bool_decide (websocket ∉ fst <$> closed c)) in
  if accept_raises websocket || negb connecting
  then raise (OtherException "RuntimeError")
  else modify (set_accepted (λ l, l ++ [websocket])).

Definition send_text (websocket : WebSocket) (data : Frame) : M Chat unit :=
  if send_raises websocket then raise (OtherException "RuntimeError")
  else modify (set_sent (λ l, l ++ [(websocket, data)])).

Definition close (websocket : WebSocket) (code : Z) : M Chat unit :=
  modify (set_closed (λ l, l ++ [(websocket, code)])).

Definition logger_error (msg : string) : M Chat unit :=
  modify (set_logged (λ l, l ++ [msg])).

(** ** ConnectionManager *)

Definition connect (websocket : WebSocket) (task_id : Z) : M Chat unit :=
  accept websocket;;;
  let* conns := gets active_connections in
  (if bool_decide (conns !! task_id = None)
   then modify (set_active_connections <[task_id := []]>)
   else ret tt);;;
  modify (set_active_connections
            (alter (λ l, l ++ [websocket]) task_id)).

Definition disconnect (websocket : WebSocket) (task_id : Z) : M Chat unit :=
  let* conns := gets active_connections in
  match conns !! task_id with
  | None => ret tt
  | Some l =>
      (if bool_decide (websocket ∈ l)
       then modify (set_active_connections
                      (alter (list_remove websocket) task_id))
       else ret tt);;;
      let* conns := gets active_connections in
      if bool_decide (conns !! task_id = Some [])
      then modify (set_active_connections (delete task_id))
      else ret tt
  end.

Definition send_personal_message (message : Frame) (websocket : WebSocket)
  : M Chat unit :=
  send_text websocket message.

Definition broadcast (message : Frame) (task_id : Z)
    (exclude : option WebSocket) : M Chat unit :=
  let* conns := gets active_connections in
  match conns !! task_id with
  | None => ret tt
  | Some l =>
      for_each l (λ connection,
        if bool_decide (Some connection ≠ exclude)
        then try_except (send_text connection message)
               (λ e, logger_error "Ошибка отправки сообщения")
        else ret tt)
  end.

(** ** Authentication and access *)

Definition get_current_user_from_token (token : string) (d : DB)
  : option (Z * User.t) :=
  match verify_token token with
  | None => None
  | Some payload =>
      match sub payload with
      | None => None
      | Some username =>
          if bool_decide (username = "") then None
          else user_by_username d username
      end
  end.

Definition check_task_access (user : option (Z * User.t))
    (task : option Task.t) : bool :=
  match user, task with
  | Some (uid, _), Some task =>
      bool_decide (uid = Task.creator_id task)
      || bool_decide (Some uid = Task.executor_id task)
  | _, _ => false
  end.

(** The first lines of both HTTP handlers: the bearer credential is parsed
    and resolved, the task is looked up and access is checked. *)
Definition authorize (authorization : option string) (task_id : Z)
  : M Chat (Z * User.t) :=
  let* a :=
    match authorization with
    | None => raise (HTTPException HTTP_401_UNAUTHORIZED
                       "Требуется аутентификация")
    | Some a =>
        if bool_decide (a = "") || negb (String.prefix "Bearer " a)
        then raise (HTTPException HTTP_401_UNAUTHORIZED
                      "Требуется аутентификация")
        else ret a
    end in
  let* token :=
    match py_split a "Bearer " !! 1%nat with
    | Some token => ret token
    | None => raise (OtherException "IndexError")
    end in
  let* d := gets (λ c, pending (db c)) in
  match get_current_user_from_token token d with
  | None => raise (HTTPException HTTP_401_UNAUTHORIZED "Неверный токен")
  | Some current_user =>
      match tasks d !! task_id with
      | None => raise (HTTPException HTTP_404_NOT_FOUND "Задание не найдено")
      | Some task =>
          if check_task_access (Some current_user) (Some task)
          then ret current_user
          else raise (HTTPException HTTP_403_FORBIDDEN
                        "Нет доступа к чату этого задания")
      end
  end.

(** ** POST /messages *)

Definition create_message (message_data : ChatMessageCreate.t)
    (authorization : option string) : M Chat Response :=
  try_except
    (let task_id := ChatMessageCreate.task_id message_data in
     let* current_user := authorize authorization task_id in
     let* chat_message :=
       with_db (add_chat_message task_id (fst current_user)
                  (ChatMessageCreate.message message_data) server_now) in
     with_db commit;;;
     broadcast
       (message_frame (ChatMessage.id chat_message)
          (ChatMessage.task_id chat_message)
          (ChatMessage.sender_id chat_message)
          (User.username (snd current_user))
          (ChatMessage.message chat_message)
          (ChatMessage.created_at chat_message))
       task_id None;;;
     ret (ChatMessageResponse chat_message))
    (reraise_http HTTP_400_BAD_REQUEST "Не удалось отправить сообщение").

(** ** GET /tasks/{task_id}/messages *)

(** [.offset(skip).limit(limit)]: OFFSET and LIMIT are of type [bigint].
    PostgreSQL refuses a negative one and one from [2^63] on, which
    surfaces as an exception of the driver. *)
Definition offset_limit {A} (skip limit : Z) (rows : list A)
  : M Chat (list A) :=
  if bool_decide (skip < 0) || bool_decide (limit < 0)
     || bool_decide (2 ^ 63 ≤ skip) || bool_decide (2 ^ 63 ≤ limit)
  then raise (OtherException "DataError")
  else ret (take (Z.to_nat limit) (drop (Z.to_nat skip) rows)).

Definition get_task_messages (task_id : Z) (authorization : option string)
    (skip limit : Z) : M Chat Response :=
  try_except
    (authorize authorization task_id;;;
     let* d := gets (λ c, pending (db c)) in
     let query :=
       filter (λ m, ChatMessage.task_id m = task_id) (chat_messages d) in
     let query := order_by_desc ChatMessage.created_at query in
     let* messages := offset_limit skip limit query in
     let messages := reverse messages in
     ret (ChatMessageListResponse messages))
    (reraise_http HTTP_400_BAD_REQUEST "Не удалось получить сообщения").

(** ** The routes

    Both handlers declare [authorization: str = Depends(lambda: None)]: the
    value FastAPI passes is what the lambda returns, whatever the request
    carries in its [Authorization] header. *)
Definition authorization_dependency (request_authorization : option string)
  : option string :=
  None.

Definition create_message_route (request_authorization : option string)
    (message_data : ChatMessageCreate.t) : M Chat Response :=
  create_message message_data
    (authorization_dependency request_authorization).

Definition get_task_messages_route (request_authorization : option string)
    (task_id : Z) (skip limit : Z) : M Chat Response :=
  get_task_messages task_id
    (authorization_dependency request_authorization) skip limit.

(** ** WebSocket /ws/{task_id}

    The handshake of [websocket_endpoint], up to the receive loop.  The
    result tells whether the session entered the loop, and as which user. *)
Definition websocket_endpoint (websocket : WebSocket) (task_id : Z)
    (token : option string) : M Chat (option (Z * User.t)) :=
  try_except
    (match token with
     | None => close websocket WS_1008_POLICY_VIOLATION;;; ret None
     | Some token =>
         if bool_decide (token = "")
         then close websocket WS_1008_POLICY_VIOLATION;;; ret None
         else
           let* d := gets (λ c, pending (db c)) in
           match get_current_user_from_token token d with
           | None => close websocket WS_1008_POLICY_VIOLATION;;; ret None
           | Some current_user =>
               match tasks d !! task_id with
               | None => close websocket WS_1008_POLICY_VIOLATION;;; ret None
               | Some task =>
                   if negb (check_task_access (Some current_user) (Some task))
                   then close websocket WS_1008_POLICY_VIOLATION;;; ret None
                   else
                     connect websocket task_id;;;
                     send_text websocket
                       (connection_frame "Подключено к чату задания" task_id
                          (fst current_user)
                          (User.username (snd current_user)));;;
                     ret (Some current_user)
               end
           end
     end)
    (λ e, logger_error "Ошибка WebSocket";;;
          close websocket WS_1011_INTERNAL_ERROR;;;
          ret None).

End handlers.

(** ** The receive loop of [websocket_endpoint] and [GET /health] *)

Section session.
Context (verify_token : string → option Payload).
Context (server_now : Z).
Context (accept_raises send_raises : WebSocket → bool).
Context `{Stores}.
(** [json.loads], which raises [JSONDecodeError] on text that is not JSON
    ([None] here), and [str.strip]. *)
Context (json_loads : string → option Json).
Context (py_strip : string → string).

(** One turn of the loop, from [json.loads(data)] on.  [continue] and the
    end of the body both lead to the next [receive_text()]. *)
Definition handle_text (websocket : WebSocket) (task_id : Z)
    (current_user : Z * User.t) (data : string) : M Chat unit :=
  try_except
    (let* message_data :=
       match json_loads data with
       | Some v => ret v
       | None => raise (OtherException "JSONDecodeError")
       end in
     (* message_data.get("message", "") *)
     let* value :=
       match message_data with
       | JObject get => ret (default (JString "") (get "message"))
       | _ => raise (OtherException "AttributeError")
       end in
     (* .strip() *)
     let* message_text :=
       match value with
       | JString s => ret (py_strip s)
       | _ => raise (OtherException "AttributeError")
       end in
     if bool_decide (message_text = "") then ret tt
     else
       let* chat_message :=
         with_db (add_chat_message task_id (fst current_user) message_text
                    server_now) in
       with_db commit;;;
       broadcast send_raises
         (message_frame (ChatMessage.id chat_message) task_id
            (fst current_user) (User.username (snd current_user))
            message_text (ChatMessage.created_at chat_message))
         task_id (Some websocket))
    (λ e, if is_a "JSONDecodeError" e
          then send_text send_raises websocket
                 (error_frame "Неверный формат сообщения")
          else logger_error "Ошибка обработки WebSocket сообщения").

(** [while True: data = await websocket.receive_text(); ...] run against
    what the peer does: [receive_text()] returns the next text, or raises
    [WebSocketDisconnect] when the peer has gone.  When the peer has sent
    nothing more yet, the coroutine is suspended in [receive_text()]: the
    state reached so far is the result. *)
Fixpoint receive_loop (websocket : WebSocket) (task_id : Z)
    (current_user : Z * User.t) (incoming : list Received) : M Chat unit :=
  match incoming with
  | [] => ret tt
  | WebSocketDisconnect :: _ => raise (OtherException "WebSocketDisconnect")
  | text data :: incoming' =>
      handle_text websocket task_id current_user data;;;
      receive_loop websocket task_id current_user incoming'
  end.

(** The whole of [websocket_endpoint]: the handshake, then the loop inside
    [try: ... except WebSocketDisconnect: manager.disconnect(...)], all of it
    inside the outer [try: ... except Exception]. *)
Definition websocket_session (websocket : WebSocket) (task_id : Z)
    (token : option string) (incoming : list Received) : M Chat unit :=
  let* entered :=
    websocket_endpoint verify_token accept_raises send_raises websocket
      task_id token in
  match entered with
  | None => ret tt
  | Some current_user =>
      try_except
        (try_except
           (receive_loop websocket task_id current_user incoming)
           (λ e, if is_a "WebSocketDisconnect" e
                 then disconnect websocket task_id
                 else raise e))
        (λ e, logger_error "Ошибка WebSocket";;;
              close websocket WS_1011_INTERNAL_ERROR)
  end.

(** The [active_connections] field of [GET /health]. *)
Definition health_check : M Chat nat :=
  gets (λ c, connections (active_connections c)).

End session.
End chat_service.

(** * api_gateway/main.py *)

Module api_gateway.

Definition SERVICE_URLS : gmap string string :=
  {[ "auth" := "http://localhost:8001";
     "quest" := "http://localhost:8002";
     "chat" := "http://localhost:8003";
     "notification" := "http://localhost:8004" ]}.

Definition PUBLIC_ENDPOINTS : list string :=
  [ "/"; "/docs"; "/redoc"; "/openapi.json"; "/health"; "/services/health";
    "/auth/register"; "/auth/login"; "/auth/health"; "/quest/health";
    "/chat/health"; "/notification/health" ].

(** What the middleware does with a request: it lets it through to the
    gateway's own routes, answers it itself, or hands it to
    [forward_request] for a service, with the path it asks there. *)
Inductive Routed :=
| call_next
| JSONResponse (status_code : Z) (detail : string)
| forward_request (service_url path : string).

Section middleware.
Context (verify_token : string → option Payload).

(** [gateway_middleware], on the path of the request and its
    [Authorization] header.  Nothing in it catches an exception. *)
Definition gateway_middleware (path : string) (auth_header : option string)
  : Result Routed :=
  if bool_decide (path ∈ PUBLIC_ENDPOINTS)
     || String.prefix "/docs" path || String.prefix "/redoc" path
  then Return call_next
  else
    let route :=
      if String.prefix "/auth/" path
      then Some ("auth", py_replace_first "/auth" "" path)
      else if String.prefix "/quest/" path
      then Some ("quest", py_replace_first "/quest" "" path)
      else if String.prefix "/chat/" path
      then Some ("chat", py_replace_first "/chat" "" path)
      else if String.prefix "/notification/" path
      then Some ("notification", py_replace_first "/notification" "" path)
      else None in
    match route with
    | None => Return (JSONResponse 404 "Эндпоинт не найден")
    | Some (service, service_path) =>
        match auth_header with
        | None => Return (JSONResponse 401 "Требуется аутентификация")
        | Some a =>
            if bool_decide (a = "") || negb (String.prefix "Bearer " a)
            then Return (JSONResponse 401 "Требуется аутентификация")
            else
              match py_split a "Bearer " !! 1%nat with
              | None => Raise (OtherException "IndexError")
              | Some token =>
                  match verify_token token with
                  | None => Return (JSONResponse 401 "Неверный токен")
                  | Some payload =>
                      match SERVICE_URLS !! service with
                      | None =>
                          Return (JSONResponse 502
                                    ("Сервис " +:+ service +:+ " недоступен"))
                      | Some service_url =>
                          Return (forward_request service_url service_path)
                      end
                  end
              end
        end
    end.

End middleware.
End api_gateway.

(** * notification_service/main.py *)

Module notification_service.

(** The values that the published dictionaries hold. *)
Inductive Value :=
| VInt (n : Z)
| VFloat (x : float)
| VStr (s : string).

Definition Message := gmap string Value.

(** An entry of [NotificationHandler.notifications]. *)
Record Notification := mkNotification {
  type : string;
  task_id : option Value;
  timestamp : Z;
  data : Message
}.

(** The dictionaries that [quest_service] hands to
    [rabbitmq_client.publish_message] in [create_task], [take_task] and
    [complete_task]. *)
Definition task_created_message (task_id : Z) (title : string)
    (creator_id : Z) (creator_username : string) (price : float)
    (timestamp : Z) : Message :=
  {[ "task_id" := VInt task_id; "title" := VStr title;
     "creator_id" := VInt creator_id;
     "creator_username" := VStr creator_username;
     "price" := VFloat price; "timestamp" := VInt timestamp ]}.

Definition task_taken_message (task_id executor_id : Z)
    (executor_username : string) (creator_id : Z) (title : string)
    (timestamp : Z) : Message :=
  {[ "task_id" := VInt task_id; "executor_id" := VInt executor_id;
     "executor_username" := VStr executor_username;
     "creator_id" := VInt creator_id; "title" := VStr title;
     "timestamp" := VInt timestamp ]}.

Definition task_completed_message (task_id executor_id : Z)
    (executor_username : string) (creator_id : Z) (creator_username : string)
    (price : float) (timestamp : Z) : Message :=
  {[ "task_id" := VInt task_id; "executor_id" := VInt executor_id;
     "executor_username" := VStr executor_username;
     "creator_id" := VInt creator_id;
     "creator_username" := VStr creator_username;
     "price" := VFloat price; "timestamp" := VInt timestamp ]}.

(** [key in message] *)
Definition has_key (key : string) (message : Message) : bool :=
  bool_decide (is_Some (message !! key)).

Section handler.
(** [datetime.utcnow()] *)
Context (utcnow : Z).

(** The state is [notification_handler.notifications]; what the handlers
    write to the log is left out. *)
Definition append (type : string) (message : Message)
  : M (list Notification) unit :=
  modify (λ notifications,
    notifications ++
      [{| type := type; task_id := message !! "task_id";
          timestamp := utcnow; data := message |}]).

Definition handle_task_created (message : Message) : M (list Notification) unit :=
  append "task_created" message.

Definition handle_task_taken (message : Message) : M (list Notification) unit :=
  append "task_taken" message.

Definition handle_task_completed (message : Message)
  : M (list Notification) unit :=
  append "task_completed" message.

Definition process_notification (message : Message) (routing_key : string)
  : M (list Notification) unit :=
  try_except
    (if py_in "task.created" routing_key then handle_task_created message
     else if py_in "task.taken" routing_key then handle_task_taken message
     else if py_in "task.completed" routing_key
     then handle_task_completed message
     else ret tt)
    (λ e, ret tt).

(** [rabbitmq_callback] tells the kind of a message by the keys it has. *)
Definition rabbitmq_callback (message : Message) : M (list Notification) unit :=
  if has_key "creator_username" message && has_key "price" message
  then handle_task_created message
  else if has_key "executor_username" message && has_key "creator_id" message
  then handle_task_taken message
  else if has_key "price" message && has_key "executor_username" message
  then handle_task_completed message
  else ret tt.

(** [GET /notifications]: [limit] is any integer, 50 when absent. *)
Definition get_notifications (limit : Z)
  : M (list Notification) (nat * list Notification) :=
  let* all := gets id in
  let notifications := py_slice_from (- limit) all in
  ret (length notifications, notifications).

(** The [notifications_count] field of [GET /health]. *)
Definition health_check : M (list Notification) nat :=
  gets length.

End handler.
End notification_service.

(** * listMessages as the specification words it

    Not taken from the code: the messages of the task ordered oldest first
    (by creation time, ties broken by id), of which the slice
    [offset, offset + limit) is returned.  It is compared with
    [get_task_messages] below. *)

Definition older_or_same (a b : ChatMessage.t) : Prop :=
  ChatMessage.created_at a < ChatMessage.created_at b
  ∨ (ChatMessage.created_at a = ChatMessage.created_at b
     ∧ ChatMessage.id a ≤ ChatMessage.id b).

#[global] Instance older_or_same_dec a b : Decision (older_or_same a b).
Proof. unfold older_or_same. apply _. Defined.

Definition listMessages_spec (d : DB) (task_id : Z) (offset limit : nat)
  : list ChatMessage.t :=
  take limit (drop offset
    (merge_sort older_or_same
       (filter (λ m, ChatMessage.task_id m = task_id) (chat_messages d)))).

(** * A concrete marketplace

    Three accounts, three tasks and one conversation, used to run the
    handlers on explicit inputs. *)

Module scenario.

Definition verify_token (token : string) : option Payload :=
  if bool_decide (token = "alice-token") then Some {| sub := Some "alice" |}
  else if bool_decide (token = "bob-token") then Some {| sub := Some "bob" |}
  else if bool_decide (token = "carol-token")
  then Some {| sub := Some "carol" |}
  else None.

Definition alice : User.t :=
  {| User.username := "alice"; User.balance := 500; User.rating := 5;
     User.is_active := true |}.
Definition bob : User.t :=
  {| User.username := "bob"; User.balance := 0; User.rating := 4.5;
     User.is_active := true |}.
Definition carol : User.t :=
  {| User.username := "carol"; User.balance := 30; User.rating := 5;
     User.is_active := true |}.

(** Alice's task, taken by Bob. *)
Definition fix_roof : Task.t :=
  {| Task.title := "Fix roof"; Task.description := None; Task.price := 100;
     Task.status := IN_PROGRESS; Task.category := Some "repair";
     Task.deadline := None; Task.created_at := 1; Task.updated_at := Some 2;
     Task.creator_id := 1; Task.executor_id := Some 2 |}.

(** Carol's task, taken by Bob; Carol can no longer pay for it. *)
Definition paint_fence : Task.t :=
  {| Task.title := "Paint fence"; Task.description := None; Task.price := 50;
     Task.status := IN_PROGRESS; Task.category := Some "repair";
     Task.deadline := None; Task.created_at := 3; Task.updated_at := Some 4;
     Task.creator_id := 3; Task.executor_id := Some 2 |}.

(** Alice's second task, still open. *)
Definition walk_dog : Task.t :=
  {| Task.title := "Walk the dog"; Task.description := None; Task.price := 20;
     Task.status := OPEN; Task.category := Some "pets";
     Task.deadline := None; Task.created_at := 5; Task.updated_at := None;
     Task.creator_id := 1; Task.executor_id := None |}.

Definition hello (id created_at : Z) (sender : Z) (text : string)
  : ChatMessage.t :=
  {| ChatMessage.id := id; ChatMessage.task_id := 1;
     ChatMessage.sender_id := sender; ChatMessage.message := text;
     ChatMessage.created_at := created_at |}.

Definition market : DB :=
  {| users := <[1 := alice]> (<[2 := bob]> (<[3 := carol]> ∅));
     tasks := <[1 := fix_roof]> (<[2 := paint_fence]> (<[3 := walk_dog]> ∅));
     chat_messages :=
       [hello 1 10 1 "first"; hello 2 20 2 "second"; hello 3 30 1 "third"];
     tasks_id_seq := 3;
     chat_messages_id_seq := 3 |}.

(** A task as [init_db.create_sample_tasks] seeds one: in progress from the
    start, and nobody executes it. *)
Definition boss_fight : Task.t :=
  {| Task.title := "Убейте босса на 17 этаже";
     Task.description := Some "Требуется сердце босса";
     Task.price := 12000; Task.status := IN_PROGRESS;
     Task.category := Some "Бой"; Task.deadline := Some 14;
     Task.created_at := 6; Task.updated_at := None;
     Task.creator_id := 1; Task.executor_id := None |}.

Definition seeded : DB :=
  {| users := users market; tasks := <[4 := boss_fight]> (tasks market);
     chat_messages := chat_messages market; tasks_id_seq := 4;
     chat_messages_id_seq := chat_messages_id_seq market |}.

Definition new_task : TaskCreate.t :=
  {| TaskCreate.title := "Mow the lawn"; TaskCreate.description := None;
     TaskCreate.price := 40; TaskCreate.category := None;
     TaskCreate.deadline := None |}.

(** A request the schema lets through: [category] has no maximal length
    there, and this one has 51 characters. *)
Definition wordy_task : TaskCreate.t :=
  {| TaskCreate.title := "Mow the lawn"; TaskCreate.description := None;
     TaskCreate.price := 40;
     TaskCreate.category :=
       Some "gardening, mowing, trimming, weeding and much more.";
     TaskCreate.deadline := None |}.

(** The chat process over the marketplace, with the given registry and
    nothing yet accepted, sent, closed or logged. *)
Definition chat (conns : gmap Z (list WebSocket)) : Chat :=
  {| db := begin market; active_connections := conns; accepted := [];
     sent := []; closed := []; logged := [] |}.

(** Alice's task taken by Carol, whose rating is 5 already. *)
Definition trim_hedge : Task.t :=
  {| Task.title := "Trim the hedge"; Task.description := None;
     Task.price := 40; Task.status := IN_PROGRESS;
     Task.category := Some "garden"; Task.deadline := None;
     Task.created_at := 6; Task.updated_at := Some 7;
     Task.creator_id := 1; Task.executor_id := Some 3 |}.

Definition garden : DB := set_tasks <[4 := trim_hedge]> market.

(** A task whose price is small against the balances of its parties. *)
Definition count_pebbles : Task.t :=
  {| Task.title := "Count the pebbles"; Task.description := None;
     Task.price := 1e-13; Task.status := IN_PROGRESS;
     Task.category := None; Task.deadline := None;
     Task.created_at := 1; Task.updated_at := Some 2;
     Task.creator_id := 1; Task.executor_id := Some 2 |}.

Definition quarry : DB :=
  {| users :=
       <[1 := {| User.username := "alice"; User.balance := 5000;
                 User.rating := 5; User.is_active := true |}]>
         (<[2 := {| User.username := "bob"; User.balance := 100000;
                    User.rating := 4.5; User.is_active := true |}]> ∅);
     tasks := <[1 := count_pebbles]> ∅;
     chat_messages := []; tasks_id_seq := 1; chat_messages_id_seq := 0 |}.

(** The marketplace after Alice's account has been deactivated. *)
Definition suspended : DB :=
  set_users
    <[1 := {| User.username := "alice"; User.balance := 500;
              User.rating := 5; User.is_active := false |}]> market.

(** The marketplace where both messages of task 1 carry the same creation
    time. *)
Definition rush : DB :=
  {| users := users market; tasks := tasks market;
     chat_messages := [hello 1 10 1 "first"; hello 2 10 2 "second"];
     tasks_id_seq := 3; chat_messages_id_seq := 2 |}.

(** The chat process over another database. *)
Definition chat_over (d : DB) : Chat := set_db (λ _, begin d) (chat ∅).

(** Stand-ins for [json.loads] and [str.strip]: one text is not JSON, every
    other text is read as an object whose [message] is the text itself; one
    text is blank. *)
Definition json_loads (data : string) : option Json :=
  if bool_decide (data = "not json") then None
  else Some (JObject (λ key, if bool_decide (key = "message")
                             then Some (JString data) else None)).

Definition py_strip (s : string) : string :=
  if bool_decide (s = "   ") then "" else s.


Definition nobody : WebSocket → bool := λ _, false.
Definition only (w : WebSocket) : WebSocket → bool := λ x, bool_decide (x = w).

End scenario.

(** * Properties *)

(** ** Binary64 comparisons *)

Lemma SFleb_not_SFltb a b : SFleb a b = true → SFltb b a = false.
Proof.
  unfold SFleb, SFltb.
  destruct a as [sa| sa | |sa ma ea], b as [sb|sb| |sb mb eb]; simpl;
    try destruct sa; try destruct sb; simpl; try congruence;
    change (PosDef.Pos.compare_cont Eq mb ma) with (Pos.compare mb ma);
    change (PosDef.Pos.compare_cont Eq ma mb) with (Pos.compare ma mb);
    rewrite (Z.compare_antisym ea eb), (Pos.compare_antisym ma mb);
    destruct (ea ?= eb); simpl; try congruence;
    destruct (ma ?= mb)%positive; simpl; congruence.
Qed.

(** [x <= y] excludes [y < x], also for infinities and NaN. *)
Lemma float_leb_not_ltb (x y : float) :
  (x <=? y)%float = true → (y <? x)%float = false.
Proof. rewrite leb_spec, ltb_spec. apply SFleb_not_SFltb. Qed.

(** [x < y] gives [x <= y]. *)
Lemma float_ltb_leb (x y : float) :
  (x <? y)%float = true → (x <=? y)%float = true.
Proof.
  rewrite ltb_spec, leb_spec. unfold SFltb, SFleb.
  by destruct (SFcompare _ _) as [[]|].
Qed.

(** Symbolic execution of a handler: unfold the monad and the session
    operations, then compute. *)
Ltac run :=
  unfold user_row, add_task, add_chat_message, update_pending, commit,
    publish_message, reraise_http, try_except, bind, gets, ret, raise,
    modify; simpl.

(** ** quest_service *)

Section quest_service_properties.
Context (verify_token : string → option Payload).
Context (utcnow server_now : Z).
Context `{OrderBy} `{Stores}.
Import quest_service.

(** Whoever [get_current_user] returns is a stored, active user, and the
    session is not changed by the lookup. *)
Lemma get_current_user_sound authorization s uid s' :
  get_current_user verify_token authorization s = (Return uid, s') →
  s' = s ∧ ∃ u, users (pending s) !! uid = Some u ∧ User.is_active u = true.
Proof.
  unfold get_current_user. run.
  destruct (bool_decide (authorization = "")
            || negb (String.prefix "Bearer " authorization)); run; [done|].
  destruct (py_split authorization "Bearer " !! 1%nat) as [token|]; run;
    [|done].
  destruct (verify_token token) as [[[username|]]|]; run; [|done|done].
  case_bool_decide; run; [done|].
  destruct (user_by_username (pending s) username) as [[id u]|] eqn:Hfind;
    run; [|done].
  destruct (User.is_active u) eqn:Hactive; run; [|done].
  intros [= <- <-]. split; [done|]. exists u. split; [|done].
  unfold user_by_username in Hfind.
  destruct (list_find _ _) as [[i r]|] eqn:Hl; [|done].
  simpl in Hfind. injection Hfind as ->.
  apply list_find_Some in Hl as (Hl & _ & _).
  apply list_elem_of_lookup_2 in Hl. by apply elem_of_map_to_list in Hl.
Qed.

(** A lifecycle route runs its handler as the authenticated user, or stops
    with what the authentication raised. *)
Lemma lifecycle_routes_authenticate authorization task_data task_id db :
  match get_current_user verify_token authorization (begin db) with
  | (Return current_user, _) =>
      create_task_route verify_token server_now authorization task_data
        (begin db) = create_task server_now task_data current_user (begin db)
      ∧ take_task_route verify_token utcnow authorization task_id (begin db)
        = take_task utcnow task_id current_user (begin db)
      ∧ complete_task_route verify_token utcnow authorization task_id
          (begin db) = complete_task utcnow task_id current_user (begin db)
  | (Raise e, _) =>
      create_task_route verify_token server_now authorization task_data
        (begin db) = (Raise e, begin db)
      ∧ take_task_route verify_token utcnow authorization task_id (begin db)
        = (Raise e, begin db)
      ∧ complete_task_route verify_token utcnow authorization task_id
          (begin db) = (Raise e, begin db)
  end.
Proof.
  unfold create_task_route, take_task_route, complete_task_route, bind.
  destruct (get_current_user verify_token authorization (begin db))
    as [[uid|e] s] eqn:Hauth.
  - apply get_current_user_sound in Hauth as [-> _]. done.
  - assert (s = begin db) as ->; [|done].
    revert Hauth. unfold get_current_user. run.
    destruct (bool_decide (authorization = "")
              || negb (String.prefix "Bearer " authorization)); run;
      [by intros [= <- <-]|].
    destruct (py_split authorization "Bearer " !! 1%nat) as [token|]; run;
      [|by intros [= <- <-]].
    destruct (verify_token token) as [[[username|]]|]; run;
      [|by intros [= <- <-]..].
    case_bool_decide; run; [by intros [= <- <-]|].
    destruct (user_by_username db username) as [[id u]|]; run;
      [|by intros [= <- <-]].
    destruct (User.is_active u); run; by intros [= <- <-].
Qed.

(** Every state a lifecycle handler commits keeps executors apart from
    creators: a new task has no executor, [take_task] refuses the creator,
    and [complete_task] leaves both references alone. *)
Lemma create_task_keeps_invariant db task_data cu r s :
  executor_is_not_creator db →
  create_task server_now task_data cu (begin db) = (r, s) →
  Forall executor_is_not_creator (committed s).
Proof.
  intros Hinv. unfold create_task. run.
  destruct (users db !! cu) as [c|]; run; [|by intros [= <- <-]].
  destruct (User.balance c <? TaskCreate.price task_data)%float; run;
    [by intros [= <- <-]|].
  destruct (stores_task _); run; [|by intros [= <- <-]].
  destruct (tasks db !! (tasks_id_seq db + 1)); run; [by intros [= <- <-]|].
  intros [= <- <-]. simpl. repeat constructor.
  unfold executor_is_not_creator. simpl. by apply map_Forall_insert_2.
Qed.

Lemma take_task_keeps_invariant db task_id cu r s :
  executor_is_not_creator db →
  take_task utcnow task_id cu (begin db) = (r, s) →
  Forall executor_is_not_creator (committed s).
Proof.
  intros Hinv. unfold take_task. run.
  destruct (tasks db !! task_id) as [task|]; run; [|by intros [= <- <-]].
  case_bool_decide; run; [by intros [= <- <-]|].
  case_bool_decide; run; [by intros [= <- <-]|].
  intros [= <- <-]. simpl. repeat constructor.
  unfold executor_is_not_creator. simpl. apply map_Forall_insert_2; [|done].
  simpl. congruence.
Qed.

Lemma complete_task_keeps_invariant db task_id cu r s :
  executor_is_not_creator db →
  complete_task utcnow task_id cu (begin db) = (r, s) →
  Forall executor_is_not_creator (committed s).
Proof.
  intros Hinv. unfold complete_task. run.
  destruct (tasks db !! task_id) as [task|] eqn:Ht; run;
    [|by intros [= <- <-]].
  case_bool_decide; run; [by intros [= <- <-]|].
  case_bool_decide; run; [by intros [= <- <-]|].
  destruct (Task.executor_id task) as [ex|] eqn:Hex; run;
    [|by intros [= <- <-]].
  case_bool_decide; run; [by intros [= <- <-]|].
  destruct (users db !! ex) as [e0|] eqn:He; run; [|by intros [= <- <-]].
  destruct (users db !! cu) as [c|] eqn:Hc; run; [|by intros [= <- <-]].
  destruct (User.balance c <? Task.price task)%float; run;
    [by intros [= <- <-]|].
  rewrite Hc. run.
  assert (executor_is_not_creator
            (set_tasks
               <[task_id := Task.with_updated_at (Some utcnow)
                              (Task.with_status COMPLETED task)]> db))
    as Hinv'.
  { unfold executor_is_not_creator. simpl.
    apply map_Forall_insert_2; [|done]. simpl.
    by apply (Hinv task_id task). }
  destruct (decide (cu = ex)) as [->|Hne].
  - rewrite lookup_insert_eq. run. rewrite lookup_insert_eq. run.
    intros [= <- <-]. simpl. by repeat constructor.
  - rewrite lookup_insert_ne by done. rewrite He. run.
    rewrite lookup_insert_eq. run.
    intros [= <- <-]. simpl. by repeat constructor.
Qed.

(** C1, as the code has it.  A completion that passes every check returns
    the payment and leaves exactly one committed database state.  In it the
    task is [COMPLETED], the creator's balance is the binary64 difference
    [balance - price], the executor's balance the binary64 sum
    [balance + price], and the executor's rating is [rating + 0.1] when
    that is below [5.0] and [5.0] otherwise, so it never exceeds [5.0].  No
    other state is ever committed, so the status never shows as completed
    before the new balances are there.  The sums are rounded to binary64:
    a price that is small against a balance can leave that balance where it
    was.  The database is one in which nobody executes a task of their own,
    which the handlers maintain. *)
Theorem complete_task_success db task_id cu ex task c e :
  executor_is_not_creator db →
  tasks db !! task_id = Some task →
  Task.creator_id task = cu →
  Task.status task = IN_PROGRESS →
  Task.executor_id task = Some ex →
  ex ≠ 0 →
  users db !! cu = Some c →
  users db !! ex = Some e →
  (Task.price task <=? User.balance c)%float = true →
  let price := Task.price task in
  let task' :=
    Task.with_updated_at (Some utcnow) (Task.with_status COMPLETED task) in
  let raised := (User.rating e + 0.1)%float in
  let c' := User.with_balance (User.balance c - price)%float c in
  let e' := User.with_rating
              (if (raised <? 5.0)%float then raised else 5.0%float)
              (User.with_balance (User.balance e + price)%float e) in
  let db' := set_users (λ u, <[ex := e']> (<[cu := c']> u))
               (set_tasks <[task_id := task']> db) in
  complete_task utcnow task_id cu (begin db) =
    (Return (CompleteResponse "Задание успешно завершено" task_id price),
     {| pending := db'; committed := [db'];
        published := [("task.completed", task_id)] |})
  ∧ users db' !! cu = Some c'
  ∧ users db' !! ex = Some e'
  ∧ tasks db' !! task_id = Some task'
  ∧ Task.status task' = COMPLETED
  ∧ (User.rating e' <=? 5.0)%float = true.
Proof.
  intros Hinv Ht Hcr Hst Hex Hex0 Hc He Hbal. simpl.
  assert (ex ≠ cu) as Hne.
  { intros ->. apply (Hinv task_id task Ht). congruence. }
  apply float_leb_not_ltb in Hbal.
  split; [|split; [|split; [|split; [|split]]]].
  - unfold complete_task. run. rewrite Ht.
    rewrite bool_decide_eq_false_2 by (intros ?; congruence).
    rewrite bool_decide_eq_false_2 by (intros ?; congruence).
    rewrite Hex. rewrite bool_decide_eq_false_2 by done.
    run. rewrite He. run. rewrite Hc. run. rewrite Hbal. run.
    rewrite Hc. run.
    rewrite lookup_insert_ne by done. rewrite He. run.
    rewrite lookup_insert_eq. run.
    unfold set_users, set_tasks, py_min; simpl.
    rewrite insert_insert_eq. reflexivity.
  - by rewrite lookup_insert_ne, lookup_insert_eq.
  - by rewrite lookup_insert_eq.
  - by rewrite lookup_insert_eq.
  - done.
  - destruct (User.rating e + 0.1 <? 5.0)%float eqn:Hcap.
    + by apply float_ltb_leb.
    + reflexivity.
Qed.

(** Whatever [complete_task] raises, it raises before touching the session. *)
Lemma complete_task_raise_unchanged db task_id cu e s :
  complete_task utcnow task_id cu (begin db) = (Raise e, s) → s = begin db.
Proof.
  unfold complete_task. run.
  destruct (tasks db !! task_id) as [task|] eqn:Ht; run; [|congruence].
  case_bool_decide; run; [congruence|].
  case_bool_decide; run; [congruence|].
  destruct (Task.executor_id task) as [ex|] eqn:Hex; run; [|congruence].
  case_bool_decide; run; [congruence|].
  destruct (users db !! ex) as [e0|] eqn:He; run; [|congruence].
  destruct (users db !! cu) as [c|] eqn:Hc; run; [|congruence].
  destruct (User.balance c <? Task.price task)%float; run; [congruence|].
  rewrite Hc. run.
  destruct (decide (cu = ex)) as [->|Hne].
  - rewrite lookup_insert_eq. run. rewrite lookup_insert_eq. run. congruence.
  - rewrite lookup_insert_ne by done. rewrite He. run.
    rewrite lookup_insert_eq. run. congruence.
Qed.

(** C2. A failing completion mutates nothing: the session is as it began
    (nothing pending, nothing committed, nothing published), so the database
    is left as it was, every task status, balance and rating included.  In
    particular a task that is not in progress is refused as such, and a
    creator whose balance is below the price is refused for insufficient
    funds. *)
Theorem complete_task_failure db task_id cu :
  (∀ e s, complete_task utcnow task_id cu (begin db) = (Raise e, s) →
          s = begin db ∧ db_after db s = db)
  ∧ (∀ task, tasks db !! task_id = Some task →
       Task.creator_id task = cu →
       Task.status task ≠ IN_PROGRESS →
       ∃ s,
         complete_task utcnow task_id cu (begin db) =
           (Raise (HTTPException 400 "Задание не в процессе выполнения"), s)
         ∧ db_after db s = db)
  ∧ (∀ task ex e c, tasks db !! task_id = Some task →
       Task.creator_id task = cu →
       Task.status task = IN_PROGRESS →
       Task.executor_id task = Some ex → ex ≠ 0 →
       users db !! ex = Some e →
       users db !! cu = Some c →
       (User.balance c <? Task.price task)%float = true →
       ∃ s,
         complete_task utcnow task_id cu (begin db) =
           (Raise (HTTPException 400 "Недостаточно средств для выплаты"), s)
         ∧ db_after db s = db
         ∧ Task.status <$> tasks (db_after db s) !! task_id
           = Some IN_PROGRESS).
Proof.
  split; [|split].
  - intros e s Hrun. apply complete_task_raise_unchanged in Hrun.
    subst s. done.
  - intros task Ht Hcr Hst. exists (begin db). split; [|done].
    unfold complete_task. run. rewrite Ht.
    rewrite bool_decide_eq_false_2 by (intros ?; congruence).
    rewrite bool_decide_eq_true_2 by done. reflexivity.
  - intros task ex e c Ht Hcr Hst Hex Hex0 He Hc Hbal.
    exists (begin db). split; [|split; [done|]].
    + unfold complete_task. run. rewrite Ht.
      rewrite bool_decide_eq_false_2 by (intros ?; congruence).
      rewrite bool_decide_eq_false_2 by (intros ?; congruence).
      rewrite Hex. rewrite bool_decide_eq_false_2 by done.
      run. rewrite He. run. rewrite Hc. run. rewrite Hbal. reflexivity.
    + unfold db_after. simpl. by rewrite Ht, <- Hst.
Qed.

(** The balance guard of [create_task]. *)
Lemma create_task_below_price db cu c task_data :
  users db !! cu = Some c →
  (User.balance c <? TaskCreate.price task_data)%float = true →
  create_task server_now task_data cu (begin db) =
    (Raise (HTTPException 400 "Недостаточно средств на балансе"), begin db).
Proof.
  intros Hc Hbal. unfold create_task. run. rewrite Hc. run.
  rewrite Hbal. reflexivity.
Qed.

(** C3, as the code has it.  A creator whose balance is strictly below the
    requested price is refused with 400 and nothing is stored.  So whenever
    [create_task] returns, the balance was not below the price; what it
    returns then is the new task, stored [OPEN] under the next id in the one
    state that was committed. *)
Theorem create_task_balance_check db cu c task_data :
  users db !! cu = Some c →
  ((User.balance c <? TaskCreate.price task_data)%float = true →
   create_task server_now task_data cu (begin db) =
     (Raise (HTTPException 400 "Недостаточно средств на балансе"), begin db))
  ∧ (∀ r s,
       create_task server_now task_data cu (begin db) = (Return r, s) →
       (User.balance c <? TaskCreate.price task_data)%float = false
       ∧ ∃ task db',
           r = TaskResponse (tasks_id_seq db + 1) task
           ∧ committed s = [db']
           ∧ tasks db' !! (tasks_id_seq db + 1) = Some task
           ∧ Task.status task = OPEN
           ∧ Task.creator_id task = cu
           ∧ Task.executor_id task = None
           ∧ Task.price task = TaskCreate.price task_data
           ∧ users db' = users db).
Proof.
  intros Hc. split.
  - intros Hbal. by eapply create_task_below_price.
  - intros r s. unfold create_task. run. rewrite Hc. run.
    destruct (User.balance c <? TaskCreate.price task_data)%float; run;
      [done|].
    destruct (stores_task _); run; [|done].
    destruct (tasks db !! (tasks_id_seq db + 1)) eqn:Hfresh; run; [done|].
    intros [= <- <-]. split; [done|]. eexists _, _.
    split; [done|]. split; [done|]. simpl.
    by rewrite lookup_insert_eq.
Qed.

(** C4, as the code has it.  [take_task] answers 404 for an absent task, 400
    "not available" for a task that is not open, 400 "own task" for the
    creator of an open task, and nothing is changed in these cases; for
    anyone else it sets the status, the executor and the update time in one
    commit and answers with a confirmation that carries the task id (not the
    task record). *)
Theorem take_task_spec db task_id cu :
  (tasks db !! task_id = None →
   take_task utcnow task_id cu (begin db) =
     (Raise (HTTPException 404 "Задание не найдено"), begin db))
  ∧ (∀ task, tasks db !! task_id = Some task →
       Task.status task ≠ OPEN →
       take_task utcnow task_id cu (begin db) =
         (Raise (HTTPException 400 "Задание недоступно для взятия"),
          begin db))
  ∧ (∀ task, tasks db !! task_id = Some task →
       Task.status task = OPEN →
       Task.creator_id task = cu →
       take_task utcnow task_id cu (begin db) =
         (Raise (HTTPException 400 "Нельзя взять свое задание"), begin db))
  ∧ (∀ task, tasks db !! task_id = Some task →
       Task.status task = OPEN →
       Task.creator_id task ≠ cu →
       let task' :=
         Task.with_updated_at (Some utcnow)
           (Task.with_executor_id (Some cu)
              (Task.with_status IN_PROGRESS task)) in
       let db' := set_tasks <[task_id := task']> db in
       take_task utcnow task_id cu (begin db) =
         (Return (TakeResponse "Задание успешно взято" task_id),
          {| pending := db'; committed := [db'];
             published := [("task.taken", task_id)] |})
       ∧ tasks db' !! task_id = Some task'
       ∧ Task.status task' = IN_PROGRESS
       ∧ Task.executor_id task' = Some cu
       ∧ Task.updated_at task' = Some utcnow)
  ∧ (∀ task r s, tasks db !! task_id = Some task →
       Task.creator_id task = cu →
       take_task utcnow task_id cu (begin db) ≠ (Return r, s)).
Proof.
  split; [|split; [|split; [|split]]].
  - intros Ht. unfold take_task. run. by rewrite Ht.
  - intros task Ht Hst. unfold take_task. run. rewrite Ht.
    by rewrite bool_decide_eq_true_2.
  - intros task Ht Hst Hcr. unfold take_task. run. rewrite Ht.
    rewrite bool_decide_eq_false_2 by (intros ?; congruence).
    by rewrite bool_decide_eq_true_2.
  - intros task Ht Hst Hcr. simpl. split.
    + unfold take_task. run. rewrite Ht.
      rewrite bool_decide_eq_false_2 by (intros ?; congruence).
      by rewrite bool_decide_eq_false_2.
    + by rewrite lookup_insert_eq.
  - intros task r s Ht Hcr. unfold take_task. run. rewrite Ht.
    case_bool_decide; [done|].
    by rewrite bool_decide_eq_true_2.
Qed.


(** The four [query.filter] calls select the rows that match. *)
Lemma get_tasks_filters status category min_price max_price
    (rows : list (Z * Task.t)) :
  filter (λ r, max_price_filter max_price (snd r))
    (filter (λ r, min_price_filter min_price (snd r))
       (filter (λ r, category_filter category (snd r))
          (filter (λ r, status_filter status (snd r)) rows)))
  ≡ₚ filter (λ r, task_matches status category min_price max_price (snd r))
       rows.
Proof.
  rewrite !list_filter_filter.
  induction rows as [|r rows IH]; [done|].
  rewrite !filter_cons.
  repeat case_decide; unfold task_matches in *;
    try (exfalso; tauto); by rewrite IH.
Qed.

(** What the four filters ask of a row, spelled out: the status asked for,
    the category asked for unless it is empty, and a price between the
    bounds given. *)
Lemma task_matches_spelled status category min_price max_price t :
  task_matches status category min_price max_price t
  ↔ (∀ st, status = Some st → Task.status t = st)
    ∧ (∀ c, category = Some c → c ≠ "" → Task.category t = Some c)
    ∧ (∀ p, min_price = Some p → (p <=? Task.price t)%float = true)
    ∧ (∀ p, max_price = Some p → (Task.price t <=? p)%float = true).
Proof.
  unfold task_matches, status_filter, category_filter, min_price_filter,
    max_price_filter.
  destruct status as [st|], category as [c|], min_price as [p|],
    max_price as [p'|]; try case_bool_decide;
    (split; intros (? & ? & ? & ?); repeat split; intros;
     simplify_eq; eauto).
Qed.

(** C10. The two read routes never look at the request's credential.  With
    any [Authorization] or none, get-by-id answers the stored task, or 404
    when there is none.  Whenever list-with-filters answers, the answer is
    the window [skip, limit] of the stored tasks that have the status asked
    for, the category asked for, and a price between the bounds given,
    newest first; it does answer for every window the database serves.  No
    failure of either route is a 401 or a 403, the answers are the same
    whatever credential the request carries, and the session is left
    untouched. *)
Theorem read_routes_take_no_credential (authorization : option string) db :
  (∀ task_id,
     get_task_route authorization task_id (begin db) =
       (match tasks db !! task_id with
        | Some task => Return (TaskResponse task_id task)
        | None => Raise (HTTPException 404 "Задание не найдено")
        end, begin db))
  ∧ (∀ status category min_price max_price skip limit r s,
       get_tasks_route authorization status category min_price max_price
         skip limit (begin db) = (Return r, s) →
       s = begin db
       ∧ ∃ q,
           r = TaskListResponse (take limit (drop skip q))
           ∧ NoDup q
           ∧ StronglySorted (key_ge (λ r, Task.created_at (snd r))) q
           ∧ ∀ id t,
               (id, t) ∈ q ↔
               tasks db !! id = Some t
               ∧ (∀ st, status = Some st → Task.status t = st)
               ∧ (∀ c, category = Some c → c ≠ "" →
                    Task.category t = Some c)
               ∧ (∀ p, min_price = Some p →
                    (p <=? Task.price t)%float = true)
               ∧ (∀ p, max_price = Some p →
                    (Task.price t <=? p)%float = true))
  ∧ (∀ status category min_price max_price skip limit,
       Z.of_nat skip < 2 ^ 63 →
       from_option has_nul false category = false →
       ∃ r,
         get_tasks_route authorization status category min_price max_price
           skip limit (begin db) = (Return r, begin db))
  ∧ (∀ task_id code detail s,
       get_task_route authorization task_id (begin db) =
         (Raise (HTTPException code detail), s) →
       code ≠ 401 ∧ code ≠ 403)
  ∧ (∀ status category min_price max_price skip limit code detail s,
       get_tasks_route authorization status category min_price max_price
         skip limit (begin db) ≠ (Raise (HTTPException code detail), s))
  ∧ (∀ authorization' task_id status category min_price max_price skip
       limit,
       get_task_route authorization' task_id (begin db)
         = get_task_route authorization task_id (begin db)
       ∧ get_tasks_route authorization' status category min_price max_price
           skip limit (begin db)
         = get_tasks_route authorization status category min_price
             max_price skip limit (begin db)).
Proof.
  split; [|split; [|split; [|split; [|split]]]].
  - intros task_id. unfold get_task_route, get_task. run.
    by destruct (tasks db !! task_id).
  - intros status category min_price max_price skip limit r s.
    unfold get_tasks_route, get_tasks. run.
    destruct (bool_decide (2 ^ 63 ≤ Z.of_nat skip)
              || from_option has_nul false category); run; [done|].
    intros [= <- <-]. split; [done|]. eexists.
    split; [reflexivity|]. split; [|split].
    + rewrite order_by_desc_perm, get_tasks_filters.
      apply NoDup_filter, NoDup_map_to_list.
    + apply order_by_desc_sorted.
    + intros id t.
      rewrite order_by_desc_perm, get_tasks_filters, list_elem_of_filter,
        elem_of_map_to_list. simpl.
      rewrite task_matches_spelled. tauto.
  - intros status category min_price max_price skip limit Hskip Hnul.
    unfold get_tasks_route, get_tasks. run.
    rewrite bool_decide_eq_false_2 by lia. rewrite Hnul. run. eauto.
  - intros task_id code detail s. unfold get_task_route, get_task. run.
    destruct (tasks db !! task_id); [done|].
    intros [= <- <- <-]. unfold HTTP_404_NOT_FOUND. lia.
  - intros status category min_price max_price skip limit code detail s.
    unfold get_tasks_route, get_tasks. run.
    by destruct (bool_decide (2 ^ 63 ≤ Z.of_nat skip)
                 || from_option has_nul false category).
  - done.
Qed.

End quest_service_properties.

(** ** quest_service on the concrete marketplace *)

Lemma market_invariant : executor_is_not_creator scenario.market.
Proof.
  unfold executor_is_not_creator. apply (bool_decide_unpack _).
  vm_compute. exact I.
Qed.

Lemma garden_invariant : executor_is_not_creator scenario.garden.
Proof.
  unfold executor_is_not_creator. apply (bool_decide_unpack _).
  vm_compute. exact I.
Qed.

(** C1 as stated fails: Alice, with 5000, completes a task of 1e-13 that Bob,
    with 100000, has taken.  The completion succeeds and the task is
    [COMPLETED] in the committed state, in which neither balance has moved:
    in binary64, [5000 - 1e-13] is [5000] and [100000 + 1e-13] is
    [100000]. *)
Lemma complete_task_tiny_price_moves_no_balance :
  ∃ db',
    quest_service.complete_task 9 1 1 (begin scenario.quarry) =
      (Return (CompleteResponse "Задание успешно завершено" 1 1e-13),
       {| pending := db'; committed := [db'];
          published := [("task.completed", 1)] |})
    ∧ Task.status <$> tasks db' !! 1 = Some COMPLETED
    ∧ User.balance <$> users db' !! 1
      = User.balance <$> users scenario.quarry !! 1
    ∧ User.balance <$> users db' !! 2
      = User.balance <$> users scenario.quarry !! 2.
Proof. vm_compute. eexists. repeat split. Qed.

(** Alice completes "Fix roof": 500 - 100 for her, 0 + 100 and a rating of
    4.5 + 0.1 for Bob, in the one state that is committed.  She completes
    "Trim the hedge": Carol's rating was 5 and stays 5. *)
Lemma complete_task_success_witness :
  (∃ db',
     quest_service.complete_task 9 1 1 (begin scenario.market) =
       (Return (CompleteResponse "Задание успешно завершено" 1 100),
        {| pending := db'; committed := [db'];
           published := [("task.completed", 1)] |})
     ∧ User.balance <$> users db' !! 1 = Some 400%float
     ∧ User.balance <$> users db' !! 2 = Some 100%float
     ∧ User.rating <$> users db' !! 2 = Some 4.6%float
     ∧ Task.status <$> tasks db' !! 1 = Some COMPLETED)
  ∧ (∃ db',
       quest_service.complete_task 9 4 1 (begin scenario.garden) =
         (Return (CompleteResponse "Задание успешно завершено" 4 40),
          {| pending := db'; committed := [db'];
             published := [("task.completed", 4)] |})
       ∧ User.balance <$> users db' !! 3 = Some 70%float
       ∧ User.rating <$> users db' !! 3 = Some 5%float).
Proof.
  split.
  - destruct (complete_task_success 9 scenario.market 1 1 2 scenario.fix_roof
                scenario.alice scenario.bob market_invariant
                eq_refl eq_refl eq_refl eq_refl ltac:(lia) eq_refl eq_refl
                eq_refl)
      as (Hrun & Hc & He & Ht & _).
    eexists. split; [exact Hrun|].
    rewrite Hc, He, Ht. repeat split; vm_compute; reflexivity.
  - destruct (complete_task_success 9 scenario.garden 4 1 3
                scenario.trim_hedge scenario.alice scenario.carol
                garden_invariant
                eq_refl eq_refl eq_refl eq_refl ltac:(lia) eq_refl eq_refl
                eq_refl)
      as (Hrun & _ & He & _).
    eexists. split; [exact Hrun|].
    rewrite He. repeat split; vm_compute; reflexivity.
Defined.

(** Carol cannot pay for "Paint fence": refused, and nothing has changed. *)
Lemma complete_task_failure_witness :
  ∃ s,
    quest_service.complete_task 9 2 3 (begin scenario.market) =
      (Raise (HTTPException 400 "Недостаточно средств для выплаты"), s)
    ∧ db_after scenario.market s = scenario.market
    ∧ Task.status <$> tasks (db_after scenario.market s) !! 2
      = Some IN_PROGRESS.
Proof.
  exact (proj2 (proj2 (complete_task_failure 9 scenario.market 2 3))
           scenario.paint_fence 2 scenario.bob scenario.carol
           eq_refl eq_refl eq_refl eq_refl ltac:(lia) eq_refl eq_refl
           eq_refl).
Defined.

(** C3 as stated fails: no creator whose balance is below the price ever
    gets a task created. *)
Lemma create_task_rejects_below_price :
  ¬ ∃ server_now db cu c task_data r s,
      users db !! cu = Some c
      ∧ User.is_active c = true
      ∧ (User.balance c <? TaskCreate.price task_data)%float = true
      ∧ quest_service.create_task server_now task_data cu (begin db) =
          (Return r, s).
Proof.
  intros (server_now & db & cu & c & task_data & r & s & Hc & _ & Hbal & Hrun).
  rewrite (create_task_below_price server_now db cu c task_data Hc Hbal)
    in Hrun.
  discriminate.
Qed.

(** Carol, with 30, asks for a task of 40 and is refused; Alice, with 500,
    gets it created as task 4, and her balance was not below 40. *)
Lemma create_task_balance_check_witness :
  quest_service.create_task 7 scenario.new_task 3 (begin scenario.market) =
    (Raise (HTTPException 400 "Недостаточно средств на балансе"),
     begin scenario.market)
  ∧ (User.balance scenario.alice <? TaskCreate.price scenario.new_task)%float
    = false
  ∧ ∃ task db',
      fst (quest_service.create_task 7 scenario.new_task 1
             (begin scenario.market)) = Return (TaskResponse 4 task)
      ∧ tasks db' !! 4 = Some task
      ∧ Task.status task = OPEN.
Proof.
  split.
  - apply (proj1 (create_task_balance_check 7 scenario.market 3
                    scenario.carol scenario.new_task eq_refl)).
    reflexivity.
  - assert (∃ r s,
              quest_service.create_task 7 scenario.new_task 1
                (begin scenario.market) = (Return r, s))
      as (r & s & Hrun) by (eexists _, _; vm_compute; reflexivity).
    destruct (proj2 (create_task_balance_check 7 scenario.market 1
                       scenario.alice scenario.new_task eq_refl)
                r s Hrun)
      as (Hbal & task & db' & Hr & _ & Hstored & Hst & _).
    split; [exact Hbal|]. exists task, db'.
    rewrite Hrun. simpl. rewrite Hr.
    split; [reflexivity|]. split; [exact Hstored | exact Hst].
Defined.

(** C4 as stated fails: Bob takes "Walk the dog" and is not answered with
    the task. *)
Lemma take_task_does_not_return_the_task :
  ¬ ∃ task s,
      quest_service.take_task 9 3 2 (begin scenario.market) =
        (Return (TaskResponse 3 task), s).
Proof. intros (task & s & Hrun). vm_compute in Hrun. discriminate. Qed.

(** Bob takes "Walk the dog"; Alice, its creator, may not. *)
Lemma take_task_spec_witness :
  (∃ db',
     quest_service.take_task 9 3 2 (begin scenario.market) =
       (Return (TakeResponse "Задание успешно взято" 3),
        {| pending := db'; committed := [db'];
           published := [("task.taken", 3)] |})
     ∧ (Task.status <$> tasks db' !! 3) = Some IN_PROGRESS
     ∧ (Task.executor_id <$> tasks db' !! 3) = Some (Some 2))
  ∧ quest_service.take_task 9 3 1 (begin scenario.market) =
      (Raise (HTTPException 400 "Нельзя взять свое задание"),
       begin scenario.market).
Proof.
  split.
  - destruct (proj1 (proj2 (proj2 (proj2
                (take_task_spec 9 scenario.market 3 2))))
                scenario.walk_dog eq_refl eq_refl ltac:(simpl; lia))
      as (Hrun & Ht & _).
    eexists. split; [exact Hrun|]. rewrite Ht. split; reflexivity.
  - exact (proj1 (proj2 (proj2 (take_task_spec 9 scenario.market 3 1)))
             scenario.walk_dog eq_refl eq_refl eq_refl).
Defined.

(** Anyone reads task 3, and nobody finds task 7.  Asked for the open
    tasks, with a credential that is none, the list route answers "Walk the
    dog" alone, and what it lists is stored and open. *)
Lemma read_routes_take_no_credential_witness :
  quest_service.get_task_route None 3 (begin scenario.market) =
    (Return (TaskResponse 3 scenario.walk_dog), begin scenario.market)
  ∧ quest_service.get_task_route (Some "Bearer nonsense") 7
      (begin scenario.market) =
      (Raise (HTTPException 404 "Задание не найдено"), begin scenario.market)
  ∧ quest_service.get_tasks_route (Some "Bearer nonsense") (Some OPEN) None
      None None 0 10 (begin scenario.market) =
      (Return (TaskListResponse [(3, scenario.walk_dog)]),
       begin scenario.market)
  ∧ (∃ q,
       [(3, scenario.walk_dog)] = take 10 (drop 0 q)
       ∧ ∀ id t, (id, t) ∈ q →
           tasks scenario.market !! id = Some t ∧ Task.status t = OPEN)
  ∧ ∃ r,
      quest_service.get_tasks_route None None (Some "repair") (Some 60%float)
        None 1 10 (begin scenario.market) = (Return r, begin scenario.market).
Proof.
  split; [|split; [|split; [|split]]];
    [| | | |apply (proj1 (proj2 (proj2 (read_routes_take_no_credential
                                          (H := merge_order_by) None
                                          scenario.market))));
            [simpl; lia | reflexivity]].
  - apply (proj1 (read_routes_take_no_credential None scenario.market) 3).
  - apply (proj1 (read_routes_take_no_credential (Some "Bearer nonsense")
                    scenario.market) 7).
  - vm_compute. reflexivity.
  - destruct (proj1 (proj2 (read_routes_take_no_credential
                              (H := merge_order_by)
                              (Some "Bearer nonsense") scenario.market))
                (Some OPEN) None None None 0%nat 10%nat
                (TaskListResponse [(3, scenario.walk_dog)])
                (begin scenario.market) ltac:(vm_compute; reflexivity))
      as (_ & q & Hq & _ & _ & Hin).
    exists q. split; [by injection Hq|].
    intros id t Hid. apply Hin in Hid as (Hstored & Hst & _).
    split; [exact Hstored|]. by apply Hst.
Defined.

(** ** chat_service *)

Ltac run_chat :=
  unfold chat_service.connect, chat_service.authorize,
    chat_service.offset_limit, chat_service.accept, chat_service.send_text,
    chat_service.close, chat_service.logger_error, with_db;
  run.

Section chat_service_properties.
Context (verify_token : string → option Payload).
Context (server_now : Z).
Context (accept_raises send_raises : WebSocket → bool).
Context `{OrderBy} `{Stores}.
Import chat_service.

#[local] Arguments check_task_access : simpl never.
#[local] Arguments chat_service.broadcast : simpl never.
#[local] Arguments get_current_user_from_token : simpl never.

Abbreviation create_message :=
  (create_message verify_token server_now send_raises).
Abbreviation create_message_route :=
  (create_message_route verify_token server_now send_raises).
Abbreviation get_task_messages := (get_task_messages verify_token).
Abbreviation websocket_endpoint :=
  (websocket_endpoint verify_token accept_raises send_raises).
Abbreviation connect := (connect accept_raises).
Abbreviation broadcast := (broadcast send_raises).

(** The [authorization] parameter of the send-message route is always
    [None], so the handler stops at its first check. *)
Lemma create_message_route_always_401 request_authorization message_data c :
  create_message_route request_authorization message_data c =
    (Raise (HTTPException 401 "Требуется аутентификация"), c).
Proof. reflexivity. Qed.

(** What [connect] does with a socket that is still connecting: the socket
    is accepted and appended to the task's list, which is created when
    absent. *)
Lemma connect_run c websocket task_id :
  accept_raises websocket = false →
  websocket ∉ accepted c →
  websocket ∉ fst <$> closed c →
  connect websocket task_id c =
    (Return tt,
     set_active_connections
       <[task_id :=
           default [] (active_connections c !! task_id) ++ [websocket]]>
       (set_accepted (λ l, l ++ [websocket]) c)).
Proof.
  intros Hacc Hfresh Hopen. run_chat. rewrite Hacc.
  rewrite !bool_decide_eq_true_2 by done. run.
  destruct (active_connections c !! task_id) as [l|] eqn:Hl.
  - rewrite bool_decide_eq_false_2 by done. run.
    unfold set_active_connections, set_accepted; simpl. do 2 f_equal.
    apply map_eq. intros i. rewrite lookup_alter, lookup_insert.
    case_decide; subst; [rewrite Hl|]; done.
  - rewrite bool_decide_eq_true_2 by done. run.
    unfold set_active_connections, set_accepted; simpl. do 2 f_equal.
    apply map_eq. intros i. rewrite lookup_alter, !lookup_insert.
    repeat case_decide; done.
Qed.

(** When [accept()] raises, because the peer's handshake fails or because
    the socket has been accepted or closed before, [connect] raises with it
    and registers nothing. *)
Lemma connect_refused c websocket task_id :
  accept_raises websocket = true ∨ websocket ∈ accepted c
  ∨ websocket ∈ fst <$> closed c →
  connect websocket task_id c = (Raise (OtherException "RuntimeError"), c).
Proof.
  intros Hno. run_chat.
  assert (accept_raises websocket
          || negb (bool_decide (websocket ∉ accepted c)
                   && bool_decide (websocket ∉ fst <$> closed c)) = true)
    as ->; [|done].
  apply orb_true_iff.
  destruct Hno as [Hraises | [Hacc | Hclosed]]; [by left|right..];
    apply negb_true_iff, andb_false_iff; [left|right];
    apply bool_decide_eq_false_2; auto.
Qed.

(** [connect] either registers a socket that was still connecting, or
    raises and changes nothing. *)
Lemma connect_cases c websocket task_id :
  (accept_raises websocket = false
   ∧ (websocket ∉ accepted c)
   ∧ (websocket ∉ fst <$> closed c))
  ∨ connect websocket task_id c = (Raise (OtherException "RuntimeError"), c).
Proof.
  destruct (accept_raises websocket) eqn:Hacc;
    [right; apply connect_refused; by left|].
  destruct (decide (websocket ∈ accepted c));
    [right; apply connect_refused; right; by left|].
  destruct (decide (websocket ∈ fst <$> closed c));
    [right; apply connect_refused; right; by right|].
  by left.
Qed.

(** C8. Registering the same socket twice for the same task leaves the
    process in the state that registering it once leaves: the second
    [connect] raises in [accept()], before the list is touched.  A [connect]
    that returns has appended the socket to the task's list, and it keeps
    every list of the registry free of duplicates. *)
Theorem connect_twice_is_connect_once c websocket task_id :
  let once := snd (connect websocket task_id c) in
  let twice := snd (connect websocket task_id once) in
  twice = once
  ∧ (fst (connect websocket task_id c) = Return tt →
     active_connections once !! task_id =
       Some (default [] (active_connections c !! task_id) ++ [websocket])
     ∧ fst (connect websocket task_id once) =
         Raise (OtherException "RuntimeError"))
  ∧ (listed_once c → listed_once once).
Proof.
  destruct (decide (accept_raises websocket = false
                    ∧ (websocket ∉ accepted c)
                    ∧ (websocket ∉ fst <$> closed c)))
    as [(Hacc & Hfresh & Hopen) | Hno].
  - rewrite connect_run by done. cbn [snd fst].
    rewrite connect_refused
      by (right; left; cbn; apply elem_of_app; right; apply list_elem_of_here).
    cbn [snd fst]. split; [done|]. split.
    + intros _. split; [|done]. cbn. by rewrite lookup_insert_eq.
    + intros Hc. unfold listed_once. cbn.
      apply map_Forall_insert_2.
      * destruct (active_connections c !! task_id) as [l|] eqn:Hl; cbn.
        -- destruct (Hc _ _ Hl) as [Hnd Hsub]. split.
           ++ apply NoDup_app. split; [done|]. split; [|apply NoDup_singleton].
              intros w Hw ->%list_elem_of_singleton. by apply Hfresh, Hsub.
           ++ intros w [Hw | Hw]%elem_of_app; apply elem_of_app;
                [left; by apply Hsub | by right].
        -- split; [apply NoDup_singleton|].
           intros w Hw. apply elem_of_app. by right.
      * intros i l Hl. destruct (Hc _ _ Hl) as [Hnd Hsub]. split; [done|].
        intros w Hw. apply elem_of_app. left. by apply Hsub.
  - assert (connect websocket task_id c
            = (Raise (OtherException "RuntimeError"), c)) as Hrun.
    { apply connect_refused.
      destruct (accept_raises websocket) eqn:Hacc; [by left|right].
      destruct (decide (websocket ∈ accepted c)); [by left|right].
      destruct (decide (websocket ∈ fst <$> closed c)); [done|].
      by destruct Hno. }
    rewrite Hrun. cbn [snd fst]. rewrite Hrun. cbn [snd fst].
    split; [done|]. split; [done|]. done.
Qed.

(** The loop of [broadcast]: each listed socket that is not excluded is sent
    the message; where sending raises, one error is logged and the loop goes
    on. *)
Lemma for_each_send message exclude (l : list WebSocket) : ∀ c,
  for_each l (λ connection,
    if bool_decide (Some connection ≠ exclude)
    then try_except (send_text send_raises connection message)
           (λ e, logger_error "Ошибка отправки сообщения")
    else ret tt) c =
  (Return tt,
   set_logged
     (λ lg, lg ++ replicate
        (length (filter (λ w, Some w ≠ exclude ∧ send_raises w = true) l))
        "Ошибка отправки сообщения")
     (set_sent
        (λ st, st ++ ((λ w, (w, message)) <$>
           filter (λ w, Some w ≠ exclude ∧ send_raises w = false) l))
        c)).
Proof.
  induction l as [|w l IH]; intros c.
  - destruct c. unfold set_logged, set_sent, ret. simpl.
    by rewrite !app_nil_r.
  - simpl for_each. unfold bind at 1. rewrite !filter_cons.
    case_bool_decide as Hex.
    + destruct (send_raises w) eqn:Hs; run_chat; rewrite Hs; run; rewrite IH.
      * rewrite decide_True by done.
        rewrite decide_False by (intros [_ ?]; done).
        unfold set_logged, set_sent; simpl.
        by rewrite <- app_assoc.
      * rewrite decide_False by (intros [_ ?]; done).
        rewrite decide_True by done.
        unfold set_logged, set_sent; simpl.
        by rewrite <- app_assoc.
    + run. rewrite IH.
      rewrite !decide_False by (intros [? _]; done). done.
Qed.

(** What [broadcast] leaves behind. *)
Lemma broadcast_run c message task_id exclude :
  let conns := default [] (active_connections c !! task_id) in
  broadcast message task_id exclude c =
    (Return tt,
     set_logged
       (λ lg, lg ++ replicate
          (length (filter (λ w, Some w ≠ exclude ∧ send_raises w = true)
                     conns))
          "Ошибка отправки сообщения")
       (set_sent
          (λ st, st ++ ((λ w, (w, message)) <$>
             filter (λ w, Some w ≠ exclude ∧ send_raises w = false) conns))
          c)).
Proof.
  simpl. unfold chat_service.broadcast, bind, gets.
  destruct (active_connections c !! task_id) as [l|]; simpl.
  - apply for_each_send.
  - destruct c. unfold set_logged, set_sent, ret. simpl.
    by rewrite !app_nil_r.
Qed.

(** C7, as the code has it.  [broadcast] never raises and never changes the
    registry: a socket whose delivery fails stays listed, and one error is
    logged for it.  Every other listed socket that is not excluded is sent
    the message, in the order of the list. *)
Theorem broadcast_isolates_failures c message task_id exclude :
  let conns := default [] (active_connections c !! task_id) in
  ∃ c',
    broadcast message task_id exclude c = (Return tt, c')
    ∧ active_connections c' = active_connections c
    ∧ sent c' =
        sent c ++ ((λ w, (w, message)) <$>
          filter (λ w, Some w ≠ exclude ∧ send_raises w = false) conns)
    ∧ logged c' =
        logged c ++ replicate
          (length (filter (λ w, Some w ≠ exclude ∧ send_raises w = true)
                     conns))
          "Ошибка отправки сообщения"
    ∧ (∀ w, w ∈ conns → Some w ≠ exclude → send_raises w = false →
         (w, message) ∈ sent c')
    ∧ db c' = db c ∧ accepted c' = accepted c ∧ closed c' = closed c.
Proof.
  simpl. eexists. split; [apply broadcast_run|]. simpl.
  repeat split; try done.
  intros w Hw Hex Hs. apply elem_of_app. right.
  apply list_elem_of_fmap. exists w. split; [done|].
  by apply list_elem_of_filter.
Qed.

(** [check_task_access] lets through the task's creator and its executor,
    and nobody else. *)
Lemma check_task_access_participant uid u task :
  check_task_access (Some (uid, u)) (Some task) = true
  ↔ uid = Task.creator_id task ∨ Task.executor_id task = Some uid.
Proof.
  unfold check_task_access.
  rewrite orb_true_iff, !bool_decide_eq_true. split; intros [?|?]; auto.
Qed.

(** Who passes the handshake of [websocket_endpoint]: the bearer of a token
    that resolves to a user who created or took the task. *)
Lemma websocket_endpoint_refused c websocket task_id token :
  let d := pending (db c) in
  (¬ ∃ t user task,
       token = Some t ∧ t ≠ ""
       ∧ get_current_user_from_token verify_token t d = Some user
       ∧ tasks d !! task_id = Some task
       ∧ check_task_access (Some user) (Some task) = true) →
  websocket_endpoint websocket task_id token c =
    (Return None,
     set_closed (λ l, l ++ [(websocket, WS_1008_POLICY_VIOLATION)]) c).
Proof.
  simpl. intros Hno. unfold chat_service.websocket_endpoint. run_chat.
  destruct token as [t|]; [|done].
  case_bool_decide as Ht; [done|]. run.
  destruct (get_current_user_from_token verify_token t (pending (db c)))
    as [user|] eqn:Hu; [|done].
  destruct (tasks (pending (db c)) !! task_id) as [task|] eqn:Htask; [|done].
  destruct (check_task_access (Some user) (Some task)) eqn:Hacc; [|done].
  destruct Hno. by exists t, user, task.
Qed.

(** The guard of the handshake.  A handshake without a token, with a token
    that resolves to no stored user, for an absent task, or by a user who is
    neither the creator nor the executor of the task ends with the socket
    closed with code 1008; the socket is not accepted, nothing is sent to it
    and the registry is what it was.  Whenever the handshake changes the
    registry, the token resolved to a stored user who created or took the
    task.  Whether that user's account is active is not looked at. *)
Lemma websocket_endpoint_guard c websocket task_id token :
  let d := pending (db c) in
  let participant :=
    ∃ t uid u task,
      token = Some t ∧ t ≠ ""
      ∧ get_current_user_from_token verify_token t d = Some (uid, u)
      ∧ tasks d !! task_id = Some task
      ∧ (uid = Task.creator_id task ∨ Task.executor_id task = Some uid) in
  (¬ participant →
   ∃ c',
     websocket_endpoint websocket task_id token c = (Return None, c')
     ∧ closed c' = closed c ++ [(websocket, 1008)]
     ∧ active_connections c' = active_connections c
     ∧ accepted c' = accepted c
     ∧ sent c' = sent c)
  ∧ (∀ r c',
       websocket_endpoint websocket task_id token c = (r, c') →
       active_connections c' ≠ active_connections c →
       participant).
Proof.
  simpl. split.
  - intros Hno. eexists. split; [apply websocket_endpoint_refused; simpl|done].
    intros (t & [uid u] & task & ? & ? & ? & ? & Hacc). apply Hno.
    exists t, uid, u, task. by rewrite <- check_task_access_participant.
  - intros r c'.
    unfold chat_service.websocket_endpoint. run_chat.
    destruct token as [t|]; [|by intros [= <- <-] []].
    case_bool_decide as Ht; [by intros [= <- <-] []|]. run.
    destruct (get_current_user_from_token verify_token t (pending (db c)))
      as [[uid u]|] eqn:Hu; [|by intros [= <- <-] []].
    destruct (tasks (pending (db c)) !! task_id) as [task|] eqn:Htask;
      [|by intros [= <- <-] []].
    destruct (check_task_access (Some (uid, u)) (Some task)) eqn:Hacc;
      [|by intros [= <- <-] []].
    intros _ _. exists t, uid, u, task.
    by rewrite <- check_task_access_participant.
Qed.

(** *** The window of [get_task_messages] *)

Lemma StronglySorted_take {A} (R : relation A) (n : nat) (l : list A) :
  StronglySorted R l → StronglySorted R (take n l).
Proof.
  intros Hl. rewrite <- (take_drop n l) in Hl.
  by apply StronglySorted_app_1_l in Hl.
Qed.

Lemma StronglySorted_drop {A} (R : relation A) (n : nat) (l : list A) :
  StronglySorted R l → StronglySorted R (drop n l).
Proof.
  intros Hl. rewrite <- (take_drop n l) in Hl.
  by apply StronglySorted_app_1_r in Hl.
Qed.

Lemma StronglySorted_reverse {A} (R : relation A) (l : list A) :
  StronglySorted R l → StronglySorted (flip R) (reverse l).
Proof.
  induction 1 as [|x l Hl IH Hx]; [constructor|].
  rewrite reverse_cons. apply StronglySorted_app_2.
  - intros y z Hy Hz. apply list_elem_of_singleton in Hz as ->.
    rewrite elem_of_reverse in Hy. rewrite Forall_forall in Hx. by apply Hx.
  - done.
  - repeat constructor.
Qed.

(** Reversing a window counted from the front is taking the window counted
    from the back of the reversed list. *)
Lemma reverse_window {A} (skip limit : nat) (l : list A) :
  reverse (take limit (drop skip l)) =
  drop (length l - skip - limit) (take (length l - skip) (reverse l)).
Proof. by rewrite reverse_take, reverse_drop, length_drop. Qed.

(** C6, as the code has it.  For the bearer of a credential of the task's
    creator or executor, and for [skip] and [limit] from [0] up to [2^63],
    [get_task_messages] pages through the conversation from its newest
    message: it takes the messages [skip, skip + limit) of the newest-first
    sequence and returns them reversed.  The answer is ordered oldest first
    by creation time, and it is the slice [n - skip - limit, n - skip) of
    the oldest-first sequence of the [n] messages of the task.  How messages
    of equal creation time are arranged is left to the database. *)
Theorem get_task_messages_window c task_id a token uid u task skip limit :
  String.prefix "Bearer " a = true →
  py_split a "Bearer " !! 1%nat = Some token →
  get_current_user_from_token verify_token token (pending (db c))
    = Some (uid, u) →
  tasks (pending (db c)) !! task_id = Some task →
  uid = Task.creator_id task ∨ Task.executor_id task = Some uid →
  0 ≤ skip < 2 ^ 63 → 0 ≤ limit < 2 ^ 63 →
  let of_task :=
    filter (λ m, ChatMessage.task_id m = task_id)
      (chat_messages (pending (db c))) in
  let newest_first := order_by_desc ChatMessage.created_at of_task in
  let oldest_first := reverse newest_first in
  let n := length of_task in
  let window :=
    reverse (take (Z.to_nat limit) (drop (Z.to_nat skip) newest_first)) in
  get_task_messages task_id (Some a) skip limit c =
    (Return (ChatMessageListResponse window), c)
  ∧ window =
      drop (n - Z.to_nat skip - Z.to_nat limit)
        (take (n - Z.to_nat skip) oldest_first)
  ∧ StronglySorted
      (λ x y, ChatMessage.created_at x ≤ ChatMessage.created_at y) window
  ∧ oldest_first ≡ₚ of_task.
Proof.
  intros Hpre Htok Hu Ht Hacc Hskip Hlimit. simpl.
  apply (check_task_access_participant uid u) in Hacc.
  split; [|split; [|split]].
  - unfold chat_service.get_task_messages. run_chat.
    rewrite bool_decide_eq_false_2 by (intros ->; done).
    rewrite Hpre. run. rewrite Htok. run. rewrite Hu, Ht, Hacc. run.
    rewrite !bool_decide_eq_false_2 by lia. run.
    destruct c as [[]]; reflexivity.
  - rewrite reverse_window.
    by rewrite (Permutation_length (order_by_desc_perm _ _)).
  - apply (StronglySorted_reverse (key_ge ChatMessage.created_at)).
    apply StronglySorted_take, StronglySorted_drop, order_by_desc_sorted.
  - by rewrite reverse_Permutation, order_by_desc_perm.
Qed.

(** A [skip] or [limit] that is negative or does not fit a [bigint] is
    refused by the database, and the handler answers 400. *)
Lemma get_task_messages_out_of_range c task_id a token user task skip limit :
  String.prefix "Bearer " a = true →
  py_split a "Bearer " !! 1%nat = Some token →
  get_current_user_from_token verify_token token (pending (db c))
    = Some user →
  tasks (pending (db c)) !! task_id = Some task →
  check_task_access (Some user) (Some task) = true →
  skip < 0 ∨ limit < 0 ∨ 2 ^ 63 ≤ skip ∨ 2 ^ 63 ≤ limit →
  get_task_messages task_id (Some a) skip limit c =
    (Raise (HTTPException 400 "Не удалось получить сообщения"), c).
Proof.
  intros Hpre Htok Hu Ht Hacc Hout.
  unfold chat_service.get_task_messages. run_chat.
  rewrite bool_decide_eq_false_2 by (intros ->; done).
  rewrite Hpre. run. rewrite Htok. run. rewrite Hu, Ht, Hacc. run.
  assert (bool_decide (skip < 0) || bool_decide (limit < 0)
          || bool_decide (2 ^ 63 ≤ skip) || bool_decide (2 ^ 63 ≤ limit)
          = true) as ->.
  { rewrite !orb_true_iff, !bool_decide_eq_true. tauto. }
  run. destruct c as [[]]; reflexivity.
Qed.

(** When the bearer credential does reach [create_message], the message of a
    participant that the [text] column takes is stored under the next id
    with the database's time, committed, broadcast to the task's sockets and
    returned. *)
Lemma create_message_stores c message_data a token user task :
  String.prefix "Bearer " a = true →
  py_split a "Bearer " !! 1%nat = Some token →
  get_current_user_from_token verify_token token (pending (db c))
    = Some user →
  tasks (pending (db c)) !! ChatMessageCreate.task_id message_data
    = Some task →
  check_task_access (Some user) (Some task) = true →
  chat_messages_id_seq (pending (db c)) + 1
    ∉ ChatMessage.id <$> chat_messages (pending (db c)) →
  let row :=
    {| ChatMessage.id := chat_messages_id_seq (pending (db c)) + 1;
       ChatMessage.task_id := ChatMessageCreate.task_id message_data;
       ChatMessage.sender_id := fst user;
       ChatMessage.message := ChatMessageCreate.message message_data;
       ChatMessage.created_at := server_now |} in
  stores_chat_message row = true →
  ∃ c',
    create_message message_data (Some a) c =
      (Return (ChatMessageResponse row), c')
    ∧ chat_messages (pending (db c')) =
        chat_messages (pending (db c)) ++ [row]
    ∧ committed (db c') = committed (db c) ++ [pending (db c')]
    ∧ active_connections c' = active_connections c.
Proof.
  intros Hpre Htok Hu Ht Hacc Hfresh row Hstores. subst row.
  unfold chat_service.create_message. run_chat.
  rewrite bool_decide_eq_false_2 by (intros ->; done).
  rewrite Hpre. run. rewrite Htok. run. rewrite Hu, Ht, Hacc. run.
  rewrite Hstores. run.
  rewrite bool_decide_eq_false_2 by done. run.
  rewrite broadcast_run. run.
  eexists. split; [reflexivity|]. done.
Qed.

(** The only place where a socket leaves the registry is [disconnect]: when
    the last socket of a task goes, so does the task's entry. *)
Lemma disconnect_last c websocket task_id :
  active_connections c !! task_id = Some [websocket] →
  disconnect websocket task_id c =
    (Return tt, set_active_connections (delete task_id) c).
Proof.
  intros Hl. unfold disconnect. run. rewrite Hl.
  rewrite bool_decide_eq_true_2 by apply list_elem_of_here. run.
  rewrite lookup_alter_eq, Hl. simpl.
  rewrite bool_decide_eq_true_2 by (by rewrite bool_decide_eq_true_2).
  run. unfold set_active_connections. simpl. do 2 f_equal.
  apply map_eq. intros i. rewrite !lookup_delete, lookup_alter.
  by repeat case_decide.
Qed.

End chat_service_properties.

(** ** chat_service on the concrete marketplace *)

(** C5 fails on the code.  Alice, the creator of task 1, posts "hello" with
    her bearer token: the route answers 401 and stores nothing, because the
    [authorization] parameter of the handler is never filled from the
    request.  The handler itself, given the credential, stores the message
    as message 4 and returns it. *)
Theorem create_message_route_refuses_participant :
  let request := {| ChatMessageCreate.message := "hello";
                    ChatMessageCreate.task_id := 1 |} in
  let c := scenario.chat {[1 := [10%nat; 11%nat]]} in
  chat_service.create_message_route scenario.verify_token 40 scenario.nobody
    (Some "Bearer alice-token") request c =
    (Raise (HTTPException 401 "Требуется аутентификация"), c)
  ∧ fst (chat_service.create_message scenario.verify_token 40 scenario.nobody
           request (Some "Bearer alice-token") c) =
      Return (ChatMessageResponse
                {| ChatMessage.id := 4; ChatMessage.task_id := 1;
                   ChatMessage.sender_id := 1;
                   ChatMessage.message := "hello";
                   ChatMessage.created_at := 40 |}).
Proof. split; vm_compute; reflexivity. Qed.

(** C6 as stated fails.  Of the three messages of task 1, the window
    [offset = 0, limit = 2] of [get_task_messages] is not the first two of
    the oldest-first sequence.  Where two messages carry the same creation
    time, nothing in the query puts the smaller id first: when the database
    sorts rows of equal time in the order they were inserted, the answer
    names message 2 before message 1.  An offset of [2^63] is answered
    400, and a request without a credential 401. *)
Lemma get_task_messages_is_not_the_oldest_slice :
  fst (chat_service.get_task_messages scenario.verify_token 1
         (Some "Bearer alice-token") 0 2 (scenario.chat ∅))
  ≠ Return (ChatMessageListResponse (listMessages_spec scenario.market 1 0 2))
  ∧ (fst (chat_service.get_task_messages scenario.verify_token 1
            (Some "Bearer alice-token") 0 2 (scenario.chat_over scenario.rush))
     = Return (ChatMessageListResponse
                 [scenario.hello 2 10 2 "second";
                  scenario.hello 1 10 1 "first"])
     ∧ listMessages_spec scenario.rush 1 0 2
       = [scenario.hello 1 10 1 "first"; scenario.hello 2 10 2 "second"])
  ∧ fst (chat_service.get_task_messages scenario.verify_token 1
           (Some "Bearer alice-token") (2 ^ 63) 2 (scenario.chat ∅))
    = Raise (HTTPException 400 "Не удалось получить сообщения")
  ∧ fst (chat_service.get_task_messages scenario.verify_token 1 None 0 2
           (scenario.chat ∅))
    = Raise (HTTPException 401 "Требуется аутентификация").
Proof.
  split; [vm_compute; discriminate|].
  repeat split; vm_compute; reflexivity.
Qed.

(** It is the last two, oldest first. *)
Lemma get_task_messages_window_witness :
  chat_service.get_task_messages scenario.verify_token 1
    (Some "Bearer alice-token") 0 2 (scenario.chat ∅) =
    (Return (ChatMessageListResponse
               [scenario.hello 2 20 2 "second"; scenario.hello 3 30 1 "third"]),
     scenario.chat ∅).
Proof.
  destruct (get_task_messages_window scenario.verify_token (scenario.chat ∅)
              1 "Bearer alice-token" "alice-token" 1 scenario.alice
              scenario.fix_roof 0 2
              ltac:(reflexivity) ltac:(reflexivity)
              ltac:(vm_compute; reflexivity) ltac:(reflexivity)
              ltac:(left; reflexivity)
              ltac:(split; [lia|reflexivity])
              ltac:(split; [lia|reflexivity]))
    as (Hrun & _).
  rewrite Hrun. vm_compute. reflexivity.
Defined.

(** C7 as stated fails: socket 10 cannot be reached, and after the broadcast
    it is still registered for task 1. *)
Lemma broadcast_keeps_failing_session :
  ¬ (∀ w, scenario.only 10%nat w = true →
       w ∉ default []
             (active_connections
                (snd (chat_service.broadcast (scenario.only 10%nat)
                        (error_frame "ping") 1 None
                        (scenario.chat {[1 := [10%nat; 11%nat]]})))
              !! 1)).
Proof.
  intros Hgone. apply (Hgone 10%nat); [reflexivity|].
  vm_compute. apply list_elem_of_here.
Qed.

(** Socket 11 still gets the frame, and one error is logged. *)
Lemma broadcast_isolates_failures_witness :
  ∃ c',
    chat_service.broadcast (scenario.only 10%nat) (error_frame "ping") 1 None
      (scenario.chat {[1 := [10%nat; 11%nat]]}) = (Return tt, c')
    ∧ active_connections c' !! 1 = Some [10%nat; 11%nat]
    ∧ sent c' = [(11%nat, error_frame "ping")]
    ∧ logged c' = ["Ошибка отправки сообщения"].
Proof.
  destruct (broadcast_isolates_failures (scenario.only 10%nat)
              (scenario.chat {[1 := [10%nat; 11%nat]]})
              (error_frame "ping") 1 None)
    as (c' & Hrun & Hreg & Hsent & Hlog & _).
  exists c'. split; [exact Hrun|].
  rewrite Hreg, Hsent, Hlog. repeat split.
Defined.

(** Socket 12 is registered for task 1 once: a second [connect] raises and
    leaves the process as it was, and no list names a socket twice. *)
Lemma connect_twice_is_connect_once_witness :
  let once :=
    snd (chat_service.connect scenario.nobody 12%nat 1 (scenario.chat ∅)) in
  snd (chat_service.connect scenario.nobody 12%nat 1 once) = once
  ∧ active_connections once !! 1 = Some [12%nat]
  ∧ fst (chat_service.connect scenario.nobody 12%nat 1 once) =
      Raise (OtherException "RuntimeError")
  ∧ listed_once once.
Proof.
  destruct (connect_twice_is_connect_once scenario.nobody (scenario.chat ∅)
              12%nat 1)
    as (Hsame & Hreturned & Hlisted).
  destruct (Hreturned eq_refl) as [Hreg Hraised].
  split; [exact Hsame|]. split; [exact Hreg|]. split; [exact Hraised|].
  apply Hlisted. apply map_Forall_empty.
Defined.

(** C9 fails on the code.  Alice's account has been deactivated, and her
    token has not expired.  [quest_service.get_current_user] refuses her
    with 400; the handshake of the chat resolves the token to her row
    without looking at [is_active], accepts socket 10, registers it for her
    task and greets her. *)
Theorem websocket_endpoint_registers_deactivated_account :
  let suspended_alice :=
    {| User.username := "alice"; User.balance := 500; User.rating := 5;
       User.is_active := false |} in
  users scenario.suspended !! 1 = Some suspended_alice
  ∧ quest_service.get_current_user scenario.verify_token "Bearer alice-token"
      (begin scenario.suspended) =
      (Raise (HTTPException 400 "Пользователь неактивен"),
       begin scenario.suspended)
  ∧ ∃ c',
      chat_service.websocket_endpoint scenario.verify_token scenario.nobody
        scenario.nobody 10%nat 1 (Some "alice-token")
        (scenario.chat_over scenario.suspended) =
        (Return (Some (1, suspended_alice)), c')
      ∧ active_connections c' !! 1 = Some [10%nat]
      ∧ accepted c' = [10%nat]
      ∧ closed c' = []
      ∧ sent c' =
          [(10%nat,
            connection_frame "Подключено к чату задания" 1 1 "alice")].
Proof.
  simpl. split; [reflexivity|]. split; [vm_compute; reflexivity|].
  eexists. split; [vm_compute; reflexivity|]. repeat split.
Qed.

(** Carol holds a valid token but neither created nor took task 1: her
    socket is closed with 1008 and the registry stays empty. *)
Lemma websocket_endpoint_guard_witness :
  ∃ c',
    chat_service.websocket_endpoint scenario.verify_token scenario.nobody
      scenario.nobody 13%nat 1 (Some "carol-token") (scenario.chat ∅) =
      (Return None, c')
    ∧ closed c' = [(13%nat, 1008)]
    ∧ active_connections c' = ∅
    ∧ accepted c' = []
    ∧ sent c' = [].
Proof.
  apply (proj1 (websocket_endpoint_guard scenario.verify_token
                  scenario.nobody scenario.nobody (scenario.chat ∅) 13%nat 1
                  (Some "carol-token"))).
  intros (t & uid & u & task & Htoken & _ & Huser & Htask & Haccess).
  injection Htoken as <-.
  vm_compute in Huser. injection Huser as <- <-.
  vm_compute in Htask. injection Htask as <-.
  destruct Haccess as [Haccess | Haccess]; vm_compute in Haccess;
    discriminate.
Defined.

(** * Further properties

    ** Bearer credentials *)

Lemma prefix_split (p a : string) :
  String.prefix p a = true → ∃ t, a = p +:+ t.
Proof.
  revert a. induction p as [|c p IH]; intros a.
  - intros _. by exists a.
  - destruct a as [|d a]; simpl; [done|].
    destruct (Ascii.ascii_dec c d) as [->|]; [|done].
    intros Hp. destruct (IH _ Hp) as [t ->]. by exists t.
Qed.

Lemma split_from_nonempty sep s : ∀ skip cur,
  ∃ x l, split_from sep skip cur s = x :: l.
Proof.
  induction s as [|c s IH]; intros skip cur; cbn [split_from]; [eauto|].
  destruct skip as [|k]; [|apply IH].
  destruct (String.prefix sep (String c s)); [eauto|apply IH].
Qed.

Lemma string_app_assoc (a b c : string) : (a +:+ b) +:+ c = a +:+ (b +:+ c).
Proof.
  induction a as [|x a IH]; [done|].
  change (String x ((a +:+ b) +:+ c) = String x (a +:+ (b +:+ c))).
  by rewrite IH.
Qed.

Lemma string_app_empty_r (a : string) : a +:+ "" = a.
Proof.
  induction a as [|x a IH]; [done|].
  change (String x (a +:+ "") = String x a). by rewrite IH.
Qed.

Lemma split_from_no_sep sep s : ∀ cur,
  py_in sep s = false → split_from sep 0 cur s = [cur +:+ s].
Proof.
  induction s as [|c s IH]; intros cur; cbn [split_from py_in].
  - intros _. by rewrite string_app_empty_r.
  - intros Hin. apply orb_false_iff in Hin as [Hp Hin].
    rewrite Hp. rewrite IH by done. by rewrite string_app_assoc.
Qed.

Lemma py_split_bearer t :
  py_split ("Bearer " +:+ t) "Bearer " = "" :: split_from "Bearer " 0 "" t.
Proof.
  unfold py_split. cbv [String.append]. fold String.append.
  destruct t; reflexivity.
Qed.

(** After the check [startswith("Bearer ")], [split("Bearer ")[1]] is
    there. *)
Lemma bearer_token_exists a :
  String.prefix "Bearer " a = true →
  ∃ token, py_split a "Bearer " !! 1%nat = Some token.
Proof.
  intros [t ->]%prefix_split. rewrite py_split_bearer.
  destruct (split_from_nonempty "Bearer " t 0 "") as (x & l & ->).
  by exists x.
Qed.

Lemma bearer_token_round_trip token :
  py_in "Bearer " token = false →
  String.prefix "Bearer " ("Bearer " +:+ token) = true
  ∧ py_split ("Bearer " +:+ token) "Bearer " !! 1%nat = Some token.
Proof.
  intros Hin. split.
  - cbv [String.append]. fold String.append. by destruct token.
  - rewrite py_split_bearer, split_from_no_sep by done. done.
Qed.

Lemma user_by_username_found d uid u :
  usernames_unique d → users d !! uid = Some u →
  user_by_username d (User.username u) = Some (uid, u).
Proof.
  intros Huniq Hu. unfold user_by_username.
  destruct (list_find _ _) as [[i [uid' u']]|] eqn:Hfind; simpl.
  - apply list_find_Some in Hfind as (Hl & Hname & _).
    apply bool_decide_unpack in Hname. simpl in Hname.
    apply list_elem_of_lookup_2, elem_of_map_to_list in Hl.
    assert (uid' = uid) as -> by (by eapply Huniq).
    congruence.
  - apply list_find_None in Hfind. rewrite Forall_forall in Hfind.
    destruct (Hfind (uid, u)).
    + by apply elem_of_map_to_list.
    + by apply bool_decide_pack.
Qed.

Lemma user_by_username_Some d name uid u :
  user_by_username d name = Some (uid, u) →
  users d !! uid = Some u ∧ User.username u = name.
Proof.
  unfold user_by_username.
  destruct (list_find _ _) as [[i r]|] eqn:Hl; [|done].
  simpl. intros [= ->].
  apply list_find_Some in Hl as (Hl & Hname & _).
  apply bool_decide_unpack in Hname.
  apply list_elem_of_lookup_2 in Hl. by apply elem_of_map_to_list in Hl.
Qed.

(** ** quest_service: authentication, listing and the life of a task *)

Section quest_service_coverage.
Context (verify_token : string → option Payload).
Context (utcnow server_now : Z).
Context `{OrderBy} `{Stores}.
Import quest_service.

(** X1. A request whose header is [Bearer <token>], where the token verifies
    to the name of a stored active user, is authenticated as that user: the
    token survives [split("Bearer ")[1]] unchanged (it does not itself
    contain the separator), the name resolves to the one row that carries it
    (usernames are unique), and the session is left as it was. *)
Theorem get_current_user_accepts s token name uid u :
  usernames_unique (pending s) →
  py_in "Bearer " token = false →
  verify_token token = Some {| sub := Some name |} →
  name ≠ "" →
  users (pending s) !! uid = Some u →
  User.username u = name →
  User.is_active u = true →
  get_current_user verify_token ("Bearer " +:+ token) s = (Return uid, s).
Proof.
  intros Huniq Hin Hv Hname Hu Hun Hact.
  destruct (bearer_token_round_trip token Hin) as [Hpre Htok].
  generalize dependent ("Bearer " +:+ token). intros a Hpre Htok.
  unfold get_current_user. run.
  rewrite bool_decide_eq_false_2 by (by intros ->).
  rewrite Hpre. run. rewrite Htok. run. rewrite Hv. run.
  rewrite bool_decide_eq_false_2 by done. run.
  subst name. rewrite (user_by_username_found _ uid u) by done.
  run. by rewrite Hact.
Qed.


(** What a run of each lifecycle handler can be. *)
Lemma create_task_cases db task_data cu r s :
  create_task server_now task_data cu (begin db) = (r, s) →
  (∃ e, r = Raise e ∧ s = begin db)
  ∨ (∃ c,
       let id := tasks_id_seq db + 1 in
       let task :=
         {| Task.title := TaskCreate.title task_data;
            Task.description := TaskCreate.description task_data;
            Task.price := TaskCreate.price task_data;
            Task.status := OPEN;
            Task.category := TaskCreate.category task_data;
            Task.deadline := TaskCreate.deadline task_data;
            Task.created_at := server_now;
            Task.updated_at := None;
            Task.creator_id := cu;
            Task.executor_id := None |} in
       let db' :=
         {| users := users db; tasks := <[id := task]> (tasks db);
            chat_messages := chat_messages db; tasks_id_seq := id;
            chat_messages_id_seq := chat_messages_id_seq db |} in
       users db !! cu = Some c
       ∧ (User.balance c <? TaskCreate.price task_data)%float = false
       ∧ tasks db !! id = None
       ∧ r = Return (TaskResponse id task)
       ∧ s = {| pending := db'; committed := [db'];
                published := [("task.created", id)] |}).
Proof.
  unfold create_task. run.
  destruct (users db !! cu) as [c|] eqn:Hc; run;
    [|intros [= <- <-]; left; eauto].
  destruct (User.balance c <? TaskCreate.price task_data)%float eqn:Hbal; run;
    [intros [= <- <-]; left; eauto|].
  destruct (stores_task _); run; [|intros [= <- <-]; left; eauto].
  destruct (tasks db !! (tasks_id_seq db + 1)) eqn:Hfresh; run;
    [intros [= <- <-]; left; eauto|].
  intros [= <- <-]. right. by exists c.
Qed.

Lemma take_task_cases db task_id cu r s :
  take_task utcnow task_id cu (begin db) = (r, s) →
  (∃ e, r = Raise e ∧ s = begin db)
  ∨ (∃ task,
       let task' :=
         Task.with_updated_at (Some utcnow)
           (Task.with_executor_id (Some cu)
              (Task.with_status IN_PROGRESS task)) in
       let db' := set_tasks <[task_id := task']> db in
       tasks db !! task_id = Some task
       ∧ Task.status task = OPEN
       ∧ Task.creator_id task ≠ cu
       ∧ r = Return (TakeResponse "Задание успешно взято" task_id)
       ∧ s = {| pending := db'; committed := [db'];
                published := [("task.taken", task_id)] |}).
Proof.
  unfold take_task. run.
  destruct (tasks db !! task_id) as [task|] eqn:Ht; run;
    [|intros [= <- <-]; left; eauto].
  case_bool_decide as Hst; run; [intros [= <- <-]; left; eauto|].
  case_bool_decide as Hcr; run; [intros [= <- <-]; left; eauto|].
  intros [= <- <-]. right. exists task. simpl.
  repeat split; try done.
Qed.

Lemma complete_task_cases db task_id cu r s :
  complete_task utcnow task_id cu (begin db) = (r, s) →
  (∃ e, r = Raise e ∧ s = begin db)
  ∨ (∃ task ex c e db',
       let price := Task.price task in
       let task' :=
         Task.with_updated_at (Some utcnow)
           (Task.with_status COMPLETED task) in
       tasks db !! task_id = Some task
       ∧ Task.creator_id task = cu
       ∧ Task.status task = IN_PROGRESS
       ∧ Task.executor_id task = Some ex
       ∧ ex ≠ 0
       ∧ users db !! cu = Some c
       ∧ users db !! ex = Some e
       ∧ (User.balance c <? price)%float = false
       ∧ r = Return (CompleteResponse "Задание успешно завершено"
                       task_id price)
       ∧ s = {| pending := db'; committed := [db'];
                published := [("task.completed", task_id)] |}
       ∧ tasks db' = <[task_id := task']> (tasks db)
       ∧ chat_messages db' = chat_messages db
       ∧ tasks_id_seq db' = tasks_id_seq db
       ∧ chat_messages_id_seq db' = chat_messages_id_seq db
       ∧ (∀ uid, uid ≠ cu → uid ≠ ex → users db' !! uid = users db !! uid)
       ∧ is_Some (users db' !! cu) ∧ is_Some (users db' !! ex)
       ∧ (ex ≠ cu →
          users db' !! cu
            = Some (User.with_balance (User.balance c - price)%float c)
          ∧ users db' !! ex
            = Some (User.with_rating
                      (py_min 5.0 (User.rating e + 0.1))%float
                      (User.with_balance (User.balance e + price)%float e)))).
Proof.
  unfold complete_task. run.
  destruct (tasks db !! task_id) as [task|] eqn:Ht; run;
    [|intros [= <- <-]; left; eauto].
  case_bool_decide as Hcr; run; [intros [= <- <-]; left; eauto|].
  case_bool_decide as Hst; run; [intros [= <- <-]; left; eauto|].
  destruct (Task.executor_id task) as [ex|] eqn:Hex; run;
    [|intros [= <- <-]; left; eauto].
  case_bool_decide as Hex0; run; [intros [= <- <-]; left; eauto|].
  destruct (users db !! ex) as [e0|] eqn:He; run;
    [|intros [= <- <-]; left; eauto].
  destruct (users db !! cu) as [c|] eqn:Hc; run;
    [|intros [= <- <-]; left; eauto].
  destruct (User.balance c <? Task.price task)%float eqn:Hbal; run;
    [intros [= <- <-]; left; eauto|].
  rewrite Hc. run.
  assert (Task.creator_id task = cu) as Hcr'
    by (by destruct (decide (Task.creator_id task = cu))).
  assert (Task.status task = IN_PROGRESS) as Hst'
    by (by destruct (decide (Task.status task = IN_PROGRESS))).
  destruct (decide (cu = ex)) as [->|Hne].
  - rewrite lookup_insert_eq. run. rewrite lookup_insert_eq. run.
    intros [= <- <-]. right. eexists task, ex, c, e0, _. simpl.
    repeat split; try done;
      try (intros uid Hu1 Hu2); unfold set_users, set_tasks; simpl;
      rewrite ?lookup_insert_ne by done;
      rewrite ?lookup_insert_eq; eauto.
  - rewrite lookup_insert_ne by done. rewrite He. run.
    rewrite lookup_insert_eq. run.
    intros [= <- <-]. right. eexists task, ex, c, e0, _. simpl.
    repeat split; try done;
      try (intros uid Hu1 Hu2); unfold set_users, set_tasks; simpl;
      rewrite ?lookup_insert_ne by done;
      rewrite ?lookup_insert_eq; eauto.
Qed.

Lemma get_current_user_Return authorization s uid s' :
  get_current_user verify_token authorization s = (Return uid, s') →
  s' = s
  ∧ ∃ token name u,
      String.prefix "Bearer " authorization = true
      ∧ py_split authorization "Bearer " !! 1%nat = Some token
      ∧ verify_token token = Some {| sub := Some name |}
      ∧ name ≠ ""
      ∧ users (pending s) !! uid = Some u
      ∧ User.username u = name
      ∧ User.is_active u = true.
Proof.
  unfold get_current_user. run.
  destruct (String.prefix "Bearer " authorization) eqn:Hpre;
    [|by rewrite orb_true_r].
  rewrite orb_false_r.
  case_bool_decide as Hempty; run; [done|].
  destruct (py_split authorization "Bearer " !! 1%nat) as [token|] eqn:Htok;
    run; [|done].
  destruct (verify_token token) as [[[name|]]|] eqn:Hv; run; [|done..].
  case_bool_decide as Hname; run; [done|].
  destruct (user_by_username (pending s) name) as [[id u]|] eqn:Hfind; run;
    [|done].
  apply user_by_username_Some in Hfind as [Hu Hun].
  destruct (User.is_active u) eqn:Hact; run; [|done].
  intros [= <- <-]. split; [done|]. by exists token, name, u.
Qed.

(** X3. The three lifecycle routes change nothing and return nothing unless
    the request authenticates: whenever create, take or complete leaves the
    session different from how it began, or returns a response, the header
    carried a bearer token that verifies to the name of a stored, active
    user. *)
Theorem lifecycle_routes_need_active_user authorization task_data task_id db
    r s :
  create_task_route verify_token server_now authorization task_data
    (begin db) = (r, s)
  ∨ take_task_route verify_token utcnow authorization task_id (begin db)
    = (r, s)
  ∨ complete_task_route verify_token utcnow authorization task_id (begin db)
    = (r, s) →
  s ≠ begin db ∨ (∃ a, r = Return a) →
  ∃ token name uid u,
    String.prefix "Bearer " authorization = true
    ∧ py_split authorization "Bearer " !! 1%nat = Some token
    ∧ verify_token token = Some {| sub := Some name |}
    ∧ users db !! uid = Some u
    ∧ User.username u = name
    ∧ User.is_active u = true.
Proof.
  intros Hrun Hchanged.
  pose proof (lifecycle_routes_authenticate verify_token utcnow server_now
                authorization task_data task_id db) as Hroutes.
  destruct (get_current_user verify_token authorization (begin db))
    as [[uid|e] s0] eqn:Hauth.
  - apply get_current_user_Return in Hauth
      as (_ & token & name & u & Hpre & Htok & Hv & _ & Hu & Hun & Hact).
    by exists token, name, uid, u.
  - destruct Hroutes as (Hc & Ht & Hd).
    rewrite Hc, Ht, Hd in Hrun.
    assert (r = Raise e ∧ s = begin db) as [-> ->]
      by (destruct Hrun as [Hrun|[Hrun|Hrun]]; by injection Hrun).
    destruct Hchanged as [?|[a ?]]; done.
Qed.

(** X4. [get_user_tasks] answers, for every user id (stored or not) and
    without raising or changing the session, exactly the stored tasks the
    user created (role [creator]) or executes (any other role), each once,
    newest first. *)
Theorem get_user_tasks_spec user_id role db :
  let mine (t : Task.t) :=
    if bool_decide (role = "creator") then Task.creator_id t = user_id
    else Task.executor_id t = Some user_id in
  ∃ q,
    get_user_tasks user_id role (begin db) =
      (Return (TaskListResponse q), begin db)
    ∧ StronglySorted (key_ge (λ r, Task.created_at (snd r))) q
    ∧ NoDup q
    ∧ ∀ id t, (id, t) ∈ q ↔ tasks db !! id = Some t ∧ mine t.
Proof.
  simpl. eexists. split; [|split; [|split]].
  - unfold get_user_tasks. run. reflexivity.
  - apply order_by_desc_sorted.
  - rewrite order_by_desc_perm.
    case_bool_decide; apply NoDup_filter, NoDup_map_to_list.
  - intros id t. rewrite order_by_desc_perm.
    case_bool_decide; rewrite list_elem_of_filter, elem_of_map_to_list;
      simpl; tauto.
Qed.

Lemma task_evolves_refl t : task_evolves t t.
Proof. unfold task_evolves, status_step. tauto. Qed.

(** X5. Whatever a lifecycle handler does, every task that was stored is
    still stored afterwards, with its title, description, price, category,
    deadline, creation time and creator unchanged; its status is the same or
    has moved one step along [open -> in_progress -> completed], and its
    executor changes only on the step from [open] to [in_progress].  So no
    handler deletes a task, reopens one or cancels one. *)
Theorem lifecycle_status_transitions db task_data task_id cu r s :
  create_task server_now task_data cu (begin db) = (r, s)
  ∨ take_task utcnow task_id cu (begin db) = (r, s)
  ∨ complete_task utcnow task_id cu (begin db) = (r, s) →
  ∀ id t, tasks db !! id = Some t →
    ∃ t', tasks (db_after db s) !! id = Some t' ∧ task_evolves t t'.
Proof.
  intros [Hrun|[Hrun|Hrun]] id t Hid.
  - apply create_task_cases in Hrun
      as [(e & -> & ->)|(c & _ & _ & Hfresh & -> & ->)].
    + exists t. split; [done|apply task_evolves_refl].
    + exists t. split; [|apply task_evolves_refl].
      unfold db_after. simpl. rewrite lookup_insert_ne; [done|].
      intros Heq. rewrite Heq in Hfresh. congruence.
  - apply take_task_cases in Hrun
      as [(e & -> & ->)|(task & Ht & Hst & _ & -> & ->)].
    + exists t. split; [done|apply task_evolves_refl].
    + unfold db_after. simpl. destruct (decide (id = task_id)) as [->|Hne].
      * rewrite lookup_insert_eq. eexists. split; [done|].
        assert (t = task) as -> by congruence.
        unfold task_evolves, status_step. simpl. rewrite Hst. tauto.
      * rewrite lookup_insert_ne by done.
        exists t. split; [done|apply task_evolves_refl].
  - apply complete_task_cases in Hrun
      as [(e & -> & ->)
         |(task & ex & c & e & db' & Ht & _ & Hst & _ & _ & _ & _ & _ & ->
           & -> & Htasks & _)].
    + exists t. split; [done|apply task_evolves_refl].
    + unfold db_after. simpl. rewrite Htasks.
      destruct (decide (id = task_id)) as [->|Hne].
      * rewrite lookup_insert_eq. eexists. split; [done|].
        assert (t = task) as -> by congruence.
        unfold task_evolves, status_step. simpl. rewrite Hst. tauto.
      * rewrite lookup_insert_ne by done.
        exists t. split; [done|apply task_evolves_refl].
Qed.

Lemma take_task_not_open db task_id cu task :
  tasks db !! task_id = Some task → Task.status task ≠ OPEN →
  take_task utcnow task_id cu (begin db) =
    (Raise (HTTPException 400 "Задание недоступно для взятия"), begin db).
Proof.
  intros Ht Hst. unfold take_task. run. rewrite Ht.
  by rewrite bool_decide_eq_true_2.
Qed.

Lemma complete_task_not_in_progress db task_id cu task :
  tasks db !! task_id = Some task → Task.status task ≠ IN_PROGRESS →
  complete_task utcnow task_id cu (begin db) =
    (Raise (if bool_decide (Task.creator_id task ≠ cu)
            then HTTPException 403
                   "Только создатель задания может завершить его"
            else HTTPException 400 "Задание не в процессе выполнения"),
     begin db).
Proof.
  intros Ht Hst. unfold complete_task. run. rewrite Ht.
  case_bool_decide; [done|]. by rewrite bool_decide_eq_true_2.
Qed.

(** X6. A task is paid for once.  After a successful [complete_task] the
    task is [COMPLETED] in the committed database, and from then on every
    further [complete_task] on it, by anyone, is refused with 400 or 403 and
    every [take_task] with 400, nothing being changed. *)
Theorem no_double_payment db task_id cu r s :
  complete_task utcnow task_id cu (begin db) = (Return r, s) →
  let db' := db_after db s in
  Task.status <$> tasks db' !! task_id = Some COMPLETED
  ∧ ∀ cu',
      (∃ code detail,
         complete_task utcnow task_id cu' (begin db') =
           (Raise (HTTPException code detail), begin db')
         ∧ (code = 400 ∨ code = 403))
      ∧ take_task utcnow task_id cu' (begin db') =
          (Raise (HTTPException 400 "Задание недоступно для взятия"),
           begin db').
Proof.
  intros Hrun. simpl.
  apply complete_task_cases in Hrun
    as [(e & ? & _)
       |(task & ex & c & e & db' & Ht & _ & Hst & _ & _ & _ & _ & _ & _
         & -> & Htasks & _)]; [done|].
  unfold db_after. simpl.
  assert (tasks db' !! task_id
          = Some (Task.with_updated_at (Some utcnow)
                    (Task.with_status COMPLETED task))) as Ht'
    by (by rewrite Htasks, lookup_insert_eq).
  split; [by rewrite Ht'|].
  intros cu'. split.
  - rewrite (complete_task_not_in_progress _ _ _ _ Ht') by done.
    case_bool_decide; eauto.
  - by rewrite (take_task_not_open _ _ _ _ Ht').
Qed.

(** X7. Accounts are touched by [complete_task] alone.  [create_task] and
    [take_task] leave the [users] table as it is, whatever they answer.
    [complete_task] changes at most the rows of the task's creator and
    executor: every other account is unchanged, no account appears or
    disappears, no other task and no chat message is touched. *)
Theorem balances_move_only_on_completion db task_data task_id cu :
  (∀ r s, create_task server_now task_data cu (begin db) = (r, s) →
     users (db_after db s) = users db)
  ∧ (∀ r s, take_task utcnow task_id cu (begin db) = (r, s) →
       users (db_after db s) = users db)
  ∧ (∀ r s task, complete_task utcnow task_id cu (begin db) = (r, s) →
       tasks db !! task_id = Some task →
       let db' := db_after db s in
       (∀ uid, uid ≠ Task.creator_id task →
          Some uid ≠ Task.executor_id task →
          users db' !! uid = users db !! uid)
       ∧ (∀ uid, is_Some (users db' !! uid) ↔ is_Some (users db !! uid))
       ∧ (∀ id, id ≠ task_id → tasks db' !! id = tasks db !! id)
       ∧ chat_messages db' = chat_messages db).
Proof.
  split; [|split].
  - intros r s Hrun.
    by apply create_task_cases in Hrun
      as [(e & -> & ->)|(c & _ & _ & _ & -> & ->)].
  - intros r s Hrun.
    by apply take_task_cases in Hrun
      as [(e & -> & ->)|(task & _ & _ & _ & -> & ->)].
  - intros r s task Hrun Ht. simpl.
    apply complete_task_cases in Hrun
      as [(e & -> & ->)
         |(task' & ex & c & e & db' & Ht' & Hcr & _ & Hex & _ & Hc & He & _
           & -> & -> & Htasks & Hchat & _ & _ & Hframe & Hcu & Hexu & _)];
      [done|].
    assert (task' = task) as -> by congruence.
    unfold db_after. simpl. split; [|split; [|split]].
    + intros uid Hu Hu'. apply Hframe; congruence.
    + intros uid. destruct (decide (uid = cu)) as [->|Hu].
      { rewrite Hc. split; eauto. }
      destruct (decide (uid = ex)) as [->|Hu'].
      { rewrite He. split; eauto. }
      by rewrite Hframe.
    + intros id Hid. by rewrite Htasks, lookup_insert_ne.
    + done.
Qed.

(** X8. The whole life of a task.  An open task taken by another user and
    then completed by its creator, whose balance is not below the price,
    ends [COMPLETED] with that user as executor.  The creator's balance is
    the binary64 difference of the old balance and the price, the executor's
    the binary64 sum.  The executor's rating is the old rating plus [0.1]
    where that is below [5.0], and [5.0] otherwise: it never exceeds
    [5.0]. *)
Theorem take_then_complete db task_id task creator executor c e :
  tasks db !! task_id = Some task →
  Task.status task = OPEN →
  Task.creator_id task = creator →
  executor ≠ creator →
  executor ≠ 0 →
  users db !! creator = Some c →
  users db !! executor = Some e →
  (Task.price task <=? User.balance c)%float = true →
  let price := Task.price task in
  let raised := (User.rating e + 0.1)%float in
  let rating' := if (raised <? 5.0)%float then raised else 5.0%float in
  ∃ s1 s2,
    take_task utcnow task_id executor (begin db) =
      (Return (TakeResponse "Задание успешно взято" task_id), s1)
    ∧ complete_task utcnow task_id creator (begin (db_after db s1)) =
        (Return (CompleteResponse "Задание успешно завершено" task_id price),
         s2)
    ∧ let db2 := db_after (db_after db s1) s2 in
      Task.status <$> tasks db2 !! task_id = Some COMPLETED
      ∧ Task.executor_id <$> tasks db2 !! task_id = Some (Some executor)
      ∧ User.balance <$> users db2 !! creator
        = Some (User.balance c - price)%float
      ∧ User.balance <$> users db2 !! executor
        = Some (User.balance e + price)%float
      ∧ User.rating <$> users db2 !! executor = Some rating'
      ∧ (rating' <=? 5.0)%float = true.
Proof.
  intros Ht Hst Hcr Hne Hex0 Hc He Hbal. simpl.
  apply float_leb_not_ltb in Hbal.
  eexists _, _. split; [|split].
  - unfold take_task. run. rewrite Ht.
    rewrite bool_decide_eq_false_2 by (intros ?; congruence).
    rewrite bool_decide_eq_false_2 by congruence. reflexivity.
  - unfold db_after. simpl. unfold complete_task. run.
    rewrite lookup_insert_eq. simpl.
    rewrite bool_decide_eq_false_2 by (intros ?; congruence).
    rewrite bool_decide_eq_false_2 by done.
    run. rewrite He. run. rewrite Hc. run. rewrite Hbal. run.
    rewrite Hc. run.
    rewrite lookup_insert_ne by done. rewrite He. run.
    rewrite lookup_insert_eq. run. reflexivity.
  - unfold db_after. simpl.
    rewrite !lookup_insert_eq. simpl.
    rewrite !lookup_insert_ne by done. rewrite lookup_insert_eq.
    unfold py_min. repeat (split; [done|]).
    destruct (User.rating e + 0.1 <? 5.0)%float eqn:Hcap.
    + by apply float_ltb_leb.
    + reflexivity.
Qed.

(** X9. A task that [create_task] returns can be read back.  Its id is the
    next value of the sequence, which was free; [get_task] on the committed
    database returns the same row; the row is open, without executor, owned
    by the caller, with the requested title and price; and it is listed by
    [get_user_tasks] among the tasks the caller created. *)
Theorem created_task_can_be_read_back db task_data cu id task s :
  create_task server_now task_data cu (begin db) =
    (Return (TaskResponse id task), s) →
  let db' := db_after db s in
  id = tasks_id_seq db + 1
  ∧ tasks_id_seq db' = id
  ∧ tasks db !! id = None
  ∧ get_task id (begin db') = (Return (TaskResponse id task), begin db')
  ∧ Task.status task = OPEN
  ∧ Task.executor_id task = None
  ∧ Task.creator_id task = cu
  ∧ Task.title task = TaskCreate.title task_data
  ∧ Task.price task = TaskCreate.price task_data
  ∧ ∃ q, get_user_tasks cu "creator" (begin db') =
           (Return (TaskListResponse q), begin db')
         ∧ (id, task) ∈ q.
Proof.
  intros Hrun. simpl.
  apply create_task_cases in Hrun
    as [(e & ? & _)|(c & _ & _ & Hfresh & [= -> ->] & ->)]; [done|].
  unfold db_after. simpl. repeat split; try done.
  - unfold get_task. run. by rewrite lookup_insert_eq.
  - eexists. split; [unfold get_user_tasks; run; reflexivity|].
    rewrite order_by_desc_perm. simpl.
    apply list_elem_of_filter. split; [done|].
    apply elem_of_map_to_list. by rewrite lookup_insert_eq.
Qed.

(** X10. A task that is in progress but has no executor, as
    [init_db.create_sample_tasks] seeds one, cannot move: nobody can take it
    (400, it is not open) and nobody can complete it (its creator is
    answered 400, there is no executor; anyone else 403). *)
Theorem in_progress_without_executor_is_stuck db task_id task cu :
  tasks db !! task_id = Some task →
  Task.status task = IN_PROGRESS →
  Task.executor_id task = None →
  take_task utcnow task_id cu (begin db) =
    (Raise (HTTPException 400 "Задание недоступно для взятия"), begin db)
  ∧ complete_task utcnow task_id cu (begin db) =
      (Raise (if bool_decide (Task.creator_id task = cu)
              then HTTPException 400 "У задания нет исполнителя"
              else HTTPException 403
                     "Только создатель задания может завершить его"),
       begin db).
Proof.
  intros Ht Hst Hex. split.
  - apply (take_task_not_open _ _ _ _ Ht). congruence.
  - unfold complete_task. run. rewrite Ht.
    destruct (decide (Task.creator_id task = cu)) as [Hcr|Hcr].
    + rewrite bool_decide_eq_false_2 by (intros ?; congruence).
      rewrite bool_decide_eq_false_2 by (intros ?; congruence).
      rewrite Hex. by rewrite bool_decide_eq_true_2.
    + rewrite bool_decide_eq_true_2 by done.
      by rewrite bool_decide_eq_false_2.
Qed.

End quest_service_coverage.

(** ** quest_service on the concrete marketplace, continued *)

Lemma market_usernames_unique : usernames_unique scenario.market.
Proof.
  assert (map_Forall (λ i u, map_Forall (λ j v,
            User.username u = User.username v → i = j)
            (users scenario.market)) (users scenario.market)) as Hall.
  { apply (bool_decide_unpack _). vm_compute. exact I. }
  intros i j u v Hi Hj. exact (Hall i u Hi j v Hj).
Qed.

Lemma get_current_user_accepts_witness :
  quest_service.get_current_user scenario.verify_token "Bearer alice-token"
    (begin scenario.market) = (Return 1, begin scenario.market).
Proof.
  exact (get_current_user_accepts scenario.verify_token
           (begin scenario.market) "alice-token" "alice" 1 scenario.alice
           market_usernames_unique eq_refl eq_refl ltac:(discriminate)
           eq_refl eq_refl eq_refl).
Defined.

Lemma lifecycle_routes_need_active_user_witness :
  ∃ token name uid u,
    String.prefix "Bearer " "Bearer bob-token" = true
    ∧ py_split "Bearer bob-token" "Bearer " !! 1%nat = Some token
    ∧ scenario.verify_token token = Some {| sub := Some name |}
    ∧ users scenario.market !! uid = Some u
    ∧ User.username u = name
    ∧ User.is_active u = true.
Proof.
  eapply (lifecycle_routes_need_active_user scenario.verify_token 9 7
            "Bearer bob-token" scenario.new_task 3 scenario.market).
  - right. left. vm_compute. reflexivity.
  - right. eexists. reflexivity.
Defined.

Lemma lifecycle_status_transitions_witness :
  ∃ t',
    tasks (db_after scenario.market
             (snd (quest_service.take_task 9 3 2 (begin scenario.market))))
      !! 3 = Some t'
    ∧ task_evolves scenario.walk_dog t'.
Proof.
  apply (lifecycle_status_transitions 9 7 scenario.market scenario.new_task
           3 2 _ _ (or_intror (or_introl eq_refl)) 3 scenario.walk_dog).
  reflexivity.
Defined.

Lemma no_double_payment_witness :
  Task.status <$>
    tasks (db_after scenario.market
             (snd (quest_service.complete_task 9 1 1
                     (begin scenario.market)))) !! 1 = Some COMPLETED.
Proof.
  refine (proj1 (no_double_payment 9 scenario.market 1 1 _ _ _)).
  vm_compute. reflexivity.
Defined.

Lemma balances_move_only_on_completion_witness :
  users (db_after scenario.market
           (snd (quest_service.complete_task 9 1 1 (begin scenario.market))))
    !! 3 = Some scenario.carol.
Proof.
  refine (proj1 (proj2 (proj2 (balances_move_only_on_completion 9 7
            scenario.market scenario.new_task 1 1)) _ _ scenario.fix_roof
            eq_refl eq_refl) 3 _ _); simpl; congruence.
Defined.

(** Bob walks the dog and gains a tenth of rating; had Carol, whose rating
    is 5 already, walked it, her rating would have stayed 5. *)
Lemma take_then_complete_witness :
  (∃ s1 s2,
     quest_service.take_task 9 3 2 (begin scenario.market) =
       (Return (TakeResponse "Задание успешно взято" 3), s1)
     ∧ quest_service.complete_task 9 3 1
         (begin (db_after scenario.market s1)) =
         (Return (CompleteResponse "Задание успешно завершено" 3 20), s2)
     ∧ let db2 := db_after (db_after scenario.market s1) s2 in
       User.balance <$> users db2 !! 1 = Some 480%float
       ∧ User.balance <$> users db2 !! 2 = Some 20%float
       ∧ User.rating <$> users db2 !! 2 = Some 4.6%float)
  ∧ (∃ s1 s2,
       quest_service.take_task 9 3 3 (begin scenario.market) =
         (Return (TakeResponse "Задание успешно взято" 3), s1)
       ∧ quest_service.complete_task 9 3 1
           (begin (db_after scenario.market s1)) =
           (Return (CompleteResponse "Задание успешно завершено" 3 20), s2)
       ∧ let db2 := db_after (db_after scenario.market s1) s2 in
         User.balance <$> users db2 !! 3 = Some 50%float
         ∧ User.rating <$> users db2 !! 3 = Some 5%float).
Proof.
  split.
  - destruct (take_then_complete 9 scenario.market 3 scenario.walk_dog 1 2
                scenario.alice scenario.bob eq_refl eq_refl eq_refl
                ltac:(lia) ltac:(lia) eq_refl eq_refl eq_refl)
      as (s1 & s2 & Htake & Hcomplete & _ & _ & Hc & He & Hr & _).
    exists s1, s2. split; [exact Htake|]. split; [exact Hcomplete|].
    split; [exact Hc|]. split; [exact He | exact Hr].
  - destruct (take_then_complete 9 scenario.market 3 scenario.walk_dog 1 3
                scenario.alice scenario.carol eq_refl eq_refl eq_refl
                ltac:(lia) ltac:(lia) eq_refl eq_refl eq_refl)
      as (s1 & s2 & Htake & Hcomplete & _ & _ & _ & He & Hr & _).
    exists s1, s2. split; [exact Htake|]. split; [exact Hcomplete|].
    split; [exact He | exact Hr].
Defined.

Lemma created_task_can_be_read_back_witness :
  ∃ task,
    quest_service.get_task 4
      (begin (db_after scenario.market
                (snd (quest_service.create_task 7 scenario.new_task 1
                        (begin scenario.market))))) =
      (Return (TaskResponse 4 task),
       begin (db_after scenario.market
                (snd (quest_service.create_task 7 scenario.new_task 1
                        (begin scenario.market)))))
    ∧ Task.status task = OPEN.
Proof.
  assert (∃ task s,
            quest_service.create_task 7 scenario.new_task 1
              (begin scenario.market) = (Return (TaskResponse 4 task), s))
    as (task & s & Hrun) by (eexists _, _; vm_compute; reflexivity).
  exists task.
  destruct (created_task_can_be_read_back 7 scenario.market scenario.new_task
              1 4 task s Hrun) as (_ & _ & _ & Hget & Hst & _).
  rewrite Hrun. split; [exact Hget | exact Hst].
Defined.

Lemma in_progress_without_executor_is_stuck_witness :
  quest_service.take_task 9 4 2 (begin scenario.seeded) =
    (Raise (HTTPException 400 "Задание недоступно для взятия"),
     begin scenario.seeded)
  ∧ quest_service.complete_task 9 4 1 (begin scenario.seeded) =
      (Raise (HTTPException 400 "У задания нет исполнителя"),
       begin scenario.seeded).
Proof.
  split.
  - exact (proj1 (in_progress_without_executor_is_stuck 9 scenario.seeded 4
                    scenario.boss_fight 2 eq_refl eq_refl eq_refl)).
  - exact (proj2 (in_progress_without_executor_is_stuck 9 scenario.seeded 4
                    scenario.boss_fight 1 eq_refl eq_refl eq_refl)).
Defined.

(** ** chat_service: the registry *)

Lemma list_remove_notin ws l : ws ∉ l → list_remove ws l = l.
Proof.
  induction l as [|w l IH]; [done|]. intros Hin. simpl.
  rewrite bool_decide_eq_false_2 by (intros ->; apply Hin; left).
  rewrite IH; [done|]. intros ?. apply Hin. by right.
Qed.

Lemma list_remove_app_notin ws l : ws ∉ l → list_remove ws (l ++ [ws]) = l.
Proof.
  induction l as [|w l IH]; intros Hin; simpl.
  - by rewrite bool_decide_eq_true_2.
  - rewrite bool_decide_eq_false_2 by (intros ->; apply Hin; left).
    rewrite IH; [done|]. intros ?. apply Hin. by right.
Qed.

Lemma length_list_remove ws l :
  ws ∈ l → S (length (list_remove ws l)) = length l.
Proof.
  induction l as [|w l IH]; [by intros ?%elem_of_nil|].
  intros Hin. simpl. case_bool_decide as Hw; [done|]. simpl.
  rewrite IH; [done|]. apply elem_of_cons in Hin as [->|]; done.
Qed.

Lemma sum_list_Permutation (l l' : list nat) :
  l ≡ₚ l' → sum_list l = sum_list l'.
Proof. induction 1; simpl; lia. Qed.

Lemma connections_insert_fresh m k l :
  m !! k = None → connections (<[k := l]> m) = (length l + connections m)%nat.
Proof.
  intros Hk. unfold connections.
  by rewrite (sum_list_Permutation _ _
    (fmap_Permutation _ _ _ (fmap_Permutation _ _ _
       (map_to_list_insert m k l Hk)))).
Qed.

Lemma connections_delete m k l :
  m !! k = Some l → connections m = (length l + connections (delete k m))%nat.
Proof.
  intros Hk. rewrite <- (insert_delete_id m k l Hk) at 1.
  apply connections_insert_fresh, lookup_delete_eq.
Qed.

Lemma connections_insert m k l l' :
  m !! k = Some l →
  (connections (<[k := l']> m) + length l = connections m + length l')%nat.
Proof.
  intros Hk. rewrite <- insert_delete_eq.
  rewrite connections_insert_fresh by apply lookup_delete_eq.
  rewrite (connections_delete m k l Hk). lia.
Qed.

Section chat_service_coverage.
Context (verify_token : string → option Payload).
Context (server_now : Z).
Context (accept_raises send_raises : WebSocket → bool).
Context (json_loads : string → option Json).
Context (py_strip : string → string).
Context `{OrderBy} `{Stores}.
Import chat_service.

#[local] Arguments check_task_access : simpl never.
#[local] Arguments chat_service.broadcast : simpl never.
#[local] Arguments get_current_user_from_token : simpl never.

Abbreviation connect := (connect accept_raises).
Abbreviation broadcast := (broadcast send_raises).
Abbreviation websocket_endpoint :=
  (websocket_endpoint verify_token accept_raises send_raises).
Abbreviation handle_text :=
  (handle_text server_now send_raises json_loads py_strip).
Abbreviation receive_loop :=
  (receive_loop server_now send_raises json_loads py_strip).
Abbreviation websocket_session :=
  (websocket_session verify_token server_now accept_raises send_raises
     json_loads py_strip).
Abbreviation create_message :=
  (create_message verify_token server_now send_raises).
Abbreviation get_task_messages := (get_task_messages verify_token).

(** What [disconnect] leaves behind: the first occurrence of the socket is
    removed from the task's list, and the entry goes with its last socket. *)
Lemma disconnect_run c websocket task_id :
  disconnect websocket task_id c =
    (Return tt,
     set_active_connections
       (λ m, match m !! task_id with
             | None => m
             | Some l =>
                 match list_remove websocket l with
                 | [] => delete task_id m
                 | l' => <[task_id := l']> m
                 end
             end) c).
Proof.
  unfold disconnect. run.
  destruct (active_connections c !! task_id) as [l|] eqn:Hl;
    [|unfold set_active_connections; simpl; rewrite Hl; by destruct c].
  case_bool_decide as Hin; run.
  - rewrite lookup_alter_eq, Hl. simpl.
    unfold set_active_connections. simpl. rewrite Hl.
    destruct (list_remove websocket l) as [|w l'] eqn:Hrm.
    + rewrite bool_decide_eq_true_2 by done. run. do 2 f_equal.
      apply map_eq. intros i. rewrite !lookup_delete, lookup_alter.
      by repeat case_decide.
    + rewrite bool_decide_eq_false_2 by done. run. do 2 f_equal.
      apply map_eq. intros i. rewrite lookup_insert, lookup_alter.
      case_decide; subst; [rewrite Hl; simpl; by rewrite Hrm|done].
  - unfold set_active_connections. simpl. rewrite Hl.
    rewrite (list_remove_notin _ _ Hin).
    destruct l as [|w l].
    + rewrite bool_decide_eq_true_2 by done. run. done.
    + rewrite bool_decide_eq_false_2 by done. run.
      rewrite insert_id by done. by destruct c.
Qed.

(** X11. Registering a socket and unregistering it again gives the registry
    back.  For a socket that is still connecting (neither accepted nor
    closed before) and not listed for the task, in a registry without empty
    lists, [connect] followed by [disconnect] succeeds, the socket is listed
    in between, and afterwards the registry is what it was: the task's list
    is restored, and an entry that [connect] had to create is deleted
    again. *)
Theorem connect_then_disconnect c websocket task_id :
  accept_raises websocket = false →
  websocket ∉ accepted c →
  websocket ∉ fst <$> closed c →
  no_empty_list (active_connections c) →
  websocket ∉ default [] (active_connections c !! task_id) →
  ∃ c1 c2,
    connect websocket task_id c = (Return tt, c1)
    ∧ disconnect websocket task_id c1 = (Return tt, c2)
    ∧ websocket ∈ default [] (active_connections c1 !! task_id)
    ∧ active_connections c2 = active_connections c.
Proof.
  intros Hacc Hfresh Hopen Hwf Hnotin. eexists _, _.
  split; [by apply connect_run|]. split; [apply disconnect_run|].
  simpl. rewrite lookup_insert_eq. simpl.
  split; [apply elem_of_app; right; apply list_elem_of_here|].
  rewrite list_remove_app_notin by done.
  destruct (active_connections c !! task_id) as [l|] eqn:Hl; simpl.
  - destruct l as [|w l]; [by destruct (Hwf _ _ Hl)|].
    rewrite insert_insert_eq. by apply insert_id.
  - rewrite delete_insert_eq. by apply delete_id.
Qed.

(** X12. The registry never holds an empty list: if no task is mapped to
    [[]] before [connect], [disconnect] or [broadcast] runs, none is
    afterwards, whatever the call answers. *)
Theorem registry_has_no_empty_list c websocket task_id message exclude r c' :
  no_empty_list (active_connections c) →
  connect websocket task_id c = (r, c')
  ∨ disconnect websocket task_id c = (r, c')
  ∨ broadcast message task_id exclude c = (r, c') →
  no_empty_list (active_connections c').
Proof.
  intros Hwf [Hrun|[Hrun|Hrun]].
  - destruct (connect_cases accept_raises c websocket task_id)
      as [(Hacc & Hfresh & Hopen) | Hraised].
    + rewrite connect_run in Hrun by done. injection Hrun as <- <-.
      simpl. apply map_Forall_insert_2; [|done].
      by destruct (default [] _).
    + rewrite Hraised in Hrun. by injection Hrun as <- <-.
  - rewrite disconnect_run in Hrun. injection Hrun as <- <-. simpl.
    destruct (active_connections c !! task_id) as [l|]; [|done].
    destruct (list_remove websocket l) as [|w l'].
    + by apply map_Forall_delete.
    + by apply map_Forall_insert_2.
  - rewrite broadcast_run in Hrun. by injection Hrun as <- <-.
Qed.

(** X13. The number of active connections that [GET /health] reports is
    the total length of the registry's lists.  A successful [connect] raises
    it by one; [disconnect] lowers
    it by one when the socket is listed for the task and leaves it alone
    otherwise; [broadcast] never changes it. *)
Theorem health_check_counts c websocket task_id :
  let n := connections (active_connections c) in
  health_check c = (Return n, c)
  ∧ (∀ c', accept_raises websocket = false →
       connect websocket task_id c = (Return tt, c') →
       connections (active_connections c') = (n + 1)%nat)
  ∧ (∀ c', disconnect websocket task_id c = (Return tt, c') →
       connections (active_connections c') =
         if bool_decide
              (websocket ∈ default [] (active_connections c !! task_id))
         then (n - 1)%nat else n)
  ∧ (∀ message exclude c',
       broadcast message task_id exclude c = (Return tt, c') →
       connections (active_connections c') = n).
Proof.
  simpl. split; [done|]. split; [|split].
  - intros c' _.
    destruct (connect_cases accept_raises c websocket task_id)
      as [(Hacc & Hfresh & Hopen) | ->]; [|done].
    rewrite connect_run by done. intros [= <-]. simpl.
    destruct (active_connections c !! task_id) as [l|] eqn:Hl; simpl.
    + pose proof (connections_insert _ _ _ (l ++ [websocket]) Hl) as Hn.
      rewrite length_app in Hn. simpl in Hn. lia.
    + rewrite connections_insert_fresh by done. simpl. lia.
  - intros c'. rewrite disconnect_run. intros [= <-]. simpl.
    destruct (active_connections c !! task_id) as [l|] eqn:Hl; simpl;
      [|done].
    case_bool_decide as Hin.
    + pose proof (length_list_remove _ _ Hin) as Hlen.
      destruct (list_remove websocket l) as [|w l'] eqn:Hrm.
      * rewrite (connections_delete _ _ _ Hl). simpl in Hlen. lia.
      * pose proof (connections_insert _ _ _ (w :: l') Hl) as Hn. lia.
    + rewrite (list_remove_notin _ _ Hin). destruct l as [|w l].
      * rewrite (connections_delete _ _ _ Hl). simpl. lia.
      * by rewrite insert_id.
  - intros message exclude c'. rewrite broadcast_run. by intros [= <-].
Qed.

(** *** The handshake *)

Lemma websocket_endpoint_admitted c websocket task_id t user task :
  t ≠ "" →
  get_current_user_from_token verify_token t (pending (db c)) = Some user →
  tasks (pending (db c)) !! task_id = Some task →
  check_task_access (Some user) (Some task) = true →
  accept_raises websocket = false →
  websocket ∉ accepted c →
  websocket ∉ fst <$> closed c →
  send_raises websocket = false →
  websocket_endpoint websocket task_id (Some t) c =
    (Return (Some user),
     set_sent
       (λ l, l ++ [(websocket,
                    connection_frame "Подключено к чату задания" task_id
                      (fst user) (User.username (snd user)))])
       (set_active_connections
          <[task_id :=
              default [] (active_connections c !! task_id) ++ [websocket]]>
          (set_accepted (λ l, l ++ [websocket]) c))).
Proof.
  intros Ht Hu Htask Hacc Haccept Hfresh Hopen Hs.
  unfold chat_service.websocket_endpoint.
  rewrite bool_decide_eq_false_2 by done.
  unfold try_except, bind at 1, gets. rewrite Hu, Htask, Hacc. simpl.
  unfold bind at 1. rewrite connect_run by done.
  run_chat. by rewrite Hs.
Qed.


(** *** The receive loop *)

(** A turn of the loop never touches the registry, never accepts or closes
    a socket, and ends normally unless the error frame cannot be sent. *)
Lemma handle_text_keeps_registry c websocket task_id user data r c' :
  handle_text websocket task_id user data c = (r, c') →
  active_connections c' = active_connections c
  ∧ accepted c' = accepted c
  ∧ closed c' = closed c
  ∧ (send_raises websocket = false → r = Return tt).
Proof.
  unfold chat_service.handle_text. run_chat.
  destruct (json_loads data) as [[s|get|]|]; run.
  - by intros [= <- <-].
  - destruct (default (JString "") (get "message")) as [s| |]; run;
      [|by intros [= <- <-]..].
    case_bool_decide; run; [by intros [= <- <-]|].
    destruct (stores_chat_message _); run; [|by intros [= <- <-]].
    case_bool_decide; run; [by intros [= <- <-]|].
    rewrite broadcast_run. run. by intros [= <- <-].
  - by intros [= <- <-].
  - destruct (send_raises websocket); run; by intros [= <- <-].
Qed.



(** Texts followed by the peer's disconnection: the loop ends in
    [WebSocketDisconnect] with the registry as it was. *)
Lemma receive_loop_until_disconnect websocket task_id user texts : ∀ c,
  send_raises websocket = false →
  ∃ c',
    receive_loop websocket task_id user
      ((text <$> texts) ++ [WebSocketDisconnect]) c =
      (Raise (OtherException "WebSocketDisconnect"), c')
    ∧ active_connections c' = active_connections c
    ∧ accepted c' = accepted c
    ∧ closed c' = closed c.
Proof.
  induction texts as [|data texts IH]; intros c Hs; simpl.
  - by exists c.
  - unfold bind at 1.
    destruct (handle_text websocket task_id user data c) as [r c1] eqn:Hturn.
    apply handle_text_keeps_registry in Hturn as (Hreg & Hacc & Hcl & Hr).
    rewrite (Hr Hs).
    destruct (IH c1 Hs) as (c' & Hloop & Hreg' & Hacc' & Hcl').
    exists c'. split; [exact Hloop|]. by rewrite Hreg', Hacc', Hcl'.
Qed.

(** X17. A whole WebSocket session.  A participant whose socket is still
    connecting (neither accepted nor closed before) and not yet listed
    connects, sends any number of texts and disconnects: the
    endpoint returns normally, the socket has been accepted and never closed
    by the server, and the registry is back to what it was before the
    session (with the task's entry deleted again if the session had created
    it). *)
Theorem websocket_session_unregisters c websocket task_id t user task texts :
  t ≠ "" →
  get_current_user_from_token verify_token t (pending (db c)) = Some user →
  tasks (pending (db c)) !! task_id = Some task →
  check_task_access (Some user) (Some task) = true →
  accept_raises websocket = false →
  websocket ∉ accepted c →
  websocket ∉ fst <$> closed c →
  send_raises websocket = false →
  no_empty_list (active_connections c) →
  websocket ∉ default [] (active_connections c !! task_id) →
  ∃ c',
    websocket_session websocket task_id (Some t)
      ((text <$> texts) ++ [WebSocketDisconnect]) c = (Return tt, c')
    ∧ active_connections c' = active_connections c
    ∧ accepted c' = accepted c ++ [websocket]
    ∧ closed c' = closed c.
Proof.
  intros Ht Hu Htask Hacc Haccept Hfresh Hopen Hs Hwf Hnotin.
  unfold chat_service.websocket_session, bind at 1.
  rewrite (websocket_endpoint_admitted c websocket task_id t user task
             Ht Hu Htask Hacc Haccept Hfresh Hopen Hs).
  unfold try_except.
  match goal with |- context [receive_loop _ _ _ _ ?c1] =>
    destruct (receive_loop_until_disconnect websocket task_id user texts c1 Hs)
      as (c2 & -> & Hreg & Hacc2 & Hcl)
  end.
  simpl. rewrite disconnect_run. eexists. split; [reflexivity|]. simpl.
  rewrite Hreg, Hacc2, Hcl. simpl. split; [|done].
  rewrite lookup_insert_eq. rewrite list_remove_app_notin by done.
  destruct (active_connections c !! task_id) as [l|] eqn:Hl; simpl.
  - destruct l as [|w l]; [by destruct (Hwf _ _ Hl)|].
    rewrite insert_insert_eq. by apply insert_id.
  - rewrite delete_insert_eq. by apply delete_id.
Qed.

(** *** The HTTP handlers, given the credential *)

(** Who [authorize] lets through, and what it answers to the others. *)
Lemma authorize_cases authorization task_id c r c' :
  authorize verify_token authorization task_id c = (r, c') →
  c' = c
  ∧ match r with
    | Return user =>
        ∃ a token task,
          authorization = Some a
          ∧ String.prefix "Bearer " a = true
          ∧ py_split a "Bearer " !! 1%nat = Some token
          ∧ get_current_user_from_token verify_token token (pending (db c))
            = Some user
          ∧ tasks (pending (db c)) !! task_id = Some task
          ∧ check_task_access (Some user) (Some task) = true
    | Raise e =>
        e = HTTPException 401 "Требуется аутентификация"
        ∨ e = HTTPException 401 "Неверный токен"
        ∨ e = HTTPException 404 "Задание не найдено"
        ∨ e = HTTPException 403 "Нет доступа к чату этого задания"
    end.
Proof.
  run_chat. destruct authorization as [a|]; run;
    [|intros [= <- <-]; split; [done|by left]].
  destruct (String.prefix "Bearer " a) eqn:Hpre;
    [|rewrite orb_true_r; run; intros [= <- <-]; split; [done|by left]].
  rewrite orb_false_r.
  case_bool_decide as Hempty; run;
    [intros [= <- <-]; split; [done|by left]|].
  destruct (bearer_token_exists _ Hpre) as [token Htok]. rewrite Htok. run.
  destruct (get_current_user_from_token verify_token token (pending (db c)))
    as [user|] eqn:Hu;
    [|intros [= <- <-]; split; [done|right; by left]].
  destruct (tasks (pending (db c)) !! task_id) as [task|] eqn:Htask;
    [|intros [= <- <-]; split; [done|right; right; by left]].
  destruct (check_task_access (Some user) (Some task)) eqn:Hacc;
    intros [= <- <-]; (split; [done|]).
  - by exists a, token, task.
  - by do 3 right.
Qed.


(** X19. What [get_task_messages] discloses, given the credential.  When
    it returns, the caller presented a bearer token of a user who created or
    took the task; the answer is a list of at most [limit] stored messages,
    all of them of the requested task; and nothing has been changed. *)
Theorem get_task_messages_privacy task_id authorization skip limit c resp c' :
  get_task_messages task_id authorization skip limit c = (Return resp, c') →
  c' = c
  ∧ (∃ a token user task,
       authorization = Some a
       ∧ py_split a "Bearer " !! 1%nat = Some token
       ∧ get_current_user_from_token verify_token token (pending (db c))
         = Some user
       ∧ tasks (pending (db c)) !! task_id = Some task
       ∧ check_task_access (Some user) (Some task) = true)
  ∧ ∃ l,
      resp = ChatMessageListResponse l
      ∧ (length l ≤ Z.to_nat limit)%nat
      ∧ ∀ m, m ∈ l →
          m ∈ chat_messages (pending (db c))
          ∧ ChatMessage.task_id m = task_id.
Proof.
  unfold chat_service.get_task_messages.
  unfold try_except, bind at 1.
  destruct (authorize verify_token authorization task_id c)
    as [[user|e0] c0] eqn:Hauth;
    apply authorize_cases in Hauth as [-> Hauth].
  - destruct Hauth as (a & token & task & -> & _ & Htok & Hu & Htask & Hacc).
    run_chat. destruct (_ || _ || _ || _); run; [done|].
    intros [= <- <-]. split; [by destruct c as [[]]|].
    split; [by exists a, token, user, task|].
    eexists. split; [done|]. split.
    + rewrite length_reverse, length_take. lia.
    + intros m Hm. rewrite elem_of_reverse in Hm.
      apply subseteq_take, subseteq_drop in Hm.
      rewrite order_by_desc_perm in Hm.
      by apply list_elem_of_filter in Hm as [? ?].
  - destruct Hauth as [-> | [-> | [-> | ->]]]; run; done.
Qed.

End chat_service_coverage.

(** ** Across the services *)

Section across_services.
Context (verify_token : string → option Payload).
Context (utcnow : Z).
Context (accept_raises send_raises : WebSocket → bool).

#[local] Arguments chat_service.check_task_access : simpl never.

(** X20. Taking a task is what opens its chat.  After a successful
    [take_task], [check_task_access] on the committed task holds for exactly
    two users: the task's creator and the user who took it. *)
Theorem take_task_grants_chat_access db task_id cu task r s :
  tasks db !! task_id = Some task →
  quest_service.take_task utcnow task_id cu (begin db) = (Return r, s) →
  ∀ uid u,
    chat_service.check_task_access (Some (uid, u))
      (tasks (db_after db s) !! task_id) = true
    ↔ uid = Task.creator_id task ∨ uid = cu.
Proof.
  intros Ht Hrun uid u.
  apply take_task_cases in Hrun
    as [(e & ? & _)|(task' & Ht' & _ & _ & _ & ->)]; [done|].
  assert (task' = task) as -> by congruence.
  unfold db_after. simpl. rewrite lookup_insert_eq.
  unfold chat_service.check_task_access. simpl.
  rewrite orb_true_iff, !bool_decide_eq_true. split.
  - intros [?|[= ?]]; auto.
  - intros [?|?]; [by left|right; congruence].
Qed.

(** X21. The chat does not look at [is_active].  For a deactivated account
    that created or took a task, the same token that [quest_service]
    refuses with 400 (inactive user) passes the WebSocket handshake of
    [chat_service]: the socket, which is still connecting, is accepted and
    registered for the task. *)
Theorem inactive_user_can_still_chat c websocket task_id token name uid u
    task :
  usernames_unique (pending (db c)) →
  py_in "Bearer " token = false →
  token ≠ "" →
  verify_token token = Some {| sub := Some name |} →
  name ≠ "" →
  users (pending (db c)) !! uid = Some u →
  User.username u = name →
  User.is_active u = false →
  tasks (pending (db c)) !! task_id = Some task →
  Task.creator_id task = uid ∨ Task.executor_id task = Some uid →
  accept_raises websocket = false →
  websocket ∉ accepted c →
  websocket ∉ fst <$> closed c →
  send_raises websocket = false →
  quest_service.get_current_user verify_token ("Bearer " +:+ token) (db c) =
    (Raise (HTTPException 400 "Пользователь неактивен"), db c)
  ∧ ∃ c',
      chat_service.websocket_endpoint verify_token accept_raises send_raises
        websocket task_id (Some token) c = (Return (Some (uid, u)), c')
      ∧ websocket ∈ default [] (active_connections c' !! task_id).
Proof.
  intros Huniq Hin Htoken Hv Hname Hu Hun Hact Htask Hrole Haccept Hfresh
    Hopen Hs.
  assert (user_by_username (pending (db c)) name = Some (uid, u)) as Hfind.
  { subst name. by apply user_by_username_found. }
  split.
  - destruct (bearer_token_round_trip token Hin) as [Hpre Htok].
    generalize dependent ("Bearer " +:+ token). intros a Hpre Htok.
    unfold quest_service.get_current_user. run.
    rewrite bool_decide_eq_false_2 by (by intros ->).
    rewrite Hpre. run. rewrite Htok. run. rewrite Hv. run.
    rewrite bool_decide_eq_false_2 by done. run.
    rewrite Hfind. run. by rewrite Hact.
  - eexists. split.
    + apply (websocket_endpoint_admitted verify_token accept_raises
               send_raises c websocket task_id token (uid, u) task);
        try done.
      * unfold chat_service.get_current_user_from_token. rewrite Hv. simpl.
        by rewrite bool_decide_eq_false_2.
      * unfold chat_service.check_task_access.
        apply orb_true_iff. rewrite !bool_decide_eq_true.
        destruct Hrole; [left|right]; congruence.
    + simpl. rewrite lookup_insert_eq. simpl.
      apply elem_of_app. right. apply list_elem_of_here.
Qed.

End across_services.

(** ** chat_service on the concrete marketplace, continued *)

Lemma connect_then_disconnect_witness :
  ∃ c1 c2,
    chat_service.connect scenario.nobody 12%nat 1
      (scenario.chat {[1 := [10%nat; 11%nat]]}) = (Return tt, c1)
    ∧ chat_service.disconnect 12%nat 1 c1 = (Return tt, c2)
    ∧ active_connections c2 = {[1 := [10%nat; 11%nat]]}.
Proof.
  destruct (connect_then_disconnect scenario.nobody
              (scenario.chat {[1 := [10%nat; 11%nat]]}) 12%nat 1 eq_refl)
    as (c1 & c2 & Hc & Hd & _ & Hreg).
  - apply not_elem_of_nil.
  - apply not_elem_of_nil.
  - apply (bool_decide_unpack _). vm_compute. exact I.
  - apply (bool_decide_unpack _). vm_compute. exact I.
  - exists c1, c2. split; [exact Hc|]. split; [exact Hd | exact Hreg].
Defined.

Lemma registry_has_no_empty_list_witness :
  no_empty_list
    (active_connections
       (snd (chat_service.disconnect 10%nat 1
               (scenario.chat {[1 := [10%nat]; 2 := [11%nat]]})))).
Proof.
  refine (registry_has_no_empty_list scenario.nobody scenario.nobody
            (scenario.chat {[1 := [10%nat]; 2 := [11%nat]]}) 10%nat 1
            (error_frame "") None _ _ _ (or_intror (or_introl eq_refl))).
  apply (bool_decide_unpack _). vm_compute. exact I.
Defined.



Lemma websocket_session_unregisters_witness :
  ∃ c',
    chat_service.websocket_session scenario.verify_token 40 scenario.nobody
      scenario.nobody scenario.json_loads scenario.py_strip 12%nat 1
      (Some "bob-token")
      [text "on my way"; text "   "; text "not json"; WebSocketDisconnect]
      (scenario.chat {[1 := [10%nat]]}) = (Return tt, c')
    ∧ active_connections c' = {[1 := [10%nat]]}
    ∧ accepted c' = [12%nat]
    ∧ closed c' = [].
Proof.
  destruct (websocket_session_unregisters scenario.verify_token 40
              scenario.nobody scenario.nobody scenario.json_loads
              scenario.py_strip (scenario.chat {[1 := [10%nat]]}) 12%nat 1
              "bob-token" (2, scenario.bob) scenario.fix_roof
              ["on my way"; "   "; "not json"]
              ltac:(discriminate) ltac:(vm_compute; reflexivity)
              eq_refl eq_refl eq_refl
              ltac:(apply not_elem_of_nil) ltac:(apply not_elem_of_nil)
              eq_refl
              ltac:(apply (bool_decide_unpack _); vm_compute; exact I)
              ltac:(apply (bool_decide_unpack _); vm_compute; exact I))
    as (c' & Hrun & Hreg & Hacc & Hcl).
  exists c'. split; [exact Hrun|].
  split; [exact Hreg|]. split; [exact Hacc | exact Hcl].
Defined.

Lemma get_task_messages_privacy_witness :
  ∃ l,
    fst (chat_service.get_task_messages scenario.verify_token 1
           (Some "Bearer bob-token") 0 2 (scenario.chat ∅)) =
      Return (ChatMessageListResponse l)
    ∧ (length l ≤ 2)%nat
    ∧ ∀ m, m ∈ l → ChatMessage.task_id m = 1.
Proof.
  destruct (get_task_messages_privacy scenario.verify_token 1
              (Some "Bearer bob-token") 0 2 (scenario.chat ∅) _ _ eq_refl)
    as (_ & _ & l & Hresp & Hlen & Hall).
  exists l. split; [by rewrite <- Hresp|]. split; [exact Hlen|].
  intros m Hm. exact (proj2 (Hall m Hm)).
Defined.

Lemma take_task_grants_chat_access_witness :
  chat_service.check_task_access (Some (2, scenario.bob))
    (tasks (db_after scenario.market
              (snd (quest_service.take_task 9 3 2 (begin scenario.market))))
       !! 3) = true.
Proof.
  apply (take_task_grants_chat_access 9 scenario.market 3 2 scenario.walk_dog
           _ _ eq_refl eq_refl 2 scenario.bob).
  by right.
Defined.

Lemma inactive_user_can_still_chat_witness :
  quest_service.get_current_user scenario.verify_token "Bearer alice-token"
    (begin scenario.suspended) =
    (Raise (HTTPException 400 "Пользователь неактивен"),
     begin scenario.suspended)
  ∧ ∃ c' u,
      chat_service.websocket_endpoint scenario.verify_token scenario.nobody
        scenario.nobody 14%nat 1 (Some "alice-token")
        {| db := begin scenario.suspended; active_connections := ∅;
           accepted := []; sent := []; closed := []; logged := [] |} =
        (Return (Some (1, u)), c')
      ∧ 14%nat ∈ default [] (active_connections c' !! 1).
Proof.
  assert (usernames_unique scenario.suspended) as Huniq.
  { assert (map_Forall (λ i u, map_Forall (λ j v,
              User.username u = User.username v → i = j)
              (users scenario.suspended)) (users scenario.suspended)) as Hall.
    { apply (bool_decide_unpack _). vm_compute. exact I. }
    intros i j u v Hi Hj. exact (Hall i u Hi j v Hj). }
  destruct (inactive_user_can_still_chat scenario.verify_token
              scenario.nobody scenario.nobody
              {| db := begin scenario.suspended; active_connections := ∅;
                 accepted := []; sent := []; closed := []; logged := [] |}
              14%nat 1 "alice-token" "alice" 1 _ scenario.fix_roof
              Huniq eq_refl ltac:(discriminate) eq_refl ltac:(discriminate)
              eq_refl eq_refl eq_refl eq_refl (or_introl eq_refl) eq_refl
              ltac:(apply not_elem_of_nil) ltac:(apply not_elem_of_nil)
              eq_refl)
    as (Hquest & c' & Hchat & Hin).
  split; [exact Hquest|]. eexists c', _. split; [exact Hchat | exact Hin].
Defined.

Lemma health_check_counts_witness :
  connections
    (active_connections
       (snd (chat_service.connect scenario.nobody 12%nat 1
               (scenario.chat {[1 := [10%nat; 11%nat]; 2 := [13%nat]]}))))
  = 4%nat.
Proof.
  exact (proj1 (proj2 (health_check_counts scenario.nobody scenario.nobody
                         (scenario.chat {[1 := [10%nat; 11%nat];
                                          2 := [13%nat]]}) 12%nat 1))
           _ eq_refl eq_refl).
Defined.



(** ** api_gateway *)

Section api_gateway_coverage.
Context (verify_token : string → option Payload).
Import api_gateway.

Abbreviation gateway_middleware := (gateway_middleware verify_token).

(** X22. The gateway forwards nothing without a verified token.  Whenever
    [gateway_middleware] hands a request to [forward_request], the path is
    not public, the [Authorization] header starts with [Bearer ] and the
    token after it passes [verify_token]; the target is the URL registered
    for the service named by the path's first segment, and the path sent on
    is the request's path with the leading service segment taken off.  The
    middleware never raises (the token is always there after the
    [startswith] check) and its 502 answer for an unregistered service is
    never given. *)
Theorem gateway_never_forwards_unauthenticated path auth_header :
  (∀ service_url service_path,
     gateway_middleware path auth_header =
       Return (forward_request service_url service_path) →
     (path ∉ PUBLIC_ENDPOINTS)
     ∧ (∃ a token payload,
          auth_header = Some a
          ∧ String.prefix "Bearer " a = true
          ∧ py_split a "Bearer " !! 1%nat = Some token
          ∧ verify_token token = Some payload)
     ∧ ∃ service,
         String.prefix ("/" +:+ service +:+ "/") path = true
         ∧ SERVICE_URLS !! service = Some service_url
         ∧ service_path = py_replace_first ("/" +:+ service) "" path)
  ∧ (∀ e, gateway_middleware path auth_header ≠ Raise e)
  ∧ (∀ detail,
       gateway_middleware path auth_header ≠ Return (JSONResponse 502 detail)).
Proof.
  unfold api_gateway.gateway_middleware.
  case_bool_decide as Hpub; simpl; [done|].
  destruct (String.prefix "/docs" path); simpl; [done|].
  destruct (String.prefix "/redoc" path); simpl; [done|].
  assert (∀ service url,
    String.prefix ("/" +:+ service +:+ "/") path = true →
    SERVICE_URLS !! service = Some url →
    let answer :=
      match auth_header with
      | None => Return (JSONResponse 401 "Требуется аутентификация")
      | Some a =>
          if bool_decide (a = "") || negb (String.prefix "Bearer " a)
          then Return (JSONResponse 401 "Требуется аутентификация")
          else
            match py_split a "Bearer " !! 1%nat with
            | None => Raise (OtherException "IndexError")
            | Some token =>
                match verify_token token with
                | None => Return (JSONResponse 401 "Неверный токен")
                | Some payload =>
                    match SERVICE_URLS !! service with
                    | None =>
                        Return (JSONResponse 502
                                  ("Сервис " +:+ service +:+ " недоступен"))
                    | Some service_url =>
                        Return (forward_request service_url
                                  (py_replace_first ("/" +:+ service) "" path))
                    end
                end
            end
      end in
    (∀ service_url service_path,
       answer = Return (forward_request service_url service_path) →
       (path ∉ PUBLIC_ENDPOINTS)
       ∧ (∃ a token payload,
            auth_header = Some a
            ∧ String.prefix "Bearer " a = true
            ∧ py_split a "Bearer " !! 1%nat = Some token
            ∧ verify_token token = Some payload)
       ∧ ∃ service,
           String.prefix ("/" +:+ service +:+ "/") path = true
           ∧ SERVICE_URLS !! service = Some service_url
           ∧ service_path = py_replace_first ("/" +:+ service) "" path)
    ∧ (∀ e, answer ≠ Raise e)
    ∧ (∀ detail, answer ≠ Return (JSONResponse 502 detail))) as Hservice.
  { intros service url Hpre Hurl. cbv zeta. rewrite Hurl.
    destruct auth_header as [a|]; [|done].
    destruct (String.prefix "Bearer " a) eqn:Hbearer;
      [|by rewrite orb_true_r].
    rewrite orb_false_r. case_bool_decide; [done|].
    destruct (bearer_token_exists _ Hbearer) as [token Htok]. rewrite Htok.
    destruct (verify_token token) as [payload|] eqn:Hv; [|done].
    split; [|done].
    intros service_url service_path [= <- <-]. split; [done|].
    split; [by exists a, token, payload|]. by exists service. }
  destruct (String.prefix "/auth/" path) eqn:Hauth;
    [by apply (Hservice "auth" "http://localhost:8001")|].
  destruct (String.prefix "/quest/" path) eqn:Hquest;
    [by apply (Hservice "quest" "http://localhost:8002")|].
  destruct (String.prefix "/chat/" path) eqn:Hchat;
    [by apply (Hservice "chat" "http://localhost:8003")|].
  destruct (String.prefix "/notification/" path) eqn:Hnotification;
    [by apply (Hservice "notification" "http://localhost:8004")|].
  done.
Qed.

Ltac not_public :=
  unfold PUBLIC_ENDPOINTS; rewrite !elem_of_cons, elem_of_nil;
  cbv [String.append]; fold String.append;
  intros Hpublic; repeat destruct Hpublic as [Hpublic|Hpublic];
  simplify_eq.

(** X23. Where an authenticated request goes.  With a header whose token
    verifies, a path [/auth/...], [/quest/...], [/chat/...] or
    [/notification/...] that is not one of the public endpoints is forwarded
    to the service on port 8001, 8002, 8003 or 8004, and the service is
    asked for the rest of the path, from the second [/] on. *)
Theorem gateway_strips_the_service_prefix rest a token payload :
  String.prefix "Bearer " a = true →
  py_split a "Bearer " !! 1%nat = Some token →
  verify_token token = Some payload →
  (rest ∉ ["register"; "login"; "health"] →
   gateway_middleware ("/auth/" +:+ rest) (Some a) =
     Return (forward_request "http://localhost:8001" ("/" +:+ rest)))
  ∧ (rest ≠ "health" →
     gateway_middleware ("/quest/" +:+ rest) (Some a) =
       Return (forward_request "http://localhost:8002" ("/" +:+ rest)))
  ∧ (rest ≠ "health" →
     gateway_middleware ("/chat/" +:+ rest) (Some a) =
       Return (forward_request "http://localhost:8003" ("/" +:+ rest)))
  ∧ (rest ≠ "health" →
     gateway_middleware ("/notification/" +:+ rest) (Some a) =
       Return (forward_request "http://localhost:8004" ("/" +:+ rest))).
Proof.
  intros Hbearer Htok Hv.
  assert (a ≠ "") as Ha by (by intros ->).
  repeat split; intros Hrest; unfold api_gateway.gateway_middleware;
    (rewrite bool_decide_eq_false_2;
     [|not_public; try done;
       apply Hrest; rewrite !elem_of_cons; auto]);
    rewrite (bool_decide_eq_false_2 _ Ha), Hbearer, Htok, Hv;
    cbv [String.append]; fold String.append; by destruct rest.
Qed.

End api_gateway_coverage.

(** ** notification_service *)

Section notification_service_coverage.
Context (utcnow : Z).
Import notification_service.

Lemma py_slice_from_last {A} (n : nat) (l : list A) :
  (0 < n)%nat →
  py_slice_from (- Z.of_nat n) l = drop (length l - n) l.
Proof.
  intros Hn. unfold py_slice_from.
  rewrite bool_decide_eq_true_2 by lia. f_equal. lia.
Qed.

(** X24. [GET /notifications] returns, with its length as [count], the
    slice [notifications[-limit:]]: for a positive [limit] the last
    [min(limit, n)] notifications in the order they were recorded.  [limit]
    is not validated: for [limit = 0] the answer is every notification, not
    none, and for a negative [limit] it is all but the first [-limit]. *)
Theorem get_notifications_window limit (notifications : list Notification) :
  ∃ answer,
    get_notifications limit notifications =
      (Return (length answer, answer), notifications)
    ∧ (0 < limit →
       answer = drop (length notifications - Z.to_nat limit) notifications
       ∧ length answer = (Z.to_nat limit `min` length notifications)%nat
       ∧ answer `suffix_of` notifications)
    ∧ (limit = 0 → answer = notifications)
    ∧ (limit < 0 → answer = drop (Z.to_nat (- limit)) notifications).
Proof.
  exists (py_slice_from (- limit) notifications).
  split; [reflexivity|]. split; [|split].
  - intros Hlimit.
    assert (py_slice_from (- limit) notifications
            = drop (length notifications - Z.to_nat limit) notifications)
      as ->.
    { rewrite <- (py_slice_from_last (Z.to_nat limit)) by lia.
      f_equal. lia. }
    split; [done|]. split; [rewrite length_drop; lia|apply suffix_drop].
  - intros ->. done.
  - intros Hlimit. unfold py_slice_from.
    by rewrite bool_decide_eq_false_2 by lia.
Qed.

(** X25. [rabbitmq_callback] tells the kind of a message by its keys, and
    the message that [complete_task] publishes carries [creator_username]
    and [price]: it is recorded as [task_created], whereas
    [process_notification] with its routing key [task.completed] records it
    as [task_completed].  The messages of [create_task] and [take_task] are
    recorded as what they are.  [rabbitmq_callback] records
    [task_completed] only for a message that has neither a
    [creator_username] nor a [creator_id]. *)
Theorem rabbitmq_callback_files_completions_as_creations notifications :
  (∀ task_id executor_id executor_username creator_id creator_username price
     timestamp,
     let message :=
       task_completed_message task_id executor_id executor_username
         creator_id creator_username price timestamp in
     rabbitmq_callback utcnow message notifications =
       (Return tt,
        notifications ++
          [{| type := "task_created"; task_id := Some (VInt task_id);
              timestamp := utcnow; data := message |}])
     ∧ process_notification utcnow message "task.completed" notifications =
         (Return tt,
          notifications ++
            [{| type := "task_completed"; task_id := Some (VInt task_id);
                timestamp := utcnow; data := message |}]))
  ∧ (∀ task_id title creator_id creator_username price timestamp,
       let message :=
         task_created_message task_id title creator_id creator_username
           price timestamp in
       rabbitmq_callback utcnow message notifications =
         (Return tt,
          notifications ++
            [{| type := "task_created"; task_id := Some (VInt task_id);
                timestamp := utcnow; data := message |}]))
  ∧ (∀ task_id executor_id executor_username creator_id title timestamp,
       let message :=
         task_taken_message task_id executor_id executor_username creator_id
           title timestamp in
       rabbitmq_callback utcnow message notifications =
         (Return tt,
          notifications ++
            [{| type := "task_taken"; task_id := Some (VInt task_id);
                timestamp := utcnow; data := message |}]))
  ∧ (∀ message notifications',
       rabbitmq_callback utcnow message notifications =
         (Return tt, notifications') →
       (∃ n, notifications' = notifications ++ [n]
             ∧ type n = "task_completed") →
       message !! "creator_username" = None
       ∧ message !! "creator_id" = None).
Proof.
  split; [|split; [|split]].
  - intros. split; reflexivity.
  - reflexivity.
  - reflexivity.
  - intros message notifications'. unfold rabbitmq_callback, has_key.
    destruct (message !! "creator_username") as [v1|] eqn:H1;
      destruct (message !! "price") as [v2|] eqn:H2;
      destruct (message !! "executor_username") as [v3|] eqn:H3;
      destruct (message !! "creator_id") as [v4|] eqn:H4;
      rewrite ?bool_decide_eq_true_2 by eauto;
      rewrite ?bool_decide_eq_false_2 by (by intros [? ?]);
      simpl; unfold modify, ret;
      intros [= <-] (n & Happ & Htype);
      first
        [ apply app_inj_tail in Happ as [_ <-]; simpl in Htype; done
        | apply (f_equal length) in Happ; rewrite length_app in Happ;
          simpl in Happ; lia ].
Qed.

End notification_service_coverage.

(** ** The gateway and the notifications on concrete requests *)

Lemma gateway_never_forwards_unauthenticated_witness :
  ∃ token payload,
    py_split "Bearer alice-token" "Bearer " !! 1%nat = Some token
    ∧ scenario.verify_token token = Some payload.
Proof.
  destruct (proj1 (gateway_never_forwards_unauthenticated
                     scenario.verify_token "/quest/tasks"
                     (Some "Bearer alice-token"))
              "http://localhost:8002" "/tasks"
              ltac:(vm_compute; reflexivity))
    as (_ & (a & token & payload & Ha & _ & Htok & Hv) & _).
  injection Ha as <-. by exists token, payload.
Defined.

Lemma gateway_strips_the_service_prefix_witness :
  api_gateway.gateway_middleware scenario.verify_token "/quest/tasks/3/take"
    (Some "Bearer bob-token") =
    Return (api_gateway.forward_request "http://localhost:8002"
              "/tasks/3/take").
Proof.
  exact (proj1 (proj2 (gateway_strips_the_service_prefix
                         scenario.verify_token "tasks/3/take"
                         "Bearer bob-token" "bob-token"
                         {| sub := Some "bob" |} eq_refl eq_refl eq_refl))
           ltac:(discriminate)).
Defined.

Lemma get_notifications_window_witness :
  ∃ answer,
    notification_service.get_notifications 1
      (snd (notification_service.handle_task_taken 8
              (notification_service.task_taken_message 3 2 "bob" 1
                 "Walk the dog" 8)
              (snd (notification_service.handle_task_created 7
                      (notification_service.task_created_message 3
                         "Walk the dog" 1 "alice" 20 7) [])))) =
      (Return (1%nat, answer),
       snd (notification_service.handle_task_taken 8
              (notification_service.task_taken_message 3 2 "bob" 1
                 "Walk the dog" 8)
              (snd (notification_service.handle_task_created 7
                      (notification_service.task_created_message 3
                         "Walk the dog" 1 "alice" 20 7) []))))
    ∧ notification_service.type <$> answer = ["task_taken"].
Proof.
  destruct (get_notifications_window 1
              (snd (notification_service.handle_task_taken 8
                      (notification_service.task_taken_message 3 2 "bob" 1
                         "Walk the dog" 8)
                      (snd (notification_service.handle_task_created 7
                              (notification_service.task_created_message 3
                                 "Walk the dog" 1 "alice" 20 7) [])))))
    as (answer & Hrun & Hpos & _).
  destruct (Hpos ltac:(lia)) as (-> & _ & _).
  eexists. split; [exact Hrun|]. reflexivity.
Defined.

(** ** Invariants of the database, and single assignment *)

Section quest_service_invariants.
Context (utcnow server_now : Z).
Context `{Stores}.
Import quest_service.

(** X26. The two invariants of the data model survive every lifecycle
    handler: if nobody executes a task of their own and usernames are
    unique before [create_task], [take_task] or [complete_task] runs, both
    hold in the database the call leaves behind, whatever it answers. *)
Theorem lifecycle_keeps_invariants db task_data task_id cu r s :
  executor_is_not_creator db →
  usernames_unique db →
  create_task server_now task_data cu (begin db) = (r, s)
  ∨ take_task utcnow task_id cu (begin db) = (r, s)
  ∨ complete_task utcnow task_id cu (begin db) = (r, s) →
  executor_is_not_creator (db_after db s)
  ∧ usernames_unique (db_after db s).
Proof.
  intros Hinv Huniq [Hrun|[Hrun|Hrun]].
  - split.
    + pose proof (create_task_keeps_invariant _ _ _ _ _ _ Hinv Hrun) as Hall.
      apply create_task_cases in Hrun
        as [(e & -> & ->)|(c & _ & _ & _ & -> & ->)]; [exact Hinv|].
      simpl in Hall. rewrite Forall_singleton in Hall. exact Hall.
    + apply create_task_cases in Hrun
        as [(e & -> & ->)|(c & _ & _ & _ & -> & ->)]; exact Huniq.
  - split.
    + pose proof (take_task_keeps_invariant _ _ _ _ _ _ Hinv Hrun) as Hall.
      apply take_task_cases in Hrun
        as [(e & -> & ->)|(task & _ & _ & _ & -> & ->)]; [exact Hinv|].
      simpl in Hall. rewrite Forall_singleton in Hall. exact Hall.
    + apply take_task_cases in Hrun
        as [(e & -> & ->)|(task & _ & _ & _ & -> & ->)]; exact Huniq.
  - split.
    + pose proof (complete_task_keeps_invariant _ _ _ _ _ _ Hinv Hrun)
        as Hall.
      apply complete_task_cases in Hrun
        as [(e & -> & ->)
           |(task & ex & c & e & db' & _ & _ & _ & _ & _ & _ & _ & _ & _
             & -> & _)]; [exact Hinv|].
      simpl in Hall. rewrite Forall_singleton in Hall. exact Hall.
    + apply complete_task_cases in Hrun
        as [(e & -> & ->)
           |(task & ex & c & e & db' & Ht & Hcr & _ & Hex & _ & Hc & He & _
             & _ & -> & _ & _ & _ & _ & Hframe & _ & _ & Hparties)];
        [exact Huniq|].
      unfold db_after. simpl.
      assert (ex ≠ cu) as Hne.
      { intros ->. apply (Hinv task_id task Ht). congruence. }
      destruct (Hparties Hne) as [Hc' He'].
      assert (∀ i u', users db' !! i = Some u' →
                ∃ u, users db !! i = Some u
                     ∧ User.username u' = User.username u) as Hname.
      { intros i u' Hi. destruct (decide (i = cu)) as [->|Hicu].
        { rewrite Hc' in Hi. injection Hi as <-. by exists c. }
        destruct (decide (i = ex)) as [->|Hiex].
        { rewrite He' in Hi. injection Hi as <-. by exists e. }
        rewrite Hframe in Hi by done. by exists u'. }
      intros i j u v Hi Hj Heq.
      apply Hname in Hi as (u0 & Hi & Hu). apply Hname in Hj as (v0 & Hj & Hv).
      apply (Huniq i j u0 v0 Hi Hj). congruence.
Qed.

(** X27. A task is taken once.  After a successful [take_task] the task is
    [IN_PROGRESS] with the taker as executor in the committed database, and
    every further [take_task] on it, by anyone, is refused with 400 and
    changes nothing: the executor cannot be replaced. *)
Theorem no_double_take db task_id cu r s :
  take_task utcnow task_id cu (begin db) = (Return r, s) →
  let db' := db_after db s in
  Task.status <$> tasks db' !! task_id = Some IN_PROGRESS
  ∧ Task.executor_id <$> tasks db' !! task_id = Some (Some cu)
  ∧ ∀ cu',
      take_task utcnow task_id cu' (begin db') =
        (Raise (HTTPException 400 "Задание недоступно для взятия"),
         begin db').
Proof.
  intros Hrun. simpl.
  apply take_task_cases in Hrun
    as [(e & ? & _)|(task & Ht & _ & _ & _ & ->)]; [done|].
  unfold db_after. simpl. rewrite lookup_insert_eq.
  split; [done|]. split; [done|]. intros cu'.
  eapply take_task_not_open; [apply lookup_insert_eq|done].
Qed.

(** X29. A task the database does not take.  When the creator can pay but
    the database refuses the row, [create_task] answers 400 and nothing is
    stored, committed or published.  PostgreSQL refuses, for one, a category
    of more than 50 characters, which the request schema lets through. *)
Theorem create_task_refused_by_the_database db cu c task_data :
  users db !! cu = Some c →
  (User.balance c <? TaskCreate.price task_data)%float = false →
  stores_task
    {| Task.title := TaskCreate.title task_data;
       Task.description := TaskCreate.description task_data;
       Task.price := TaskCreate.price task_data;
       Task.status := OPEN;
       Task.category := TaskCreate.category task_data;
       Task.deadline := TaskCreate.deadline task_data;
       Task.created_at := server_now;
       Task.updated_at := None;
       Task.creator_id := cu;
       Task.executor_id := None |} = false →
  create_task server_now task_data cu (begin db) =
    (Raise (HTTPException 400 "Не удалось создать задание"), begin db).
Proof.
  intros Hc Hbal Hstores. unfold create_task. run. rewrite Hc. run.
  rewrite Hbal. run. by rewrite Hstores.
Qed.

End quest_service_invariants.

Section chat_service_post.
Context (verify_token : string → option Payload).
Context (server_now : Z).
Context (send_raises : WebSocket → bool).
Context `{Stores}.
Import chat_service.

#[local] Arguments check_task_access : simpl never.
#[local] Arguments chat_service.broadcast : simpl never.
#[local] Arguments get_current_user_from_token : simpl never.


End chat_service_post.

Lemma lifecycle_keeps_invariants_witness :
  executor_is_not_creator
    (db_after scenario.market
       (snd (quest_service.complete_task 9 1 1 (begin scenario.market))))
  ∧ usernames_unique
      (db_after scenario.market
         (snd (quest_service.complete_task 9 1 1 (begin scenario.market)))).
Proof.
  exact (lifecycle_keeps_invariants 9 7 scenario.market scenario.new_task 1 1
           _ _ market_invariant market_usernames_unique
           (or_intror (or_intror eq_refl))).
Defined.

Lemma no_double_take_witness :
  quest_service.take_task 9 3 3
    (begin (db_after scenario.market
              (snd (quest_service.take_task 9 3 2 (begin scenario.market)))))
  = (Raise (HTTPException 400 "Задание недоступно для взятия"),
     begin (db_after scenario.market
              (snd (quest_service.take_task 9 3 2 (begin scenario.market))))).
Proof.
  refine (proj2 (proj2 (no_double_take 9 scenario.market 3 2 _ _ _)) 3).
  vm_compute. reflexivity.
Defined.


(** Alice can pay for the task, but its category does not fit the column:
    400, and the marketplace is as it was. *)
Lemma create_task_refused_by_the_database_witness :
  quest_service.create_task 7 scenario.wordy_task 1 (begin scenario.market) =
    (Raise (HTTPException 400 "Не удалось создать задание"),
     begin scenario.market).
Proof.
  exact (create_task_refused_by_the_database 7 scenario.market 1
           scenario.alice scenario.wordy_task eq_refl eq_refl eq_refl).
Defined.
